(** * bland_functions: request construction, validation and error
      normalisation of the API wrappers

    Every module of the repository wraps one REST operation: it validates
    its arguments (raising [ValueError] before anything is sent), builds
    the headers and the JSON body or query parameters, performs one HTTP
    request and either returns the decoded response or a normalised error
    dictionary.

    Conventions of the embedding.
    - Python [str] is [string], read as ASCII text (tokens, identifiers,
      URLs and phone numbers on the wire); on such text [\d], [isdigit]
      and [upper] are the functions defined below.
    - Python [float] is the kernel's binary64 [float]; [int] is [Z].
    - A parameter that may be [None] is an [option]; dictionaries are
      [gmap string _], except where the order of the keys is observable.
    - The [requests] library is the environment: a [Transport] answers
      each request, and every request performed is recorded in a log. *)

From Stdlib Require Import ZArith String Ascii List Bool Lia.
From Stdlib Require Import Floats.PrimFloat.
From stdpp Require Import base option list gmap strings.

Set Warnings "-inexact-float,-register-all".
Local Open Scope string_scope.
Local Open Scope Z_scope.

(** ** Python values *)

Module Py.

(** Values that travel in a JSON body, in query parameters or in a
    decoded response. *)
Inductive Json : Type :=
| JNone
| JBool (b : bool)
| JInt (z : Z)
| JFloat (f : float)
| JStr (s : string)
| JList (l : list Json)
| JDict (d : gmap string Json).

(** [x is not None] on a value. *)
Definition is_not_None (v : Json) : bool :=
  match v with JNone => false | _ => true end.

(** Python's truth value testing ([__bool__] / [__len__]). *)
Class Truthy (A : Type) := truthy : A -> bool.
Global Hint Mode Truthy ! : typeclass_instances.

#[export] Instance truthy_bool : Truthy bool := fun b => b.
#[export] Instance truthy_Z : Truthy Z := fun z => negb (z =? 0).
#[export] Instance truthy_float : Truthy float :=
  fun f => negb (PrimFloat.eqb f 0%float).
#[export] Instance truthy_string : Truthy string :=
  fun s => match s with EmptyString => false | String _ _ => true end.
#[export] Instance truthy_list {A} : Truthy (list A) :=
  fun l => match l with [] => false | _ :: _ => true end.
#[export] Instance truthy_dict {V} : Truthy (gmap string V) :=
  fun d => negb (Nat.eqb (size d) 0).
#[export] Instance truthy_option {A} `{Truthy A} : Truthy (option A) :=
  fun o => match o with None => false | Some v => truthy v end.
#[export] Instance truthy_Json : Truthy Json :=
  fun v => match v with
           | JNone => false
           | JBool b => truthy b
           | JInt z => truthy z
           | JFloat f => truthy f
           | JStr s => truthy s
           | JList l => truthy l
           | JDict d => truthy d
           end.

(** The value a Python object has once it is placed in a dictionary that
    is serialised as JSON. *)
Class ToJson (A : Type) := to_json : A -> Json.
Global Hint Mode ToJson ! : typeclass_instances.

#[export] Instance to_json_Json : ToJson Json := fun v => v.
#[export] Instance to_json_bool : ToJson bool := JBool.
#[export] Instance to_json_Z : ToJson Z := JInt.
#[export] Instance to_json_float : ToJson float := JFloat.
#[export] Instance to_json_string : ToJson string := JStr.
#[export] Instance to_json_list {A} `{ToJson A} : ToJson (list A) :=
  fun l => JList (map to_json l).
#[export] Instance to_json_dict {A} `{ToJson A} : ToJson (gmap string A) :=
  fun d => JDict (to_json <$> d).
#[export] Instance to_json_option {A} `{ToJson A} : ToJson (option A) :=
  fun o => match o with None => JNone | Some v => to_json v end.

(** [d.update({k: v for k, v in other.items() if v is not None})]:
    the entries of [other] override those of [d]. *)
Definition update_non_None (d other : gmap string Json) : gmap string Json :=
  filter (fun kv => is_not_None kv.2 = true) other ∪ d.

(** [d.get(k)] on a decoded JSON value; only dictionaries have [get]. *)
Definition dict_get (v : Json) (k : string) : option Json :=
  match v with
  | JDict d => Some (default JNone (d !! k))
  | _ => None
  end.

(** *** Strings *)

Definition is_digit (c : ascii) : bool :=
  let n := nat_of_ascii c in (48 <=? n)%nat && (n <=? 57)%nat.

Definition upper_char (c : ascii) : ascii :=
  let n := nat_of_ascii c in
  if (97 <=? n)%nat && (n <=? 122)%nat then ascii_of_nat (n - 32) else c.

(** [s.upper()] *)
Fixpoint upper (s : string) : string :=
  match s with
  | EmptyString => EmptyString
  | String c s' => String (upper_char c) (upper s')
  end.

Fixpoint all_chars (p : ascii -> bool) (s : string) : bool :=
  match s with
  | EmptyString => true
  | String c s' => p c && all_chars p s'
  end.

(** [s.isdigit()]: at least one character, and all of them digits. *)
Definition isdigit (s : string) : bool :=
  truthy s && all_chars is_digit s.

(** [s.startswith(p)] *)
Definition startswith (p s : string) : bool := String.prefix p s.

(** [s[1:]] *)
Definition tail (s : string) : string :=
  match s with EmptyString => EmptyString | String _ s' => s' end.

(** [sep.join(l)] *)
Definition join (sep : string) (l : list string) : string := String.concat sep l.

(** [x in l] for a list of strings. *)
Definition in_list (x : string) (l : list string) : bool :=
  existsb (String.eqb x) l.

(** [k in d] for a dictionary written as an ordered list of items. *)
Definition in_keys {V} (k : string) (d : list (string * V)) : bool :=
  in_list k (map fst d).

End Py.
Export Py.

(** ** Exceptions and results *)

Inductive exn : Type :=
| ValueError (msg : string)
| RuntimeError (msg : string)
| TypeError (msg : string)
| AttributeError (msg : string)
| KeyError (key : string)
| RequestException (msg : string).

Inductive outcome (A : Type) : Type :=
| Return (v : A)
| Raise (e : exn).
Arguments Return {A} v.
Arguments Raise {A} e.

(** ** The fragment of [re] used by the call-sending modules *)

Module Re.

Inductive regex : Type :=
| Empty
| Eps
| Class (p : ascii -> bool)
| Seq (r1 r2 : regex)
| Alt (r1 r2 : regex)
| Star (r : regex).

Fixpoint nullable (r : regex) : bool :=
  match r with
  | Empty => false
  | Eps => true
  | Class _ => false
  | Seq r1 r2 => nullable r1 && nullable r2
  | Alt r1 r2 => nullable r1 || nullable r2
  | Star _ => true
  end.

(** Brzozowski derivative: the words [w] such that [c :: w] matches. *)
Fixpoint deriv (c : ascii) (r : regex) : regex :=
  match r with
  | Empty => Empty
  | Eps => Empty
  | Class p => if p c then Eps else Empty
  | Seq r1 r2 =>
      if nullable r1 then Alt (Seq (deriv c r1) r2) (deriv c r2)
      else Seq (deriv c r1) r2
  | Alt r1 r2 => Alt (deriv c r1) (deriv c r2)
  | Star r1 => Seq (deriv c r1) (Star r1)
  end.

(** The whole of [s] matches [r]. *)
Fixpoint fullmatch (r : regex) (s : string) : bool :=
  match s with
  | EmptyString => nullable r
  | String c s' => fullmatch (deriv c r) s'
  end.

(** [r?] *)
Definition Opt (r : regex) : regex := Alt Eps r.

(** [r{n}] *)
Fixpoint Exactly (n : nat) (r : regex) : regex :=
  match n with O => Eps | S n' => Seq r (Exactly n' r) end.

(** [r{0,n}] *)
Fixpoint UpTo (n : nat) (r : regex) : regex :=
  match n with O => Eps | S n' => Opt (Seq r (UpTo n' r)) end.

(** [r{lo,hi}] *)
Definition Repeat (lo hi : nat) (r : regex) : regex :=
  Seq (Exactly lo r) (UpTo (hi - lo) r).

Definition char (c : ascii) : regex := Class (Ascii.eqb c).

(** [\d] *)
Definition digit : regex := Class is_digit.

(** [$] at the end of a pattern: the end of the string, or the position
    before a newline that ends the string. *)
Definition Eol : regex := Opt (char "010"%char).

(** [re.match(p, s)] for a pattern [^r$]: both anchors are part of the
    pattern, so the match covers the string ([Eol] included in [r]). *)
Definition match_ (r : regex) (s : string) : bool := fullmatch r s.

(** [re.sub(p, repl, s)] for a pattern [p] that is one character class:
    every character of the class is replaced by [repl]. *)
Fixpoint sub_class (cls : ascii -> bool) (repl s : string) : string :=
  match s with
  | EmptyString => EmptyString
  | String c s' =>
      if cls c then repl ++ sub_class cls repl s'
      else String c (sub_class cls repl s')
  end.

End Re.

(** [r'[^\d+]'] *)
Definition NOT_DIGIT_OR_PLUS (c : ascii) : bool :=
  negb (is_digit c || Ascii.eqb c "+"%char).

(** [r'^\+?\d{10,15}$'] *)
Definition PHONE_PATTERN : Re.regex :=
  Re.Seq (Re.Opt (Re.char "+"%char)) (Re.Seq (Re.Repeat 10 15 Re.digit) Re.Eol).

(** ** config.py *)

Module config.

Definition API_BASE_URL := "https://api.bland.ai".
Definition API_VERSION := "v1".

Definition CALLS_ENDPOINT := API_BASE_URL ++ "/" ++ API_VERSION ++ "/calls".
Definition ANALYZE_ENDPOINT := CALLS_ENDPOINT ++ "/{call_id}/analyze".
Definition STOP_CALL_ENDPOINT := CALLS_ENDPOINT ++ "/{call_id}/stop".
Definition STOP_ALL_CALLS_ENDPOINT := CALLS_ENDPOINT ++ "/active/stop".
Definition CALL_DETAILS_ENDPOINT := CALLS_ENDPOINT ++ "/{call_id}".
Definition PATHWAYS_ENDPOINT := API_BASE_URL ++ "/" ++ API_VERSION ++ "/pathways".
Definition PATHWAY_DETAILS_ENDPOINT := PATHWAYS_ENDPOINT ++ "/{pathway_id}".
Definition CREATE_PATHWAY_ENDPOINT := PATHWAYS_ENDPOINT.
Definition UPDATE_PATHWAY_ENDPOINT := PATHWAYS_ENDPOINT ++ "/{pathway_id}/update".
Definition DELETE_PATHWAY_ENDPOINT := PATHWAYS_ENDPOINT ++ "/{pathway_id}/delete".
Definition PATHWAY_CHAT_CREATE_ENDPOINT :=
  API_BASE_URL ++ "/" ++ API_VERSION ++ "/pathway/chat/create".
Definition PATHWAY_CHAT_ENDPOINT :=
  API_BASE_URL ++ "/" ++ API_VERSION ++ "/pathway/chat/{chat_id}".
Definition PATHWAY_VERSIONS_ENDPOINT := PATHWAYS_ENDPOINT ++ "/{pathway_id}/versions".
Definition PATHWAY_VERSION_ENDPOINT :=
  PATHWAYS_ENDPOINT ++ "/{pathway_id}/versions/{version_id}".
Definition PROMOTE_PATHWAY_VERSION_ENDPOINT :=
  PATHWAYS_ENDPOINT ++ "/{pathway_id}/versions/{version_id}/promote".
Definition CREATE_PATHWAY_VERSION_ENDPOINT :=
  PATHWAYS_ENDPOINT ++ "/{pathway_id}/versions/create".
Definition DELETE_PATHWAY_VERSION_ENDPOINT :=
  PATHWAYS_ENDPOINT ++ "/{pathway_id}/versions/{version_id}/delete".
Definition FOLDERS_ENDPOINT := API_BASE_URL ++ "/" ++ API_VERSION ++ "/folders".
Definition FOLDER_PATHWAYS_ENDPOINT := FOLDERS_ENDPOINT ++ "/{folder_id}/pathways".
Definition CREATE_FOLDER_ENDPOINT := FOLDERS_ENDPOINT.
Definition DELETE_FOLDER_ENDPOINT := FOLDERS_ENDPOINT ++ "/{folder_id}/delete".
Definition UPDATE_FOLDER_ENDPOINT := FOLDERS_ENDPOINT ++ "/{folder_id}/update".
Definition MOVE_PATHWAY_ENDPOINT := PATHWAYS_ENDPOINT ++ "/{pathway_id}/move".
Definition PURCHASE_PHONE_ENDPOINT :=
  API_BASE_URL ++ "/" ++ API_VERSION ++ "/phone/purchase".
Definition UPDATE_INBOUND_ENDPOINT :=
  API_BASE_URL ++ "/" ++ API_VERSION ++ "/phone/inbound/update".
Definition LIST_INBOUND_ENDPOINT :=
  API_BASE_URL ++ "/" ++ API_VERSION ++ "/phone/inbound".
Definition INBOUND_DETAILS_ENDPOINT :=
  API_BASE_URL ++ "/" ++ API_VERSION ++ "/phone/inbound/{phone_number}".
Definition LIST_OUTBOUND_ENDPOINT :=
  API_BASE_URL ++ "/" ++ API_VERSION ++ "/phone/outbound".
Definition LIST_VOICES_ENDPOINT := API_BASE_URL ++ "/" ++ API_VERSION ++ "/voices".
Definition VOICE_DETAILS_ENDPOINT :=
  API_BASE_URL ++ "/" ++ API_VERSION ++ "/voices/{voice_id}".
Definition PUBLISH_VOICE_ENDPOINT :=
  API_BASE_URL ++ "/" ++ API_VERSION ++ "/voices/publish".
Definition GENERATE_AUDIO_ENDPOINT :=
  API_BASE_URL ++ "/" ++ API_VERSION ++ "/voices/generate".

Definition CUSTOM_TOOLS_ENDPOINT := API_BASE_URL ++ "/" ++ API_VERSION ++ "/tools".
Definition CUSTOM_TOOL_DETAILS_ENDPOINT := CUSTOM_TOOLS_ENDPOINT ++ "/{tool_id}".
Definition UPDATE_CUSTOM_TOOL_ENDPOINT := CUSTOM_TOOLS_ENDPOINT ++ "/{tool_id}/update".
Definition DELETE_CUSTOM_TOOL_ENDPOINT := CUSTOM_TOOLS_ENDPOINT ++ "/{tool_id}/delete".
Definition LIST_CUSTOM_TOOLS_ENDPOINT := CUSTOM_TOOLS_ENDPOINT ++ "/list".

Definition DEFAULT_MODEL := "enhanced".
Definition DEFAULT_VOICE := "mason".
Definition DEFAULT_LANGUAGE := "en-US".
Definition DEFAULT_MAX_DURATION : Z := 30.
Definition DEFAULT_TEMPERATURE : float := 0.7%float.
Definition DEFAULT_INTERRUPTION_THRESHOLD : Z := 100.
Definition DEFAULT_LIMIT : Z := 1000.

(** The keys are listed in an error message, in this order. *)
Definition BACKGROUND_TRACKS : list (string * string) :=
  [("none", "none"); ("office", "office"); ("cafe", "cafe");
   ("restaurant", "restaurant")].

Definition ERROR_MISSING_AUTH := "Missing authorization header".
Definition ERROR_MISSING_PHONE := "Missing required parameter: phone_number".
Definition ERROR_MISSING_TASK := "Missing required parameter: task".
Definition ERROR_MISSING_PATHWAY := "Missing required parameter: pathway_id".
Definition ERROR_INVALID_PHONE := "Invalid phone number format".
Definition ERROR_INVALID_MODEL := "Invalid model. Must be one of: base, turbo, enhanced".
Definition ERROR_MISSING_CALL_ID := "Missing required parameter: call_id".
Definition ERROR_MISSING_GOAL := "Missing required parameter: goal".
Definition ERROR_MISSING_QUESTIONS := "Missing required parameter: questions".
Definition ERROR_NO_PATHWAYS := "No pathways found".
Definition ERROR_MISSING_PATHWAY_NAME := "Missing required parameter: name".
Definition ERROR_MISSING_NODES := "Missing required parameter: nodes".
Definition ERROR_MISSING_EDGES := "Missing required parameter: edges".

End config.
Export config.

(** ** [str.format] with keyword arguments

    The endpoint templates name their fields with plain identifiers, so a
    replacement field is read up to its closing brace; [{{] and [}}] are
    the escaped braces.  The substituted text is not scanned again. *)

Fixpoint format_from (tmpl : string) (field : option string)
    (kwargs : list (string * string)) : exn + string :=
  match tmpl with
  | EmptyString =>
      match field with
      | None => inr EmptyString
      | Some _ => inl (ValueError "expected '}' before end of string")
      end
  | String c rest =>
      match field with
      | Some name =>
          if Ascii.eqb c "}"%char then
            match List.find (fun kv => String.eqb (fst kv) name) kwargs with
            | Some kv =>
                match format_from rest None kwargs with
                | inr out => inr (snd kv ++ out)
                | inl e => inl e
                end
            | None => inl (KeyError name)
            end
          else format_from rest (Some (name ++ String c EmptyString)) kwargs
      | None =>
          if Ascii.eqb c "{"%char then
            match rest with
            | String "{"%char rest' =>
                match format_from rest' None kwargs with
                | inr out => inr (String "{"%char out)
                | inl e => inl e
                end
            | _ => format_from rest (Some EmptyString) kwargs
            end
          else if Ascii.eqb c "}"%char then
            match rest with
            | String "}"%char rest' =>
                match format_from rest' None kwargs with
                | inr out => inr (String "}"%char out)
                | inl e => inl e
                end
            | _ => inl (ValueError "Single '}' encountered in format string")
            end
          else
            match format_from rest None kwargs with
            | inr out => inr (String c out)
            | inl e => inl e
            end
      end
  end.

(** [tmpl.format(name=value, ...)] *)
Definition format (tmpl : string) (kwargs : list (string * string)) : exn + string :=
  format_from tmpl None kwargs.

(** ** The transport: [requests]

    A request is answered by the environment.  [requests.post] and its
    siblings either raise a [RequestException] (a connection error, a
    timeout, ...) or return a response; [raise_for_status] raises an
    [HTTPError], itself a [RequestException], on an error status;
    [json] decodes the body or raises. *)

Inductive http_method : Type := GET | POST | PATCH | DELETE.

Record Request : Type := mkRequest {
  req_method : http_method;
  req_url : string;
  req_headers : gmap string string;
  req_json : option (gmap string Json);
  req_params : option (gmap string Json)
}.

Record Response : Type := mkResponse {
  (** [Some msg]: [raise_for_status()] raises [HTTPError(msg)]. *)
  resp_http_error : option string;
  (** What [json()] does. *)
  resp_json : exn + Json
}.

(** [inl msg]: the call raises a [RequestException] whose text is [msg]. *)
Definition Transport : Type := Request -> string + Response.

(** Computations that may raise and may perform requests: they read the
    transport and extend the log of the requests performed so far. *)
Definition M (A : Type) : Type :=
  Transport -> list Request -> list Request * outcome A.

Definition ret {A} (v : A) : M A := fun _ log => (log, Return v).

Definition raise {A} (e : exn) : M A := fun _ log => (log, Raise e).

Definition bind {A B} (m : M A) (k : A -> M B) : M B :=
  fun t log =>
    match m t log with
    | (log', Return v) => k v t log'
    | (log', Raise e) => (log', Raise e)
    end.

Declare Scope py_scope.
Delimit Scope py_scope with py.
Notation "x <- m ;; k" := (bind m (fun x => k))
  (at level 100, m at next level, right associativity) : py_scope.
Notation "m ;;; k" := (bind m (fun _ => k))
  (at level 100, right associativity) : py_scope.
Local Open Scope py_scope.

(** Runs a call from an empty log. *)
Definition exec {A} (t : Transport) (m : M A) : list Request * outcome A :=
  m t [].

(** [if c: raise e] *)
Definition raise_if (c : bool) (e : exn) : M unit :=
  if c then raise e else ret tt.

(** [if not x: raise e], after which [x] stands for a truthy value. *)
Definition require {A} `{Truthy A} (x : option A) (e : exn) : M A :=
  match x with
  | Some v => if truthy v then ret v else raise e
  | None => raise e
  end.

(** A pure step that may raise. *)
Definition lift {A} (r : exn + A) : M A :=
  match r with inl e => raise e | inr v => ret v end.

(** [for x in l: body(x)] *)
Fixpoint for_each {A} (l : list A) (body : A -> M unit) : M unit :=
  match l with
  | [] => ret tt
  | x :: l' => body x ;;; for_each l' body
  end.

(** [requests.<method>(url, headers=..., json=..., params=...)] *)
Definition requests_request (m : http_method) (url : string)
    (headers : gmap string string) (json params : option (gmap string Json))
    : M Response :=
  fun t log =>
    let req := mkRequest m url headers json params in
    match t req with
    | inl msg => ((log ++ [req])%list, Raise (RequestException msg))
    | inr resp => ((log ++ [req])%list, Return resp)
    end.

Definition requests_get := requests_request GET.
Definition requests_post := requests_request POST.
Definition requests_patch := requests_request PATCH.
Definition requests_delete := requests_request DELETE.

(** [response.raise_for_status()] *)
Definition raise_for_status (r : Response) : M unit :=
  match resp_http_error r with
  | Some msg => raise (RequestException msg)
  | None => ret tt
  end.

(** [response.json()] *)
Definition response_json (r : Response) : M Json := lift (resp_json r).

(** [try: body except requests.exceptions.RequestException as e: handler(str(e))] *)
Definition try_except_RequestException {A} (body : M A) (handler : string -> M A)
    : M A :=
  fun t log =>
    match body t log with
    | (log', Raise (RequestException msg)) => handler msg t log'
    | r => r
    end.

(** [{"status": "error", "message": str(e)}] *)
Definition error_dict (msg : string) : gmap string Json :=
  <["message" := JStr msg]> {["status" := JStr "error"]}.

(** The headers every module starts from. *)
Definition auth_headers (auth_token : string) : gmap string string :=
  {["authorization" := auth_token]}.

Definition json_headers (auth_token : string) : gmap string string :=
  <["Content-Type" := "application/json"]> {["authorization" := auth_token]}.

(** [if org_id: headers[key] = org_id] *)
Definition with_org (key : string) (org_id : option string)
    (headers : gmap string string) : gmap string string :=
  match org_id with
  | Some o => if truthy o then <[key := o]> headers else headers
  | None => headers
  end.

(** [if x is not None: data[k] = x] *)
Definition set_if_not_None {A} `{ToJson A} (k : string) (x : option A)
    (data : gmap string Json) : gmap string Json :=
  match x with
  | Some v => <[k := to_json v]> data
  | None => data
  end.

(** [if x: data[k] = x] *)
Definition set_if {A} `{Truthy A} `{ToJson A} (k : string) (x : option A)
    (data : gmap string Json) : gmap string Json :=
  if truthy x then <[k := to_json x]> data else data.

(** [{k1: v1, ...}] *)
Definition dict (items : list (string * Json)) : gmap string Json :=
  list_to_map items.

(** The tail shared by the modules:
[[
    try:
        response = <call>
        response.raise_for_status()
        return response.json()
    except requests.exceptions.RequestException as e:
        return {"status": "error", "message": str(e)}
]] *)
Definition normalized (call : M Response) : M Json :=
  try_except_RequestException
    (response <- call ;;
     raise_for_status response ;;;
     response_json response)
    (fun msg => ret (JDict (error_dict msg))).

(** The operand of an ordering comparison with an [int]: [None] has no
    order. *)
Definition ordered (x : option Z) : M Z :=
  match x with
  | Some z => ret z
  | None =>
      raise (TypeError "'<' not supported between instances of 'NoneType' and 'int'")
  end.

(** [lo <= x <= hi] on floats. *)
Definition between (lo x hi : float) : bool :=
  PrimFloat.leb lo x && PrimFloat.leb x hi.

(** [not number.startswith("+") or not number[1:].isdigit()] *)
Definition not_plus_digits (number : string) : bool :=
  negb (startswith "+" number) || negb (isdigit (tail number)).

(** ** The operations, one per module of the repository *)

(** *** analyze_batch.py *)

Definition ANALYZE_BATCH_ENDPOINT :=
  API_BASE_URL ++ "/" ++ API_VERSION ++ "/calls/batch/{batch_id}/analyze".

Definition analyze_batch (auth_token batch_id goal : option string)
    (questions : option (list string)) (filters : option (gmap string Json))
    (custom_metrics : option (list Json)) (org_id : option string) : M Json :=
  auth_token <- require auth_token (ValueError ERROR_MISSING_AUTH) ;;
  batch_id <- require batch_id (ValueError "Missing required parameter: batch_id") ;;
  goal <- require goal (ValueError ERROR_MISSING_GOAL) ;;
  questions <- require questions (ValueError ERROR_MISSING_QUESTIONS) ;;
  let headers := with_org "encrypted_key" org_id (json_headers auth_token) in
  let data := dict [("goal", to_json goal); ("questions", to_json questions)] in
  let data := set_if_not_None "filters" filters data in
  let data := set_if_not_None "custom_metrics" custom_metrics data in
  normalized
    (url <- lift (format ANALYZE_BATCH_ENDPOINT [("batch_id", batch_id)]) ;;
     requests_post url headers (Some data) None).

(** *** analyze_call.py *)

Definition analyze_call (auth_token call_id goal : option string)
    (questions : option (list (list string))) : M Json :=
  auth_token <- require auth_token (ValueError ERROR_MISSING_AUTH) ;;
  call_id <- require call_id (ValueError ERROR_MISSING_CALL_ID) ;;
  goal <- require goal (ValueError ERROR_MISSING_GOAL) ;;
  questions <- require questions (ValueError ERROR_MISSING_QUESTIONS) ;;
  let headers := json_headers auth_token in
  let payload := dict [("goal", to_json goal); ("questions", to_json questions)] in
  normalized
    (url <- lift (format ANALYZE_ENDPOINT [("call_id", call_id)]) ;;
     requests_post url headers (Some payload) None).

(** *** authorize_web_agent.py *)

Definition AUTHORIZE_WEB_AGENT_ENDPOINT :=
  API_BASE_URL ++ "/" ++ API_VERSION ++ "/web-agents/{agent_id}/authorize".

Definition authorize_web_agent (auth_token agent_id call_id action target_url : option string)
    (parameters context : option (gmap string Json)) (org_id : option string)
    : M Json :=
  auth_token <- require auth_token (ValueError ERROR_MISSING_AUTH) ;;
  agent_id <- require agent_id (ValueError "Missing required parameter: agent_id") ;;
  call_id <- require call_id (ValueError "Missing required parameter: call_id") ;;
  action <- require action (ValueError "Missing required parameter: action") ;;
  target_url <- require target_url (ValueError "Missing required parameter: target_url") ;;
  let headers := with_org "encrypted_key" org_id (json_headers auth_token) in
  let data := dict [("call_id", to_json call_id); ("action", to_json action);
                    ("target_url", to_json target_url)] in
  let data := set_if_not_None "parameters" parameters data in
  let data := set_if_not_None "context" context data in
  normalized
    (url <- lift (format AUTHORIZE_WEB_AGENT_ENDPOINT [("agent_id", agent_id)]) ;;
     requests_post url headers (Some data) None).

(** *** call_details.py *)

Definition get_call_details (auth_token call_id org_id : option string) : M Json :=
  auth_token <- require auth_token (ValueError ERROR_MISSING_AUTH) ;;
  call_id <- require call_id (ValueError ERROR_MISSING_CALL_ID) ;;
  let headers := with_org "encrypted_key" org_id (auth_headers auth_token) in
  normalized
    (url <- lift (format CALL_DETAILS_ENDPOINT [("call_id", call_id)]) ;;
     requests_get url headers None None).

(** *** create_custom_tool.py *)

Definition create_custom_tool (auth_token name description endpoint method : option string)
    (parameters : option (list Json)) (headers authentication response_mapping
      : option (gmap string string)) (org_id : option string) : M Json :=
  auth_token <- require auth_token (ValueError ERROR_MISSING_AUTH) ;;
  name <- require name (ValueError "Missing required parameter: name") ;;
  description <- require description (ValueError "Missing required parameter: description") ;;
  endpoint <- require endpoint (ValueError "Missing required parameter: endpoint") ;;
  method <- require method (ValueError "Missing required parameter: method") ;;
  parameters <- require parameters (ValueError "Missing required parameter: parameters") ;;
  let valid_methods := ["GET"; "POST"; "PUT"; "DELETE"] in
  raise_if (negb (in_list (upper method) valid_methods))
    (ValueError ("Invalid method. Must be one of: " ++ join ", " valid_methods)) ;;;
  let request_headers := with_org "encrypted_key" org_id (json_headers auth_token) in
  let data := dict [("name", to_json name); ("description", to_json description);
                    ("endpoint", to_json endpoint); ("method", to_json (upper method));
                    ("parameters", to_json parameters)] in
  let data := set_if "headers" headers data in
  let data := set_if "authentication" authentication data in
  let data := set_if "response_mapping" response_mapping data in
  normalized (requests_post CUSTOM_TOOLS_ENDPOINT request_headers (Some data) None).

(** *** create_encrypted_key.py *)

Definition ENCRYPTED_KEYS_ENDPOINT :=
  API_BASE_URL ++ "/" ++ API_VERSION ++ "/encrypted-keys".

Definition create_encrypted_key (auth_token name key_type value description : option string)
    (metadata : option (gmap string Json)) (org_id : option string) : M Json :=
  auth_token <- require auth_token (ValueError ERROR_MISSING_AUTH) ;;
  name <- require name (ValueError "Missing required parameter: name") ;;
  key_type <- require key_type (ValueError "Missing required parameter: key_type") ;;
  value <- require value (ValueError "Missing required parameter: value") ;;
  let valid_key_types := ["api_key"; "password"; "token"; "secret"] in
  raise_if (negb (in_list key_type valid_key_types))
    (ValueError ("Invalid key_type. Must be one of: " ++ join ", " valid_key_types)) ;;;
  let headers := with_org "encrypted_key" org_id (json_headers auth_token) in
  let data := dict [("name", to_json name); ("type", to_json key_type);
                    ("value", to_json value)] in
  let data := set_if_not_None "description" description data in
  let data := set_if_not_None "metadata" metadata data in
  normalized (requests_post ENCRYPTED_KEYS_ENDPOINT headers (Some data) None).

(** *** create_folder.py *)

Definition create_folder (auth_token name description org_id : option string) : M Json :=
  auth_token <- require auth_token (ValueError ERROR_MISSING_AUTH) ;;
  name <- require name (ValueError "Missing required parameter: name") ;;
  let headers := with_org "encrypted_key" org_id (json_headers auth_token) in
  let data := dict [("name", to_json name)] in
  let data := set_if "description" description data in
  normalized (requests_post CREATE_FOLDER_ENDPOINT headers (Some data) None).

(** *** create_pathway.py *)

Definition create_pathway (auth_token name : option string)
    (nodes edges : option (list Json)) (description : option string)
    (metadata : option (gmap string Json)) (org_id : option string) : M Json :=
  auth_token <- require auth_token (ValueError ERROR_MISSING_AUTH) ;;
  name <- require name (ValueError ERROR_MISSING_PATHWAY_NAME) ;;
  nodes <- require nodes (ValueError ERROR_MISSING_NODES) ;;
  edges <- require edges (ValueError ERROR_MISSING_EDGES) ;;
  let headers := with_org "encrypted_key" org_id (json_headers auth_token) in
  let payload := dict [("name", to_json name); ("nodes", to_json nodes);
                       ("edges", to_json edges)] in
  let payload := set_if "description" description payload in
  let payload := set_if "metadata" metadata payload in
  normalized (requests_post CREATE_PATHWAY_ENDPOINT headers (Some payload) None).

(** *** create_pathway_chat.py *)

Definition create_pathway_chat (auth_token pathway_id start_node_id org_id : option string)
    : M Json :=
  auth_token <- require auth_token (ValueError ERROR_MISSING_AUTH) ;;
  pathway_id <- require pathway_id (ValueError ERROR_MISSING_PATHWAY) ;;
  let headers := with_org "encrypted_key" org_id (json_headers auth_token) in
  let data := dict [("pathway_id", to_json pathway_id)] in
  let data := set_if "start_node_id" start_node_id data in
  normalized (requests_post PATHWAY_CHAT_CREATE_ENDPOINT headers (Some data) None).

(** *** create_pathway_version.py *)

Definition create_pathway_version (auth_token pathway_id name description : option string)
    (nodes edges : option (list Json)) (org_id : option string) : M Json :=
  auth_token <- require auth_token (ValueError ERROR_MISSING_AUTH) ;;
  pathway_id <- require pathway_id (ValueError ERROR_MISSING_PATHWAY) ;;
  name <- require name (ValueError "Missing required parameter: name") ;;
  let headers := with_org "encrypted_key" org_id (json_headers auth_token) in
  let data := dict [("name", to_json name)] in
  let data := set_if "description" description data in
  let data := set_if "nodes" nodes data in
  let data := set_if "edges" edges data in
  normalized
    (url <- lift (format CREATE_PATHWAY_VERSION_ENDPOINT [("pathway_id", pathway_id)]) ;;
     requests_post url headers (Some data) None).

(** *** create_web_agent.py *)

Definition WEB_AGENTS_ENDPOINT := API_BASE_URL ++ "/" ++ API_VERSION ++ "/web-agents".

Definition create_web_agent (auth_token name description website_url : option string)
    (allowed_domains capabilities : option (list string))
    (authentication : option (gmap string Json))
    (custom_headers : option (gmap string string)) (rate_limit max_pages : option Z)
    (org_id : option string) : M Json :=
  auth_token <- require auth_token (ValueError ERROR_MISSING_AUTH) ;;
  name <- require name (ValueError "Missing required parameter: name") ;;
  description <- require description (ValueError "Missing required parameter: description") ;;
  website_url <- require website_url (ValueError "Missing required parameter: website_url") ;;
  allowed_domains <-
    require allowed_domains (ValueError "Missing required parameter: allowed_domains") ;;
  let headers := with_org "encrypted_key" org_id (json_headers auth_token) in
  let data := dict [("name", to_json name); ("description", to_json description);
                    ("website_url", to_json website_url);
                    ("allowed_domains", to_json allowed_domains)] in
  let data := set_if_not_None "capabilities" capabilities data in
  let data := set_if_not_None "authentication" authentication data in
  let data := set_if_not_None "custom_headers" custom_headers data in
  let data := set_if_not_None "rate_limit" rate_limit data in
  let data := set_if_not_None "max_pages" max_pages data in
  normalized (requests_post WEB_AGENTS_ENDPOINT headers (Some data) None).

(** *** delete_custom_tool.py *)

Definition delete_custom_tool (auth_token tool_id org_id : option string) : M Json :=
  auth_token <- require auth_token (ValueError ERROR_MISSING_AUTH) ;;
  tool_id <- require tool_id (ValueError "Missing required parameter: tool_id") ;;
  let headers := with_org "encrypted_key" org_id (auth_headers auth_token) in
  normalized
    (url <- lift (format DELETE_CUSTOM_TOOL_ENDPOINT [("tool_id", tool_id)]) ;;
     requests_delete url headers None None).

(** *** delete_encrypted_key.py *)

Definition DELETE_ENCRYPTED_KEY_ENDPOINT :=
  API_BASE_URL ++ "/" ++ API_VERSION ++ "/encrypted-keys/{key_id}/delete".

Definition delete_encrypted_key (auth_token key_id org_id : option string) : M Json :=
  auth_token <- require auth_token (ValueError ERROR_MISSING_AUTH) ;;
  key_id <- require key_id (ValueError "Missing required parameter: key_id") ;;
  let headers := with_org "encrypted_key" org_id (auth_headers auth_token) in
  normalized
    (url <- lift (format DELETE_ENCRYPTED_KEY_ENDPOINT [("key_id", key_id)]) ;;
     requests_delete url headers None None).

(** *** delete_folder.py *)

Definition delete_folder (auth_token folder_id org_id : option string) : M Json :=
  auth_token <- require auth_token (ValueError ERROR_MISSING_AUTH) ;;
  folder_id <- require folder_id (ValueError "Missing required parameter: folder_id") ;;
  let headers := with_org "encrypted_key" org_id (auth_headers auth_token) in
  normalized
    (url <- lift (format DELETE_FOLDER_ENDPOINT [("folder_id", folder_id)]) ;;
     requests_delete url headers None None).

(** *** delete_inbound_number.py *)

Definition DELETE_INBOUND_NUMBER_ENDPOINT :=
  API_BASE_URL ++ "/" ++ API_VERSION ++ "/phone/inbound/{phone_number}/delete".

Definition delete_inbound_number (auth_token phone_number org_id : option string)
    : M Json :=
  auth_token <- require auth_token (ValueError ERROR_MISSING_AUTH) ;;
  phone_number <- require phone_number (ValueError ERROR_MISSING_PHONE) ;;
  raise_if (not_plus_digits phone_number) (ValueError ERROR_INVALID_PHONE) ;;;
  let headers := with_org "encrypted_key" org_id (auth_headers auth_token) in
  normalized
    (url <- lift (format DELETE_INBOUND_NUMBER_ENDPOINT [("phone_number", phone_number)]) ;;
     requests_delete url headers None None).

(** *** delete_pathway.py *)

Definition delete_pathway (auth_token pathway_id org_id : option string) : M Json :=
  auth_token <- require auth_token (ValueError ERROR_MISSING_AUTH) ;;
  pathway_id <- require pathway_id (ValueError ERROR_MISSING_PATHWAY) ;;
  let headers := with_org "encrypted_key" org_id (auth_headers auth_token) in
  normalized
    (url <- lift (format DELETE_PATHWAY_ENDPOINT [("pathway_id", pathway_id)]) ;;
     requests_delete url headers None None).

(** *** delete_pathway_version.py *)

Definition delete_pathway_version (auth_token pathway_id version_id org_id : option string)
    : M Json :=
  auth_token <- require auth_token (ValueError ERROR_MISSING_AUTH) ;;
  pathway_id <- require pathway_id (ValueError ERROR_MISSING_PATHWAY) ;;
  version_id <- require version_id (ValueError "Missing required parameter: version_id") ;;
  let headers := with_org "encrypted_key" org_id (auth_headers auth_token) in
  normalized
    (url <- lift (format DELETE_PATHWAY_VERSION_ENDPOINT
                    [("pathway_id", pathway_id); ("version_id", version_id)]) ;;
     requests_delete url headers None None).

(** *** delete_web_agent.py *)

Definition DELETE_WEB_AGENT_ENDPOINT :=
  API_BASE_URL ++ "/" ++ API_VERSION ++ "/web-agents/{agent_id}/delete".

Definition delete_web_agent (auth_token agent_id org_id : option string) : M Json :=
  auth_token <- require auth_token (ValueError ERROR_MISSING_AUTH) ;;
  agent_id <- require agent_id (ValueError "Missing required parameter: agent_id") ;;
  let headers := with_org "encrypted_key" org_id (auth_headers auth_token) in
  normalized
    (url <- lift (format DELETE_WEB_AGENT_ENDPOINT [("agent_id", agent_id)]) ;;
     requests_delete url headers None None).

(** *** generate_audio_sample.py *)

Definition generate_audio_sample (auth_token text voice_id language : option string)
    (speed pitch : option float) (format org_id : option string) : M Json :=
  auth_token <- require auth_token (ValueError ERROR_MISSING_AUTH) ;;
  text <- require text (ValueError "Missing required parameter: text") ;;
  raise_if (match speed with
            | Some s => negb (between 0.5%float s 2%float)
            | None => false
            end)
    (ValueError "Speed must be between 0.5 and 2.0") ;;;
  raise_if (match pitch with
            | Some p => negb (between (-20)%float p 20%float)
            | None => false
            end)
    (ValueError "Pitch must be between -20 and 20") ;;;
  let headers := with_org "encrypted_key" org_id (json_headers auth_token) in
  let data := dict [("text", to_json text)] in
  let data := set_if "voice_id" voice_id data in
  let data := set_if "language" language data in
  let data := set_if_not_None "speed" speed data in
  let data := set_if_not_None "pitch" pitch data in
  let data := set_if "format" format data in
  normalized (requests_post GENERATE_AUDIO_ENDPOINT headers (Some data) None).

(** *** get_all_folders.py *)

Definition get_all_folders (auth_token org_id : option string) : M Json :=
  auth_token <- require auth_token (ValueError ERROR_MISSING_AUTH) ;;
  let headers := with_org "encrypted_key" org_id (auth_headers auth_token) in
  normalized (requests_get FOLDERS_ENDPOINT headers None None).

(** *** get_all_pathways.py

    No check of [limit] or [offset]; a decoded response without pathways
    raises [RuntimeError], which the handler does not catch. *)

Definition get_all_pathways (auth_token : option string) (limit offset : Z)
    (org_id : option string) : M Json :=
  auth_token <- require auth_token (ValueError ERROR_MISSING_AUTH) ;;
  let headers := with_org "encrypted_key" org_id (auth_headers auth_token) in
  let params := dict [("limit", to_json limit); ("offset", to_json offset)] in
  try_except_RequestException
    (response <- requests_get PATHWAYS_ENDPOINT headers None (Some params) ;;
     raise_for_status response ;;;
     data <- response_json response ;;
     pathways <- match dict_get data "pathways" with
                 | Some v => ret v
                 | None => raise (AttributeError "object has no attribute 'get'")
                 end ;;
     raise_if (negb (truthy pathways)) (RuntimeError ERROR_NO_PATHWAYS) ;;;
     ret data)
    (fun msg => ret (JDict (error_dict msg))).

(** *** get_batch_analysis.py *)

Definition BATCH_ANALYSIS_ENDPOINT :=
  API_BASE_URL ++ "/" ++ API_VERSION ++ "/calls/batch/{batch_id}/analysis/{analysis_id}".

Definition get_batch_analysis (auth_token batch_id analysis_id : option string)
    (include_call_details : option bool) (org_id : option string) : M Json :=
  auth_token <- require auth_token (ValueError ERROR_MISSING_AUTH) ;;
  batch_id <- require batch_id (ValueError "Missing required parameter: batch_id") ;;
  analysis_id <-
    require analysis_id (ValueError "Missing required parameter: analysis_id") ;;
  let headers := with_org "encrypted_key" org_id (auth_headers auth_token) in
  let params : gmap string Json := ∅ in
  let params :=
    if truthy include_call_details
    then <["include_call_details" := JStr "true"]> params else params in
  normalized
    (url <- lift (format BATCH_ANALYSIS_ENDPOINT
                    [("batch_id", batch_id); ("analysis_id", analysis_id)]) ;;
     requests_get url headers None (Some params)).

(** *** get_batch_details.py *)

Definition BATCH_DETAILS_ENDPOINT :=
  API_BASE_URL ++ "/" ++ API_VERSION ++ "/calls/batch/{batch_id}".

Definition get_batch_details (auth_token batch_id : option string)
    (include_calls : option bool) (call_status org_id : option string) : M Json :=
  auth_token <- require auth_token (ValueError ERROR_MISSING_AUTH) ;;
  batch_id <- require batch_id (ValueError "Missing required parameter: batch_id") ;;
  let valid_statuses := ["queued"; "in_progress"; "completed"; "failed"; "cancelled"] in
  raise_if (match call_status with
            | Some s => truthy s && negb (in_list s valid_statuses)
            | None => false
            end)
    (ValueError ("Invalid call_status. Must be one of: " ++ join ", " valid_statuses)) ;;;
  let headers := with_org "encrypted_key" org_id (auth_headers auth_token) in
  let params : gmap string Json := ∅ in
  let params :=
    if truthy include_calls
    then set_if "call_status" call_status (<["include_calls" := JStr "true"]> params)
    else params in
  normalized
    (url <- lift (format BATCH_DETAILS_ENDPOINT [("batch_id", batch_id)]) ;;
     requests_get url headers None (Some params)).

(** *** get_custom_tool_details.py *)

Definition get_custom_tool_details (auth_token tool_id org_id : option string) : M Json :=
  auth_token <- require auth_token (ValueError ERROR_MISSING_AUTH) ;;
  tool_id <- require tool_id (ValueError "Missing required parameter: tool_id") ;;
  let request_headers := with_org "encrypted_key" org_id (json_headers auth_token) in
  normalized
    (url <- lift (format CUSTOM_TOOL_DETAILS_ENDPOINT [("tool_id", tool_id)]) ;;
     requests_get url request_headers None None).

(** *** get_folder_pathways.py *)

Definition get_folder_pathways (auth_token folder_id org_id : option string) : M Json :=
  auth_token <- require auth_token (ValueError ERROR_MISSING_AUTH) ;;
  folder_id <- require folder_id (ValueError "Missing required parameter: folder_id") ;;
  let headers := with_org "encrypted_key" org_id (auth_headers auth_token) in
  normalized
    (url <- lift (format FOLDER_PATHWAYS_ENDPOINT [("folder_id", folder_id)]) ;;
     requests_get url headers None None).

(** *** get_inbound_details.py *)

Definition get_inbound_details (auth_token phone_number org_id : option string) : M Json :=
  auth_token <- require auth_token (ValueError ERROR_MISSING_AUTH) ;;
  phone_number <- require phone_number (ValueError ERROR_MISSING_PHONE) ;;
  let headers := with_org "encrypted_key" org_id (auth_headers auth_token) in
  normalized
    (url <- lift (format INBOUND_DETAILS_ENDPOINT [("phone_number", phone_number)]) ;;
     requests_get url headers None None).

(** *** get_pathway_info.py *)

Definition get_pathway_info (auth_token pathway_id org_id : option string) : M Json :=
  auth_token <- require auth_token (ValueError ERROR_MISSING_AUTH) ;;
  pathway_id <- require pathway_id (ValueError ERROR_MISSING_PATHWAY) ;;
  let headers := with_org "encrypted_key" org_id (auth_headers auth_token) in
  normalized
    (url <- lift (format PATHWAY_DETAILS_ENDPOINT [("pathway_id", pathway_id)]) ;;
     requests_get url headers None None).

(** *** get_pathway_version.py *)

Definition get_pathway_version (auth_token pathway_id version_id org_id : option string)
    : M Json :=
  auth_token <- require auth_token (ValueError ERROR_MISSING_AUTH) ;;
  pathway_id <- require pathway_id (ValueError ERROR_MISSING_PATHWAY) ;;
  version_id <- require version_id (ValueError "Missing required parameter: version_id") ;;
  let headers := with_org "encrypted_key" org_id (auth_headers auth_token) in
  normalized
    (url <- lift (format PATHWAY_VERSION_ENDPOINT
                    [("pathway_id", pathway_id); ("version_id", version_id)]) ;;
     requests_get url headers None None).

(** *** get_pathway_versions.py *)

Definition get_pathway_versions (auth_token pathway_id org_id : option string) : M Json :=
  auth_token <- require auth_token (ValueError ERROR_MISSING_AUTH) ;;
  pathway_id <- require pathway_id (ValueError ERROR_MISSING_PATHWAY) ;;
  let headers := with_org "encrypted_key" org_id (auth_headers auth_token) in
  normalized
    (url <- lift (format PATHWAY_VERSIONS_ENDPOINT [("pathway_id", pathway_id)]) ;;
     requests_get url headers None None).

(** *** get_voice_details.py *)

Definition get_voice_details (auth_token voice_id org_id : option string) : M Json :=
  auth_token <- require auth_token (ValueError ERROR_MISSING_AUTH) ;;
  voice_id <- require voice_id (ValueError "Missing required parameter: voice_id") ;;
  let headers := with_org "encrypted_key" org_id (auth_headers auth_token) in
  normalized
    (url <- lift (format VOICE_DETAILS_ENDPOINT [("voice_id", voice_id)]) ;;
     requests_get url headers None None).

(** *** list_batches.py *)

Definition BATCHES_ENDPOINT := API_BASE_URL ++ "/" ++ API_VERSION ++ "/calls/batch".

Definition list_batches (auth_token : option string) (limit offset : option Z)
    (status : option (list string)) (date_range : option (gmap string string))
    (sort_by sort_order org_id : option string) : M Json :=
  auth_token <- require auth_token (ValueError ERROR_MISSING_AUTH) ;;
  raise_if (match limit with Some l => l <? 1 | None => false end)
    (ValueError "Limit must be greater than 0") ;;;
  raise_if (match offset with Some o => o <? 0 | None => false end)
    (ValueError "Offset must be greater than or equal to 0") ;;;
  raise_if (match sort_order with
            | Some s => truthy s && negb (in_list s ["asc"; "desc"])
            | None => false
            end)
    (ValueError "Sort order must be either 'asc' or 'desc'") ;;;
  let headers := with_org "encrypted_key" org_id (auth_headers auth_token) in
  let params : gmap string Json := ∅ in
  let params := set_if_not_None "limit" limit params in
  let params := set_if_not_None "offset" offset params in
  let params := set_if "status" status params in
  let params := set_if "date_range" date_range params in
  let params :=
    if truthy sort_by
    then <["sort_order" := to_json sort_order]> (<["sort_by" := to_json sort_by]> params)
    else params in
  normalized (requests_get BATCHES_ENDPOINT headers None (Some params)).

(** *** list_calls.py

    The keyword arguments of [list_calls], with the defaults of its
    signature.  [limit] is passed on as it is. *)

Module list_calls_kw.
Record t : Type := mk {
  from_number : option string;
  to_number : option string;
  from_index : option Z;
  to_index : option Z;
  limit : Z;
  ascending : bool;
  start_date : option string;
  end_date : option string;
  created_at : option string;
  completed : option bool;
  batch_id : option string;
  answered_by : option string;
  inbound : option bool;
  duration_gt : option float;
  duration_lt : option float;
  campaign_id : option string;
  org_id : option string
}.
Definition defaults : t :=
  mk None None None None DEFAULT_LIMIT false None None None None None None None
     None None None None.
End list_calls_kw.

Definition list_calls (auth_token : option string) (kw : list_calls_kw.t) : M Json :=
  let '(list_calls_kw.mk from_number to_number from_index to_index limit ascending
          start_date end_date created_at completed batch_id answered_by inbound
          duration_gt duration_lt campaign_id org_id) := kw in
  auth_token <- require auth_token (ValueError ERROR_MISSING_AUTH) ;;
  let headers := with_org "encrypted_key" org_id (auth_headers auth_token) in
  let params := dict [("limit", to_json limit); ("ascending", to_json ascending)] in
  let optional_params := dict [
    ("from_number", to_json from_number);
    ("to_number", to_json to_number);
    ("from", to_json from_index);
    ("to", to_json to_index);
    ("start_date", to_json start_date);
    ("end_date", to_json end_date);
    ("created_at", to_json created_at);
    ("completed", to_json completed);
    ("batch_id", to_json batch_id);
    ("answered_by", to_json answered_by);
    ("inbound", to_json inbound);
    ("duration_gt", to_json duration_gt);
    ("duration_lt", to_json duration_lt);
    ("campaign_id", to_json campaign_id)] in
  let params := update_non_None params optional_params in
  normalized (requests_get CALLS_ENDPOINT headers None (Some params)).

(** *** list_custom_tools.py

    The handler of this module adds the keys of an empty page to the
    error dictionary. *)

Definition list_custom_tools (auth_token : option string) (page limit : option Z)
    (org_id : option string) : M Json :=
  auth_token <- require auth_token (ValueError ERROR_MISSING_AUTH) ;;
  page <- ordered page ;;
  raise_if (page <? 1) (ValueError "Page number must be greater than 0") ;;;
  limit <- ordered limit ;;
  raise_if (limit <? 1) (ValueError "Limit must be greater than 0") ;;;
  let request_headers := with_org "encrypted_key" org_id (json_headers auth_token) in
  let params := dict [("page", to_json page); ("limit", to_json limit)] in
  try_except_RequestException
    (response <- requests_get LIST_CUSTOM_TOOLS_ENDPOINT request_headers None (Some params) ;;
     raise_for_status response ;;;
     response_json response)
    (fun msg =>
       ret (JDict (dict [("status", JStr "error"); ("message", JStr msg);
                         ("tools", JList []); ("total", JInt 0);
                         ("page", to_json page); ("total_pages", JInt 0)]))).

(** *** list_inbound_numbers.py *)

Definition list_inbound_numbers (auth_token org_id : option string) : M Json :=
  auth_token <- require auth_token (ValueError ERROR_MISSING_AUTH) ;;
  let headers := with_org "encrypted_key" org_id (auth_headers auth_token) in
  normalized (requests_get LIST_INBOUND_ENDPOINT headers None None).

(** *** list_outbound_numbers.py *)

Definition list_outbound_numbers (auth_token org_id : option string) : M Json :=
  auth_token <- require auth_token (ValueError ERROR_MISSING_AUTH) ;;
  let headers := with_org "encrypted_key" org_id (auth_headers auth_token) in
  normalized (requests_get LIST_OUTBOUND_ENDPOINT headers None None).

(** *** list_voices.py *)

Definition list_voices (auth_token org_id : option string) : M Json :=
  auth_token <- require auth_token (ValueError ERROR_MISSING_AUTH) ;;
  let headers := with_org "encrypted_key" org_id (auth_headers auth_token) in
  normalized (requests_get LIST_VOICES_ENDPOINT headers None None).

(** *** list_web_agents.py *)

Definition list_web_agents (auth_token : option string) (limit offset : option Z)
    (org_id : option string) : M Json :=
  auth_token <- require auth_token (ValueError ERROR_MISSING_AUTH) ;;
  raise_if (match limit with Some l => l <? 1 | None => false end)
    (ValueError "Limit must be greater than 0") ;;;
  raise_if (match offset with Some o => o <? 0 | None => false end)
    (ValueError "Offset must be greater than or equal to 0") ;;;
  let headers := with_org "encrypted_key" org_id (auth_headers auth_token) in
  let params : gmap string Json := ∅ in
  let params := set_if_not_None "limit" limit params in
  let params := set_if_not_None "offset" offset params in
  normalized (requests_get WEB_AGENTS_ENDPOINT headers None (Some params)).

(** *** move_pathway.py *)

Definition move_pathway (auth_token pathway_id folder_id org_id : option string) : M Json :=
  auth_token <- require auth_token (ValueError ERROR_MISSING_AUTH) ;;
  pathway_id <- require pathway_id (ValueError ERROR_MISSING_PATHWAY) ;;
  let headers := with_org "encrypted_key" org_id (json_headers auth_token) in
  let data : gmap string Json := ∅ in
  let data := set_if "folder_id" folder_id data in
  normalized
    (url <- lift (format MOVE_PATHWAY_ENDPOINT [("pathway_id", pathway_id)]) ;;
     requests_post url headers (Some data) None).

(** *** pathway_chat.py *)

Definition send_pathway_chat_message (auth_token chat_id message org_id : option string)
    : M Json :=
  auth_token <- require auth_token (ValueError ERROR_MISSING_AUTH) ;;
  chat_id <- require chat_id (ValueError "Missing required parameter: chat_id") ;;
  let headers := with_org "encrypted_key" org_id (json_headers auth_token) in
  let data : gmap string Json := ∅ in
  let data := set_if "message" message data in
  normalized
    (url <- lift (format PATHWAY_CHAT_ENDPOINT [("chat_id", chat_id)]) ;;
     requests_post url headers (Some data) None).

Definition get_pathway_chat_history (auth_token chat_id org_id : option string) : M Json :=
  auth_token <- require auth_token (ValueError ERROR_MISSING_AUTH) ;;
  chat_id <- require chat_id (ValueError "Missing required parameter: chat_id") ;;
  let headers := with_org "encrypted_key" org_id (auth_headers auth_token) in
  normalized
    (url <- lift (format PATHWAY_CHAT_ENDPOINT [("chat_id", chat_id)]) ;;
     requests_get url headers None None).

(** *** promote_pathway_version.py *)

Definition promote_pathway_version (auth_token pathway_id version_id org_id : option string)
    : M Json :=
  auth_token <- require auth_token (ValueError ERROR_MISSING_AUTH) ;;
  pathway_id <- require pathway_id (ValueError ERROR_MISSING_PATHWAY) ;;
  version_id <- require version_id (ValueError "Missing required parameter: version_id") ;;
  let headers := with_org "encrypted_key" org_id (json_headers auth_token) in
  normalized
    (url <- lift (format PROMOTE_PATHWAY_VERSION_ENDPOINT
                    [("pathway_id", pathway_id); ("version_id", version_id)]) ;;
     requests_post url headers None None).

(** *** publish_cloned_voice.py *)

Definition publish_cloned_voice (auth_token name description : option string)
    (audio_files : option (list string)) (language gender org_id : option string)
    : M Json :=
  auth_token <- require auth_token (ValueError ERROR_MISSING_AUTH) ;;
  name <- require name (ValueError "Missing required parameter: name") ;;
  description <- require description (ValueError "Missing required parameter: description") ;;
  audio_files <- require audio_files (ValueError "Missing required parameter: audio_files") ;;
  let headers := with_org "encrypted_key" org_id (json_headers auth_token) in
  let data := dict [("name", to_json name); ("description", to_json description);
                    ("audio_files", to_json audio_files)] in
  let data := set_if "language" language data in
  let data := set_if "gender" gender data in
  normalized (requests_post PUBLISH_VOICE_ENDPOINT headers (Some data) None).

(** *** purchase_phone_number.py *)

Definition purchase_phone_number (auth_token area_code country org_id : option string)
    : M Json :=
  auth_token <- require auth_token (ValueError ERROR_MISSING_AUTH) ;;
  let headers := with_org "encrypted_key" org_id (json_headers auth_token) in
  let data : gmap string Json := ∅ in
  let data := set_if "area_code" area_code data in
  let data := set_if "country" country data in
  normalized (requests_post PURCHASE_PHONE_ENDPOINT headers (Some data) None).

(** *** send_batch_calls.py *)

Definition BATCH_CALLS_ENDPOINT := API_BASE_URL ++ "/" ++ API_VERSION ++ "/calls/batch".

Definition send_batch_calls (auth_token : option string)
    (phone_numbers : option (list string))
    (pathway_id task model voice language : option string)
    (temperature : option float) (max_duration : option Z)
    (schedule_time : option string) (retry_config metadata : option (gmap string Json))
    (org_id : option string) : M Json :=
  auth_token <- require auth_token (ValueError ERROR_MISSING_AUTH) ;;
  phone_numbers <- require phone_numbers (ValueError ERROR_MISSING_PHONE) ;;
  raise_if (negb (truthy pathway_id) && negb (truthy task))
    (ValueError "Either pathway_id or task must be provided") ;;;
  for_each phone_numbers (fun number =>
    raise_if (not_plus_digits number)
      (ValueError (ERROR_INVALID_PHONE ++ ": " ++ number))) ;;;
  raise_if (match model with
            | Some m => truthy m && negb (in_list m ["base"; "turbo"; "enhanced"])
            | None => false
            end)
    (ValueError "Invalid model. Must be one of: base, turbo, enhanced") ;;;
  raise_if (match temperature with
            | Some x => negb (between 0%float x 1%float)
            | None => false
            end)
    (ValueError "Temperature must be between 0.0 and 1.0") ;;;
  let headers := with_org "encrypted_key" org_id (json_headers auth_token) in
  let data := dict [("phone_numbers", to_json phone_numbers)] in
  let data := set_if_not_None "pathway_id" pathway_id data in
  let data := set_if_not_None "task" task data in
  let data := set_if_not_None "model" model data in
  let data := set_if_not_None "voice" voice data in
  let data := set_if_not_None "language" language data in
  let data := set_if_not_None "temperature" temperature data in
  let data := set_if_not_None "max_duration" max_duration data in
  let data := set_if_not_None "schedule_time" schedule_time data in
  let data := set_if_not_None "retry_config" retry_config data in
  let data := set_if_not_None "metadata" metadata data in
  normalized (requests_post BATCH_CALLS_ENDPOINT headers (Some data) None).

(** *** send_call.py

    The keyword arguments of [send_call], with the defaults of its
    signature.  There is no check of [temperature] in this module. *)

Module send_call_kw.
Record t : Type := mk {
  task : option string;
  pathway_id : option string;
  start_node_id : option string;
  voice : string;
  background_track : option string;
  first_sentence : option string;
  wait_for_greeting : bool;
  block_interruptions : bool;
  interruption_threshold : Z;
  model : string;
  temperature : float;
  keywords : option (list string);
  pronunciation_guide : option (list Json);
  transfer_phone_number : option string;
  transfer_list : option (gmap string string);
  language : string;
  timezone : option string;
  request_data : option (gmap string Json);
  tools : option (list Json);
  dynamic_data : option (list Json);
  start_time : option string;
  voicemail_message : option string;
  voicemail_action : option (gmap string Json);
  retry : option (gmap string Json);
  max_duration : Z;
  record : bool;
  from_number : option string;
  webhook : option string;
  webhook_events : option (list string);
  metadata : option (gmap string Json);
  summary_prompt : option string;
  analysis_prompt : option string;
  analysis_schema : option (gmap string Json);
  answered_by_enabled : bool;
  org_id : option string
}.
Definition defaults : t :=
  mk None None None DEFAULT_VOICE None None false false
     DEFAULT_INTERRUPTION_THRESHOLD DEFAULT_MODEL DEFAULT_TEMPERATURE None None
     None None DEFAULT_LANGUAGE None None None None None None None None
     DEFAULT_MAX_DURATION false None None None None None None None false None.
End send_call_kw.

(** The dictionary [optional_params] of [send_call]. *)
Definition send_call_optional_params (kw : send_call_kw.t) : gmap string Json :=
  let '(send_call_kw.mk task pathway_id start_node_id voice background_track
          first_sentence wait_for_greeting block_interruptions
          interruption_threshold model temperature keywords pronunciation_guide
          transfer_phone_number transfer_list language timezone request_data tools
          dynamic_data start_time voicemail_message voicemail_action retry
          max_duration record from_number webhook webhook_events metadata
          summary_prompt analysis_prompt analysis_schema answered_by_enabled _) := kw in
  dict [
    ("task", to_json task);
    ("pathway_id", to_json pathway_id);
    ("start_node_id", to_json start_node_id);
    ("voice", to_json voice);
    ("background_track", to_json background_track);
    ("first_sentence", to_json first_sentence);
    ("wait_for_greeting", to_json wait_for_greeting);
    ("block_interruptions", to_json block_interruptions);
    ("interruption_threshold", to_json interruption_threshold);
    ("model", to_json model);
    ("temperature", to_json temperature);
    ("keywords", to_json keywords);
    ("pronunciation_guide", to_json pronunciation_guide);
    ("transfer_phone_number", to_json transfer_phone_number);
    ("transfer_list", to_json transfer_list);
    ("language", to_json language);
    ("timezone", to_json timezone);
    ("request_data", to_json request_data);
    ("tools", to_json tools);
    ("dynamic_data", to_json dynamic_data);
    ("start_time", to_json start_time);
    ("voicemail_message", to_json voicemail_message);
    ("voicemail_action", to_json voicemail_action);
    ("retry", to_json retry);
    ("max_duration", to_json max_duration);
    ("record", to_json record);
    ("from", to_json from_number);
    ("webhook", to_json webhook);
    ("webhook_events", to_json webhook_events);
    ("metadata", to_json metadata);
    ("summary_prompt", to_json summary_prompt);
    ("analysis_prompt", to_json analysis_prompt);
    ("analysis_schema", to_json analysis_schema);
    ("answered_by_enabled", to_json answered_by_enabled)].

Definition send_call (auth_token phone_number : option string) (kw : send_call_kw.t)
    : M Json :=
  auth_token <- require auth_token (ValueError ERROR_MISSING_AUTH) ;;
  phone_number <- require phone_number (ValueError ERROR_MISSING_PHONE) ;;
  raise_if (negb (truthy (send_call_kw.task kw)) && negb (truthy (send_call_kw.pathway_id kw)))
    (ValueError "Either task or pathway_id must be provided") ;;;
  let phone_number := Re.sub_class NOT_DIGIT_OR_PLUS "" phone_number in
  raise_if (negb (Re.match_ PHONE_PATTERN phone_number)) (ValueError ERROR_INVALID_PHONE) ;;;
  raise_if (negb (in_list (send_call_kw.model kw) ["base"; "turbo"; "enhanced"]))
    (ValueError ERROR_INVALID_MODEL) ;;;
  raise_if (match send_call_kw.background_track kw with
            | Some b => truthy b && negb (in_keys b BACKGROUND_TRACKS)
            | None => false
            end)
    (ValueError ("Invalid background track. Must be one of: "
                 ++ join ", " (map fst BACKGROUND_TRACKS))) ;;;
  let headers := with_org "organization" (send_call_kw.org_id kw) (json_headers auth_token) in
  let payload := dict [("phone_number", to_json phone_number)] in
  let optional_params := send_call_optional_params kw in
  let payload := update_non_None payload optional_params in
  normalized (requests_post CALLS_ENDPOINT headers (Some payload) None).

(** *** send_call_pathway_simple.py *)

Definition send_call_pathway_simple (auth_token phone_number pathway_id org_id : option string)
    : M Json :=
  auth_token <- require auth_token (ValueError ERROR_MISSING_AUTH) ;;
  phone_number <- require phone_number (ValueError ERROR_MISSING_PHONE) ;;
  pathway_id <- require pathway_id (ValueError "Missing required parameter: pathway_id") ;;
  let phone_number := Re.sub_class NOT_DIGIT_OR_PLUS "" phone_number in
  raise_if (negb (Re.match_ PHONE_PATTERN phone_number)) (ValueError ERROR_INVALID_PHONE) ;;;
  let headers := with_org "organization" org_id (json_headers auth_token) in
  let payload := dict [("phone_number", to_json phone_number);
                       ("pathway_id", to_json pathway_id)] in
  normalized (requests_post CALLS_ENDPOINT headers (Some payload) None).

(** *** send_call_simple.py *)

Definition send_call_simple (auth_token phone_number task org_id : option string) : M Json :=
  auth_token <- require auth_token (ValueError ERROR_MISSING_AUTH) ;;
  phone_number <- require phone_number (ValueError ERROR_MISSING_PHONE) ;;
  task <- require task (ValueError ERROR_MISSING_TASK) ;;
  let phone_number := Re.sub_class NOT_DIGIT_OR_PLUS "" phone_number in
  raise_if (negb (Re.match_ PHONE_PATTERN phone_number)) (ValueError ERROR_INVALID_PHONE) ;;;
  let headers := with_org "organization" org_id (json_headers auth_token) in
  let payload := dict [("phone_number", to_json phone_number); ("task", to_json task)] in
  normalized (requests_post CALLS_ENDPOINT headers (Some payload) None).

(** *** stop_active_batch.py *)

Definition STOP_BATCH_ENDPOINT :=
  API_BASE_URL ++ "/" ++ API_VERSION ++ "/calls/batch/{batch_id}/stop".

Definition stop_active_batch (auth_token batch_id stop_reason org_id : option string)
    : M Json :=
  auth_token <- require auth_token (ValueError ERROR_MISSING_AUTH) ;;
  batch_id <- require batch_id (ValueError "Missing required parameter: batch_id") ;;
  let headers := with_org "encrypted_key" org_id (json_headers auth_token) in
  let data : gmap string Json := ∅ in
  let data := set_if_not_None "reason" stop_reason data in
  normalized
    (url <- lift (format STOP_BATCH_ENDPOINT [("batch_id", batch_id)]) ;;
     requests_post url headers (Some data) None).

(** *** stop_active_call.py *)

Definition stop_active_call (auth_token call_id : option string) : M Json :=
  auth_token <- require auth_token (ValueError ERROR_MISSING_AUTH) ;;
  call_id <- require call_id (ValueError ERROR_MISSING_CALL_ID) ;;
  let headers := auth_headers auth_token in
  normalized
    (url <- lift (format STOP_CALL_ENDPOINT [("call_id", call_id)]) ;;
     requests_post url headers None None).

(** *** stop_all_active_calls.py *)

Definition stop_all_active_calls (auth_token : option string) : M Json :=
  auth_token <- require auth_token (ValueError ERROR_MISSING_AUTH) ;;
  let headers := auth_headers auth_token in
  normalized (requests_post STOP_ALL_CALLS_ENDPOINT headers None None).

(** *** update_custom_tool.py *)

Definition update_custom_tool (auth_token tool_id name description endpoint method
      : option string) (parameters : option (list Json))
    (headers authentication response_mapping : option (gmap string string))
    (org_id : option string) : M Json :=
  auth_token <- require auth_token (ValueError ERROR_MISSING_AUTH) ;;
  tool_id <- require tool_id (ValueError "Missing required parameter: tool_id") ;;
  let valid_methods := ["GET"; "POST"; "PUT"; "DELETE"] in
  raise_if (match method with
            | Some m => truthy m && negb (in_list (upper m) valid_methods)
            | None => false
            end)
    (ValueError ("Invalid method. Must be one of: " ++ join ", " valid_methods)) ;;;
  let request_headers := with_org "encrypted_key" org_id (json_headers auth_token) in
  let data : gmap string Json := ∅ in
  let data := set_if_not_None "name" name data in
  let data := set_if_not_None "description" description data in
  let data := set_if_not_None "endpoint" endpoint data in
  let data := set_if_not_None "method" (upper <$> method) data in
  let data := set_if_not_None "parameters" parameters data in
  let data := set_if_not_None "headers" headers data in
  let data := set_if_not_None "authentication" authentication data in
  let data := set_if_not_None "response_mapping" response_mapping data in
  normalized
    (url <- lift (format UPDATE_CUSTOM_TOOL_ENDPOINT [("tool_id", tool_id)]) ;;
     requests_post url request_headers (Some data) None).

(** *** update_folder.py *)

Definition update_folder (auth_token folder_id name description org_id : option string)
    : M Json :=
  auth_token <- require auth_token (ValueError ERROR_MISSING_AUTH) ;;
  folder_id <- require folder_id (ValueError "Missing required parameter: folder_id") ;;
  raise_if (negb (truthy name) && negb (truthy description))
    (ValueError "At least one update field (name or description) must be provided") ;;;
  let headers := with_org "encrypted_key" org_id (json_headers auth_token) in
  let data : gmap string Json := ∅ in
  let data := set_if "name" name data in
  let data := set_if "description" description data in
  normalized
    (url <- lift (format UPDATE_FOLDER_ENDPOINT [("folder_id", folder_id)]) ;;
     requests_patch url headers (Some data) None).

(** *** update_inbound_details.py *)

Definition update_inbound_details (auth_token phone_number pathway_id task model voice
      language : option string) (temperature : option float) (max_duration : option Z)
    (org_id : option string) : M Json :=
  auth_token <- require auth_token (ValueError ERROR_MISSING_AUTH) ;;
  phone_number <- require phone_number (ValueError ERROR_MISSING_PHONE) ;;
  let headers := with_org "encrypted_key" org_id (json_headers auth_token) in
  let data := dict [("phone_number", to_json phone_number)] in
  let data := set_if "pathway_id" pathway_id data in
  let data := set_if "task" task data in
  let data := set_if "model" model data in
  let data := set_if "voice" voice data in
  let data := set_if "language" language data in
  let data := set_if_not_None "temperature" temperature data in
  let data := set_if "max_duration" max_duration data in
  normalized (requests_post UPDATE_INBOUND_ENDPOINT headers (Some data) None).

(** *** update_pathway.py *)

Definition update_pathway (auth_token pathway_id name : option string)
    (nodes edges : option (list Json)) (description : option string)
    (metadata : option (gmap string Json)) (org_id : option string) : M Json :=
  auth_token <- require auth_token (ValueError ERROR_MISSING_AUTH) ;;
  pathway_id <- require pathway_id (ValueError ERROR_MISSING_PATHWAY) ;;
  raise_if (negb (truthy name || truthy nodes || truthy edges || truthy description
                  || truthy metadata))
    (ValueError "At least one update parameter must be provided") ;;;
  let headers := with_org "encrypted_key" org_id (json_headers auth_token) in
  let payload : gmap string Json := ∅ in
  let payload := set_if "name" name payload in
  let payload := set_if "nodes" nodes payload in
  let payload := set_if "edges" edges payload in
  let payload := set_if "description" description payload in
  let payload := set_if "metadata" metadata payload in
  normalized
    (url <- lift (format UPDATE_PATHWAY_ENDPOINT [("pathway_id", pathway_id)]) ;;
     requests_post url headers (Some payload) None).

(** *** update_web_agent.py *)

Definition UPDATE_WEB_AGENT_ENDPOINT :=
  API_BASE_URL ++ "/" ++ API_VERSION ++ "/web-agents/{agent_id}/update".

Definition update_web_agent (auth_token agent_id name description website_url
      : option string) (allowed_domains capabilities : option (list string))
    (authentication : option (gmap string Json))
    (custom_headers : option (gmap string string)) (rate_limit max_pages : option Z)
    (org_id : option string) : M Json :=
  auth_token <- require auth_token (ValueError ERROR_MISSING_AUTH) ;;
  agent_id <- require agent_id (ValueError "Missing required parameter: agent_id") ;;
  let headers := with_org "encrypted_key" org_id (json_headers auth_token) in
  let data : gmap string Json := ∅ in
  let data := set_if_not_None "name" name data in
  let data := set_if_not_None "description" description data in
  let data := set_if_not_None "website_url" website_url data in
  let data := set_if_not_None "allowed_domains" allowed_domains data in
  let data := set_if_not_None "capabilities" capabilities data in
  let data := set_if_not_None "authentication" authentication data in
  let data := set_if_not_None "custom_headers" custom_headers data in
  let data := set_if_not_None "rate_limit" rate_limit data in
  let data := set_if_not_None "max_pages" max_pages data in
  normalized
    (url <- lift (format UPDATE_WEB_AGENT_ENDPOINT [("agent_id", agent_id)]) ;;
     requests_post url headers (Some data) None).

(** *** upload_inbound_numbers.py *)

Definition UPLOAD_INBOUND_NUMBERS_ENDPOINT :=
  API_BASE_URL ++ "/" ++ API_VERSION ++ "/phone/inbound/upload".

Definition upload_inbound_numbers (auth_token : option string)
    (phone_numbers : option (list string))
    (pathway_id task model voice language : option string)
    (temperature : option float) (max_duration : option Z) (org_id : option string)
    : M Json :=
  auth_token <- require auth_token (ValueError ERROR_MISSING_AUTH) ;;
  phone_numbers <- require phone_numbers (ValueError ERROR_MISSING_PHONE) ;;
  for_each phone_numbers (fun number =>
    raise_if (not_plus_digits number)
      (ValueError (ERROR_INVALID_PHONE ++ ": " ++ number))) ;;;
  raise_if (match model with
            | Some m => truthy m && negb (in_list m ["base"; "turbo"; "enhanced"])
            | None => false
            end)
    (ValueError "Invalid model. Must be one of: base, turbo, enhanced") ;;;
  raise_if (match temperature with
            | Some x => negb (between 0%float x 1%float)
            | None => false
            end)
    (ValueError "Temperature must be between 0.0 and 1.0") ;;;
  let headers := with_org "encrypted_key" org_id (json_headers auth_token) in
  let data := dict [("phone_numbers", to_json phone_numbers)] in
  let data := set_if_not_None "pathway_id" pathway_id data in
  let data := set_if_not_None "task" task data in
  let data := set_if_not_None "model" model data in
  let data := set_if_not_None "voice" voice data in
  let data := set_if_not_None "language" language data in
  let data := set_if_not_None "temperature" temperature data in
  let data := set_if_not_None "max_duration" max_duration data in
  normalized (requests_post UPLOAD_INBOUND_NUMBERS_ENDPOINT headers (Some data) None).

(** ** Every operation of the repository

    A [Call] is one invocation of one public function with its arguments;
    [invoke] runs it.  Statements about all operations quantify over
    [Call]. *)

Inductive Call : Type :=
| Call_analyze_batch (auth_token batch_id goal : option string)
    (questions : option (list string)) (filters : option (gmap string Json))
    (custom_metrics : option (list Json)) (org_id : option string)
| Call_analyze_call (auth_token call_id goal : option string)
    (questions : option (list (list string)))
| Call_authorize_web_agent (auth_token agent_id call_id action target_url : option string)
    (parameters context : option (gmap string Json)) (org_id : option string)
| Call_get_call_details (auth_token call_id org_id : option string)
| Call_create_custom_tool (auth_token name description endpoint method : option string)
    (parameters : option (list Json))
    (headers authentication response_mapping : option (gmap string string))
    (org_id : option string)
| Call_create_encrypted_key (auth_token name key_type value description : option string)
    (metadata : option (gmap string Json)) (org_id : option string)
| Call_create_folder (auth_token name description org_id : option string)
| Call_create_pathway (auth_token name : option string) (nodes edges : option (list Json))
    (description : option string) (metadata : option (gmap string Json))
    (org_id : option string)
| Call_create_pathway_chat (auth_token pathway_id start_node_id org_id : option string)
| Call_create_pathway_version (auth_token pathway_id name description : option string)
    (nodes edges : option (list Json)) (org_id : option string)
| Call_create_web_agent (auth_token name description website_url : option string)
    (allowed_domains capabilities : option (list string))
    (authentication : option (gmap string Json))
    (custom_headers : option (gmap string string)) (rate_limit max_pages : option Z)
    (org_id : option string)
| Call_delete_custom_tool (auth_token tool_id org_id : option string)
| Call_delete_encrypted_key (auth_token key_id org_id : option string)
| Call_delete_folder (auth_token folder_id org_id : option string)
| Call_delete_inbound_number (auth_token phone_number org_id : option string)
| Call_delete_pathway (auth_token pathway_id org_id : option string)
| Call_delete_pathway_version (auth_token pathway_id version_id org_id : option string)
| Call_delete_web_agent (auth_token agent_id org_id : option string)
| Call_generate_audio_sample (auth_token text voice_id language : option string)
    (speed pitch : option float) (format org_id : option string)
| Call_get_all_folders (auth_token org_id : option string)
| Call_get_all_pathways (auth_token : option string) (limit offset : Z)
    (org_id : option string)
| Call_get_batch_analysis (auth_token batch_id analysis_id : option string)
    (include_call_details : option bool) (org_id : option string)
| Call_get_batch_details (auth_token batch_id : option string)
    (include_calls : option bool) (call_status org_id : option string)
| Call_get_custom_tool_details (auth_token tool_id org_id : option string)
| Call_get_folder_pathways (auth_token folder_id org_id : option string)
| Call_get_inbound_details (auth_token phone_number org_id : option string)
| Call_get_pathway_info (auth_token pathway_id org_id : option string)
| Call_get_pathway_version (auth_token pathway_id version_id org_id : option string)
| Call_get_pathway_versions (auth_token pathway_id org_id : option string)
| Call_get_voice_details (auth_token voice_id org_id : option string)
| Call_list_batches (auth_token : option string) (limit offset : option Z)
    (status : option (list string)) (date_range : option (gmap string string))
    (sort_by sort_order org_id : option string)
| Call_list_calls (auth_token : option string) (kw : list_calls_kw.t)
| Call_list_custom_tools (auth_token : option string) (page limit : option Z)
    (org_id : option string)
| Call_list_inbound_numbers (auth_token org_id : option string)
| Call_list_outbound_numbers (auth_token org_id : option string)
| Call_list_voices (auth_token org_id : option string)
| Call_list_web_agents (auth_token : option string) (limit offset : option Z)
    (org_id : option string)
| Call_move_pathway (auth_token pathway_id folder_id org_id : option string)
| Call_send_pathway_chat_message (auth_token chat_id message org_id : option string)
| Call_get_pathway_chat_history (auth_token chat_id org_id : option string)
| Call_promote_pathway_version (auth_token pathway_id version_id org_id : option string)
| Call_publish_cloned_voice (auth_token name description : option string)
    (audio_files : option (list string)) (language gender org_id : option string)
| Call_purchase_phone_number (auth_token area_code country org_id : option string)
| Call_send_batch_calls (auth_token : option string) (phone_numbers : option (list string))
    (pathway_id task model voice language : option string)
    (temperature : option float) (max_duration : option Z)
    (schedule_time : option string) (retry_config metadata : option (gmap string Json))
    (org_id : option string)
| Call_send_call (auth_token phone_number : option string) (kw : send_call_kw.t)
| Call_send_call_pathway_simple (auth_token phone_number pathway_id org_id : option string)
| Call_send_call_simple (auth_token phone_number task org_id : option string)
| Call_stop_active_batch (auth_token batch_id stop_reason org_id : option string)
| Call_stop_active_call (auth_token call_id : option string)
| Call_stop_all_active_calls (auth_token : option string)
| Call_update_custom_tool (auth_token tool_id name description endpoint method
    : option string) (parameters : option (list Json))
    (headers authentication response_mapping : option (gmap string string))
    (org_id : option string)
| Call_update_folder (auth_token folder_id name description org_id : option string)
| Call_update_inbound_details (auth_token phone_number pathway_id task model voice
    language : option string) (temperature : option float) (max_duration : option Z)
    (org_id : option string)
| Call_update_pathway (auth_token pathway_id name : option string)
    (nodes edges : option (list Json)) (description : option string)
    (metadata : option (gmap string Json)) (org_id : option string)
| Call_update_web_agent (auth_token agent_id name description website_url
    : option string) (allowed_domains capabilities : option (list string))
    (authentication : option (gmap string Json))
    (custom_headers : option (gmap string string)) (rate_limit max_pages : option Z)
    (org_id : option string)
| Call_upload_inbound_numbers (auth_token : option string)
    (phone_numbers : option (list string))
    (pathway_id task model voice language : option string)
    (temperature : option float) (max_duration : option Z) (org_id : option string).

Definition invoke (c : Call) : M Json :=
  match c with
  | Call_analyze_batch a b g q f m o => analyze_batch a b g q f m o
  | Call_analyze_call a c g q => analyze_call a c g q
  | Call_authorize_web_agent a ag c ac u p cx o => authorize_web_agent a ag c ac u p cx o
  | Call_get_call_details a c o => get_call_details a c o
  | Call_create_custom_tool a n d e m p h au r o => create_custom_tool a n d e m p h au r o
  | Call_create_encrypted_key a n k v d m o => create_encrypted_key a n k v d m o
  | Call_create_folder a n d o => create_folder a n d o
  | Call_create_pathway a n ns es d m o => create_pathway a n ns es d m o
  | Call_create_pathway_chat a p s o => create_pathway_chat a p s o
  | Call_create_pathway_version a p n d ns es o => create_pathway_version a p n d ns es o
  | Call_create_web_agent a n d w ad cp au ch rl mp o =>
      create_web_agent a n d w ad cp au ch rl mp o
  | Call_delete_custom_tool a i o => delete_custom_tool a i o
  | Call_delete_encrypted_key a i o => delete_encrypted_key a i o
  | Call_delete_folder a i o => delete_folder a i o
  | Call_delete_inbound_number a p o => delete_inbound_number a p o
  | Call_delete_pathway a i o => delete_pathway a i o
  | Call_delete_pathway_version a p v o => delete_pathway_version a p v o
  | Call_delete_web_agent a i o => delete_web_agent a i o
  | Call_generate_audio_sample a x v l s p f o => generate_audio_sample a x v l s p f o
  | Call_get_all_folders a o => get_all_folders a o
  | Call_get_all_pathways a l off o => get_all_pathways a l off o
  | Call_get_batch_analysis a b an i o => get_batch_analysis a b an i o
  | Call_get_batch_details a b i cs o => get_batch_details a b i cs o
  | Call_get_custom_tool_details a i o => get_custom_tool_details a i o
  | Call_get_folder_pathways a i o => get_folder_pathways a i o
  | Call_get_inbound_details a p o => get_inbound_details a p o
  | Call_get_pathway_info a p o => get_pathway_info a p o
  | Call_get_pathway_version a p v o => get_pathway_version a p v o
  | Call_get_pathway_versions a p o => get_pathway_versions a p o
  | Call_get_voice_details a v o => get_voice_details a v o
  | Call_list_batches a l off s d sb so o => list_batches a l off s d sb so o
  | Call_list_calls a kw => list_calls a kw
  | Call_list_custom_tools a p l o => list_custom_tools a p l o
  | Call_list_inbound_numbers a o => list_inbound_numbers a o
  | Call_list_outbound_numbers a o => list_outbound_numbers a o
  | Call_list_voices a o => list_voices a o
  | Call_list_web_agents a l off o => list_web_agents a l off o
  | Call_move_pathway a p f o => move_pathway a p f o
  | Call_send_pathway_chat_message a c m o => send_pathway_chat_message a c m o
  | Call_get_pathway_chat_history a c o => get_pathway_chat_history a c o
  | Call_promote_pathway_version a p v o => promote_pathway_version a p v o
  | Call_publish_cloned_voice a n d af l g o => publish_cloned_voice a n d af l g o
  | Call_purchase_phone_number a ac c o => purchase_phone_number a ac c o
  | Call_send_batch_calls a ps p tk m v l tp md st rc mt o =>
      send_batch_calls a ps p tk m v l tp md st rc mt o
  | Call_send_call a p kw => send_call a p kw
  | Call_send_call_pathway_simple a p pw o => send_call_pathway_simple a p pw o
  | Call_send_call_simple a p tk o => send_call_simple a p tk o
  | Call_stop_active_batch a b r o => stop_active_batch a b r o
  | Call_stop_active_call a c => stop_active_call a c
  | Call_stop_all_active_calls a => stop_all_active_calls a
  | Call_update_custom_tool a i n d e m p h au r o =>
      update_custom_tool a i n d e m p h au r o
  | Call_update_folder a f n d o => update_folder a f n d o
  | Call_update_inbound_details a p pw tk m v l tp md o =>
      update_inbound_details a p pw tk m v l tp md o
  | Call_update_pathway a p n ns es d m o => update_pathway a p n ns es d m o
  | Call_update_web_agent a i n d w ad cp au ch rl mp o =>
      update_web_agent a i n d w ad cp au ch rl mp o
  | Call_upload_inbound_numbers a ps p tk m v l tp md o =>
      upload_inbound_numbers a ps p tk m v l tp md o
  end.

(** The [auth_token] argument of a call. *)
Definition auth_token_of (c : Call) : option string :=
  match c with
  | Call_analyze_batch a _ _ _ _ _ _ | Call_analyze_call a _ _ _
  | Call_authorize_web_agent a _ _ _ _ _ _ _ | Call_get_call_details a _ _
  | Call_create_custom_tool a _ _ _ _ _ _ _ _ _ | Call_create_encrypted_key a _ _ _ _ _ _
  | Call_create_folder a _ _ _ | Call_create_pathway a _ _ _ _ _ _
  | Call_create_pathway_chat a _ _ _ | Call_create_pathway_version a _ _ _ _ _ _
  | Call_create_web_agent a _ _ _ _ _ _ _ _ _ _ | Call_delete_custom_tool a _ _
  | Call_delete_encrypted_key a _ _ | Call_delete_folder a _ _
  | Call_delete_inbound_number a _ _ | Call_delete_pathway a _ _
  | Call_delete_pathway_version a _ _ _ | Call_delete_web_agent a _ _
  | Call_generate_audio_sample a _ _ _ _ _ _ _ | Call_get_all_folders a _
  | Call_get_all_pathways a _ _ _ | Call_get_batch_analysis a _ _ _ _
  | Call_get_batch_details a _ _ _ _ | Call_get_custom_tool_details a _ _
  | Call_get_folder_pathways a _ _ | Call_get_inbound_details a _ _
  | Call_get_pathway_info a _ _ | Call_get_pathway_version a _ _ _
  | Call_get_pathway_versions a _ _ | Call_get_voice_details a _ _
  | Call_list_batches a _ _ _ _ _ _ _ | Call_list_calls a _
  | Call_list_custom_tools a _ _ _ | Call_list_inbound_numbers a _
  | Call_list_outbound_numbers a _ | Call_list_voices a _
  | Call_list_web_agents a _ _ _ | Call_move_pathway a _ _ _
  | Call_send_pathway_chat_message a _ _ _ | Call_get_pathway_chat_history a _ _
  | Call_promote_pathway_version a _ _ _ | Call_publish_cloned_voice a _ _ _ _ _ _
  | Call_purchase_phone_number a _ _ _
  | Call_send_batch_calls a _ _ _ _ _ _ _ _ _ _ _ _ | Call_send_call a _ _
  | Call_send_call_pathway_simple a _ _ _ | Call_send_call_simple a _ _ _
  | Call_stop_active_batch a _ _ _ | Call_stop_active_call a _
  | Call_stop_all_active_calls a | Call_update_custom_tool a _ _ _ _ _ _ _ _ _ _
  | Call_update_folder a _ _ _ _ | Call_update_inbound_details a _ _ _ _ _ _ _ _ _
  | Call_update_pathway a _ _ _ _ _ _ _ | Call_update_web_agent a _ _ _ _ _ _ _ _ _ _ _
  | Call_upload_inbound_numbers a _ _ _ _ _ _ _ _ _ => a
  end.

(** The [org_id] argument of a call; [analyze_call], [stop_active_call]
    and [stop_all_active_calls] have no such parameter. *)
Definition org_id_of (c : Call) : option string :=
  match c with
  | Call_analyze_call _ _ _ _ | Call_stop_active_call _ _
  | Call_stop_all_active_calls _ => None
  | Call_list_calls _ kw => list_calls_kw.org_id kw
  | Call_send_call _ _ kw => send_call_kw.org_id kw
  | Call_analyze_batch _ _ _ _ _ _ o
  | Call_authorize_web_agent _ _ _ _ _ _ _ o | Call_get_call_details _ _ o
  | Call_create_custom_tool _ _ _ _ _ _ _ _ _ o | Call_create_encrypted_key _ _ _ _ _ _ o
  | Call_create_folder _ _ _ o | Call_create_pathway _ _ _ _ _ _ o
  | Call_create_pathway_chat _ _ _ o | Call_create_pathway_version _ _ _ _ _ _ o
  | Call_create_web_agent _ _ _ _ _ _ _ _ _ _ o | Call_delete_custom_tool _ _ o
  | Call_delete_encrypted_key _ _ o | Call_delete_folder _ _ o
  | Call_delete_inbound_number _ _ o | Call_delete_pathway _ _ o
  | Call_delete_pathway_version _ _ _ o | Call_delete_web_agent _ _ o
  | Call_generate_audio_sample _ _ _ _ _ _ _ o | Call_get_all_folders _ o
  | Call_get_all_pathways _ _ _ o | Call_get_batch_analysis _ _ _ _ o
  | Call_get_batch_details _ _ _ _ o | Call_get_custom_tool_details _ _ o
  | Call_get_folder_pathways _ _ o | Call_get_inbound_details _ _ o
  | Call_get_pathway_info _ _ o | Call_get_pathway_version _ _ _ o
  | Call_get_pathway_versions _ _ o | Call_get_voice_details _ _ o
  | Call_list_batches _ _ _ _ _ _ _ o
  | Call_list_custom_tools _ _ _ o | Call_list_inbound_numbers _ o
  | Call_list_outbound_numbers _ o | Call_list_voices _ o
  | Call_list_web_agents _ _ _ o | Call_move_pathway _ _ _ o
  | Call_send_pathway_chat_message _ _ _ o | Call_get_pathway_chat_history _ _ o
  | Call_promote_pathway_version _ _ _ o | Call_publish_cloned_voice _ _ _ _ _ _ o
  | Call_purchase_phone_number _ _ _ o
  | Call_send_batch_calls _ _ _ _ _ _ _ _ _ _ _ _ o
  | Call_send_call_pathway_simple _ _ _ o | Call_send_call_simple _ _ _ o
  | Call_stop_active_batch _ _ _ o | Call_update_custom_tool _ _ _ _ _ _ _ _ _ _ o
  | Call_update_folder _ _ _ _ o | Call_update_inbound_details _ _ _ _ _ _ _ _ _ o
  | Call_update_pathway _ _ _ _ _ _ _ o | Call_update_web_agent _ _ _ _ _ _ _ _ _ _ _ o
  | Call_upload_inbound_numbers _ _ _ _ _ _ _ _ _ o => o
  end.

(** ** Vocabulary of the statements *)

(** A step that performs no request. *)
Definition pure {A} (m : M A) : Prop := forall t log, fst (m t log) = log.

(** Every request a computation performs satisfies [P]. *)
Definition sends_only (P : Request -> Prop) (m : M Json) : Prop :=
  forall t log out, m t [] = (log, out) -> Forall P log.

(** The text of the [RequestException] that performing [req] raises, from
    the call itself or from [raise_for_status], if it raises one. *)
Definition transport_error (t : Transport) (req : Request) : option string :=
  match t req with
  | inl msg => Some msg
  | inr r => resp_http_error r
  end.

(** What the shared tail of the modules returns once [req] is performed. *)
Definition exchange (t : Transport) (req : Request) : outcome Json :=
  match t req with
  | inl msg => Return (JDict (error_dict msg))
  | inr r =>
      match resp_http_error r with
      | Some msg => Return (JDict (error_dict msg))
      | None =>
          match resp_json r with
          | inl (RequestException msg) => Return (JDict (error_dict msg))
          | inl e => Raise e
          | inr j => Return j
          end
      end
  end.

(** A computation that performs one request on which the transport fails
    ends by returning a value related to the exception text by [Q]. *)
Definition handles (Q : string -> Json -> Prop) (m : M Json) : Prop :=
  forall t req out msg,
    m t [] = ([req], out) -> transport_error t req = Some msg ->
    exists v, out = Return v /\ Q msg v.

(** The error value: a dictionary whose status is "error" and whose
    message is the text of the exception. *)
Definition is_error_value (msg : string) (v : Json) : Prop :=
  exists d, v = JDict d
    /\ d !! "status" = Some (JStr "error") /\ d !! "message" = Some (JStr msg).

Definition is_list_custom_tools (c : Call) : bool :=
  match c with Call_list_custom_tools _ _ _ _ => true | _ => false end.

(** The headers besides the token and the content type. *)
Definition other_headers (h : gmap string string) : gmap string string :=
  delete "Content-Type" (delete "authorization" h).

(** What [if org_id: headers[key] = org_id] adds to the headers. *)
Definition org_header (key : string) (org_id : option string) : gmap string string :=
  match org_id with
  | Some o => if truthy o then {[key := o]} else ∅
  | None => ∅
  end.

(** The modules that write the organization under "organization"; all
    the others that take an [org_id] write it under "encrypted_key". *)
Definition uses_organization (c : Call) : bool :=
  match c with
  | Call_send_call _ _ _ | Call_send_call_simple _ _ _ _
  | Call_send_call_pathway_simple _ _ _ _ => true
  | _ => false
  end.

Definition org_header_name (c : Call) : string :=
  if uses_organization c then "organization" else "encrypted_key".

(** The operations that place calls. *)
Definition call_sending (c : Call) : bool :=
  match c with
  | Call_send_call _ _ _ | Call_send_call_simple _ _ _ _
  | Call_send_call_pathway_simple _ _ _ _
  | Call_send_batch_calls _ _ _ _ _ _ _ _ _ _ _ _ _ => true
  | _ => false
  end.

(** The phone number check of [send_call] and [send_call_simple]: the
    cleaned number, and whether it matches the pattern. *)
Definition clean_phone (p : string) : string := Re.sub_class NOT_DIGIT_OR_PLUS "" p.

Definition phone_ok (p : string) : bool := Re.match_ PHONE_PATTERN (clean_phone p).

(** No replacement field is left in a URL. *)
Definition no_placeholder (url : string) : bool :=
  all_chars (fun c => negb (Ascii.eqb c "{"%char || Ascii.eqb c "}"%char)) url.

(** A transport that answers every request with an empty JSON object. *)
Definition ok_transport : Transport :=
  fun _ => inr (mkResponse None (inr (JDict ∅))).

(** A transport on which every request fails with the exception [e],
    as [side_effect = e] does in a test; [msg] is [str(e)]. *)
Definition failing_transport (msg : string) : Transport := fun _ => inl msg.

(** [send_call] called with [task], [pathway_id] and [temperature]; the
    other options keep the defaults of the signature. *)
Definition kw_with (task pathway_id : option string) (temperature : float)
    : send_call_kw.t :=
  send_call_kw.mk task pathway_id None DEFAULT_VOICE None None false false
     DEFAULT_INTERRUPTION_THRESHOLD DEFAULT_MODEL temperature None None
     None None DEFAULT_LANGUAGE None None None None None None None None
     DEFAULT_MAX_DURATION false None None None None None None None false None.

(** [list_calls] called with [limit] only. *)
Definition list_calls_limit (limit : Z) : list_calls_kw.t :=
  list_calls_kw.mk None None None None limit false None None None None None None None
     None None None None.

(** The request [send_call_simple] builds. *)
Definition send_call_simple_request (auth phone task : string) (org_id : option string)
    : Request :=
  mkRequest POST CALLS_ENDPOINT (with_org "organization" org_id (json_headers auth))
    (Some (dict [("phone_number", JStr (clean_phone phone)); ("task", JStr task)])) None.

(** The request [send_call] builds. *)
Definition send_call_request (auth phone : string) (kw : send_call_kw.t) : Request :=
  mkRequest POST CALLS_ENDPOINT
    (with_org "organization" (send_call_kw.org_id kw) (json_headers auth))
    (Some (update_non_None (dict [("phone_number", JStr (clean_phone phone))])
             (send_call_optional_params kw)))
    None.

(** The check of an optional [model], as [send_batch_calls] writes it. *)
Definition optional_model_invalid (model : option string) : bool :=
  match model with
  | Some m => truthy m && negb (in_list m ["base"; "turbo"; "enhanced"])
  | None => false
  end.

(** The phone number check of [send_batch_calls], on the whole list. *)
Definition plus_digits_all (numbers : list string) : bool :=
  forallb (fun number => negb (not_plus_digits number)) numbers.

(** The four flags of [send_call] whose default is [False], as they
    appear in a body [d]. *)
Definition flags_present (kw : send_call_kw.t) (d : gmap string Json) : Prop :=
  d !! "wait_for_greeting" = Some (JBool (send_call_kw.wait_for_greeting kw))
  /\ d !! "block_interruptions" = Some (JBool (send_call_kw.block_interruptions kw))
  /\ d !! "record" = Some (JBool (send_call_kw.record kw))
  /\ d !! "answered_by_enabled" = Some (JBool (send_call_kw.answered_by_enabled kw)).

(** ** Vocabulary of the further properties *)

(** The strings a pattern denotes. *)
Inductive lang : Re.regex -> string -> Prop :=
| lang_eps : lang Re.Eps ""
| lang_class p c : p c = true -> lang (Re.Class p) (String c "")
| lang_seq r1 r2 s1 s2 : lang r1 s1 -> lang r2 s2 -> lang (Re.Seq r1 r2) (s1 ++ s2)
| lang_alt_l r1 r2 s : lang r1 s -> lang (Re.Alt r1 r2) s
| lang_alt_r r1 r2 s : lang r2 s -> lang (Re.Alt r1 r2) s
| lang_star_nil r : lang (Re.Star r) ""
| lang_star_app r s1 s2 :
    lang r s1 -> lang (Re.Star r) s2 -> lang (Re.Star r) (s1 ++ s2).

(** An optional sign followed by 10 to 15 digits. *)
Definition plus_and_digits (s : string) : Prop :=
  exists sign digits,
    s = sign ++ digits /\ (sign = "" \/ sign = "+")
    /\ all_chars is_digit digits = true
    /\ (10 <= String.length digits <= 15)%nat.

(** The exceptions the checks of the arguments raise. *)
Definition is_validation_error (e : exn) : bool :=
  match e with
  | ValueError _ | TypeError _ => true
  | _ => false
  end.

(** A computation that either raises a validation error without any
    request, or performs exactly one request. *)
Definition one_shot (m : M Json) : Prop :=
  forall t log out,
    m t [] = (log, out) ->
    (log = [] /\ exists e, out = Raise e /\ is_validation_error e = true)
    \/ (exists req, log = [req]).

(** The outcome of a computation that performed the single request
    [req] satisfies [Q]. *)
Definition ends_with (Q : Transport -> Request -> outcome Json -> Prop) (m : M Json)
    : Prop :=
  forall t req out, m t [] = ([req], out) -> Q t req out.

Definition is_get_all_pathways (c : Call) : bool :=
  match c with Call_get_all_pathways _ _ _ _ => true | _ => false end.

(** A decoded body is returned as it is. *)
Definition passes_through (t : Transport) (req : Request) (out : outcome Json) : Prop :=
  forall r j,
    t req = inr r -> resp_http_error r = None -> resp_json r = inr j -> out = Return j.

(** When [json()] raises: a [RequestException] becomes an error value,
    any other exception leaves the operation. *)
Definition decode_failure_handled (t : Transport) (req : Request) (out : outcome Json)
    : Prop :=
  forall r e,
    t req = inr r -> resp_http_error r = None -> resp_json r = inl e ->
    match e with
    | RequestException m => exists v, out = Return v /\ is_error_value m v
    | _ => out = Raise e
    end.

(** The parameters a call checks with [if not x: raise ValueError(...)]
    after the token, in the order of the checks: the name the error
    message gives to the parameter, and whether the argument passes. *)
Definition required_of (c : Call) : list (string * bool) :=
  match c with
  | Call_analyze_batch _ batch_id goal questions _ _ _ =>
      [("batch_id", truthy batch_id); ("goal", truthy goal);
       ("questions", truthy questions)]
  | Call_analyze_call _ call_id goal questions =>
      [("call_id", truthy call_id); ("goal", truthy goal); ("questions", truthy questions)]
  | Call_authorize_web_agent _ agent_id call_id action target_url _ _ _ =>
      [("agent_id", truthy agent_id); ("call_id", truthy call_id);
       ("action", truthy action); ("target_url", truthy target_url)]
  | Call_get_call_details _ call_id _ => [("call_id", truthy call_id)]
  | Call_create_custom_tool _ name description endpoint method parameters _ _ _ _ =>
      [("name", truthy name); ("description", truthy description);
       ("endpoint", truthy endpoint); ("method", truthy method);
       ("parameters", truthy parameters)]
  | Call_create_encrypted_key _ name key_type value _ _ _ =>
      [("name", truthy name); ("key_type", truthy key_type); ("value", truthy value)]
  | Call_create_folder _ name _ _ => [("name", truthy name)]
  | Call_create_pathway _ name nodes edges _ _ _ =>
      [("name", truthy name); ("nodes", truthy nodes); ("edges", truthy edges)]
  | Call_create_pathway_chat _ pathway_id _ _ => [("pathway_id", truthy pathway_id)]
  | Call_create_pathway_version _ pathway_id name _ _ _ _ =>
      [("pathway_id", truthy pathway_id); ("name", truthy name)]
  | Call_create_web_agent _ name description website_url allowed_domains _ _ _ _ _ _ =>
      [("name", truthy name); ("description", truthy description);
       ("website_url", truthy website_url); ("allowed_domains", truthy allowed_domains)]
  | Call_delete_custom_tool _ tool_id _ => [("tool_id", truthy tool_id)]
  | Call_delete_encrypted_key _ key_id _ => [("key_id", truthy key_id)]
  | Call_delete_folder _ folder_id _ => [("folder_id", truthy folder_id)]
  | Call_delete_inbound_number _ phone_number _ => [("phone_number", truthy phone_number)]
  | Call_delete_pathway _ pathway_id _ => [("pathway_id", truthy pathway_id)]
  | Call_delete_pathway_version _ pathway_id version_id _ =>
      [("pathway_id", truthy pathway_id); ("version_id", truthy version_id)]
  | Call_delete_web_agent _ agent_id _ => [("agent_id", truthy agent_id)]
  | Call_generate_audio_sample _ text _ _ _ _ _ _ => [("text", truthy text)]
  | Call_get_batch_analysis _ batch_id analysis_id _ _ =>
      [("batch_id", truthy batch_id); ("analysis_id", truthy analysis_id)]
  | Call_get_batch_details _ batch_id _ _ _ => [("batch_id", truthy batch_id)]
  | Call_get_custom_tool_details _ tool_id _ => [("tool_id", truthy tool_id)]
  | Call_get_folder_pathways _ folder_id _ => [("folder_id", truthy folder_id)]
  | Call_get_inbound_details _ phone_number _ => [("phone_number", truthy phone_number)]
  | Call_get_pathway_info _ pathway_id _ => [("pathway_id", truthy pathway_id)]
  | Call_get_pathway_version _ pathway_id version_id _ =>
      [("pathway_id", truthy pathway_id); ("version_id", truthy version_id)]
  | Call_get_pathway_versions _ pathway_id _ => [("pathway_id", truthy pathway_id)]
  | Call_get_voice_details _ voice_id _ => [("voice_id", truthy voice_id)]
  | Call_move_pathway _ pathway_id _ _ => [("pathway_id", truthy pathway_id)]
  | Call_send_pathway_chat_message _ chat_id _ _ => [("chat_id", truthy chat_id)]
  | Call_get_pathway_chat_history _ chat_id _ => [("chat_id", truthy chat_id)]
  | Call_promote_pathway_version _ pathway_id version_id _ =>
      [("pathway_id", truthy pathway_id); ("version_id", truthy version_id)]
  | Call_publish_cloned_voice _ name description audio_files _ _ _ =>
      [("name", truthy name); ("description", truthy description);
       ("audio_files", truthy audio_files)]
  | Call_send_batch_calls _ phone_numbers _ _ _ _ _ _ _ _ _ _ _ =>
      [("phone_number", truthy phone_numbers)]
  | Call_send_call _ phone_number _ => [("phone_number", truthy phone_number)]
  | Call_send_call_pathway_simple _ phone_number pathway_id _ =>
      [("phone_number", truthy phone_number); ("pathway_id", truthy pathway_id)]
  | Call_send_call_simple _ phone_number task _ =>
      [("phone_number", truthy phone_number); ("task", truthy task)]
  | Call_stop_active_batch _ batch_id _ _ => [("batch_id", truthy batch_id)]
  | Call_stop_active_call _ call_id => [("call_id", truthy call_id)]
  | Call_update_custom_tool _ tool_id _ _ _ _ _ _ _ _ _ => [("tool_id", truthy tool_id)]
  | Call_update_folder _ folder_id _ _ _ => [("folder_id", truthy folder_id)]
  | Call_update_inbound_details _ phone_number _ _ _ _ _ _ _ _ =>
      [("phone_number", truthy phone_number)]
  | Call_update_pathway _ pathway_id _ _ _ _ _ _ => [("pathway_id", truthy pathway_id)]
  | Call_update_web_agent _ agent_id _ _ _ _ _ _ _ _ _ _ => [("agent_id", truthy agent_id)]
  | Call_upload_inbound_numbers _ phone_numbers _ _ _ _ _ _ _ _ =>
      [("phone_number", truthy phone_numbers)]
  | Call_get_all_folders _ _
  | Call_get_all_pathways _ _ _ _
  | Call_list_batches _ _ _ _ _ _ _ _
  | Call_list_calls _ _
  | Call_list_custom_tools _ _ _ _
  | Call_list_inbound_numbers _ _
  | Call_list_outbound_numbers _ _
  | Call_list_voices _ _
  | Call_list_web_agents _ _ _ _
  | Call_purchase_phone_number _ _ _ _
  | Call_stop_all_active_calls _ => []
  end.

(** The name reported for the first parameter that does not pass. *)
Fixpoint first_missing (l : list (string * bool)) : option string :=
  match l with
  | [] => None
  | (name, present) :: l' => if present then first_missing l' else Some name
  end.

(** A computation raises [ValueError "Missing required parameter: <name>"]
    before any request exactly when [name] is the first parameter of [l]
    that does not pass. *)
Definition reports (l : list (string * bool)) (m : M Json) : Prop :=
  forall t name,
    first_missing l = Some name
    <-> m t [] = ([], Raise (ValueError ("Missing required parameter: " ++ name))).

(** An exception that is not one of the missing-parameter errors. *)
Definition is_missing_parameter (e : exn) : bool :=
  match e with
  | ValueError msg => startswith "Missing required parameter: " msg
  | _ => false
  end.

(** A computation that raises no missing-parameter error before its
    request. *)
Definition quiet (m : M Json) : Prop :=
  forall t e, m t [] = ([], Raise e) -> is_missing_parameter e = false.

(** The [phone_number] argument of the operations that place one call. *)
Definition single_number_of (c : Call) : option (option string) :=
  match c with
  | Call_send_call _ p _ | Call_send_call_pathway_simple _ p _ _
  | Call_send_call_simple _ p _ _ => Some p
  | _ => None
  end.

(** The [phone_numbers] argument of the operations that take a list of
    numbers. *)
Definition number_list_of (c : Call) : option (option (list string)) :=
  match c with
  | Call_send_batch_calls _ ps _ _ _ _ _ _ _ _ _ _ _
  | Call_upload_inbound_numbers _ ps _ _ _ _ _ _ _ _ => Some ps
  | _ => None
  end.

(** A dictionary without a [None] value. *)
Definition no_None (d : gmap string Json) : Prop :=
  forall k v, d !! k = Some v -> is_not_None v = true.

(** A request whose JSON body and query parameters have no [None]
    value. *)
Definition sends_no_None (req : Request) : Prop :=
  match req_json req with Some d => no_None d | None => True end
  /\ match req_params req with Some q => no_None q | None => True end.

(** [list_batches] with a [sort_by] and [sort_order=None]. *)
Definition sort_order_missing (c : Call) : bool :=
  match c with
  | Call_list_batches _ _ _ _ _ sort_by None _ => truthy sort_by
  | _ => false
  end.

(** [update_folder] and [update_pathway], which check that there is
    something to update. *)
Definition is_checked_update (c : Call) : bool :=
  match c with
  | Call_update_folder _ _ _ _ _ | Call_update_pathway _ _ _ _ _ _ _ _ => true
  | _ => false
  end.

(** The operations that check more than the presence of their
    parameters before sending. *)
Definition has_further_checks (c : Call) : bool :=
  match c with
  | Call_create_custom_tool _ _ _ _ _ _ _ _ _ _
  | Call_create_encrypted_key _ _ _ _ _ _ _
  | Call_delete_inbound_number _ _ _
  | Call_generate_audio_sample _ _ _ _ _ _ _ _
  | Call_get_batch_details _ _ _ _ _
  | Call_list_batches _ _ _ _ _ _ _ _
  | Call_list_custom_tools _ _ _ _
  | Call_list_web_agents _ _ _ _
  | Call_send_batch_calls _ _ _ _ _ _ _ _ _ _ _ _ _
  | Call_send_call _ _ _
  | Call_send_call_pathway_simple _ _ _ _
  | Call_send_call_simple _ _ _ _
  | Call_update_custom_tool _ _ _ _ _ _ _ _ _ _ _
  | Call_update_folder _ _ _ _ _
  | Call_update_pathway _ _ _ _ _ _ _ _
  | Call_upload_inbound_numbers _ _ _ _ _ _ _ _ _ _ => true
  | _ => false
  end.

(** A computation that performs its request whenever every parameter of
    [l] passes. *)
Definition sends_when_present (l : list (string * bool)) (m : M Json) : Prop :=
  first_missing l = None -> forall t, exists req, fst (m t []) = [req].

Ltac unfold_head P :=
  match goal with
  | |- P _ (?f _) => unfold f | |- P _ (?f _ _) => unfold f
  | |- P _ (?f _ _ _) => unfold f | |- P _ (?f _ _ _ _) => unfold f
  | |- P _ (?f _ _ _ _ _) => unfold f | |- P _ (?f _ _ _ _ _ _) => unfold f
  | |- P _ (?f _ _ _ _ _ _ _) => unfold f | |- P _ (?f _ _ _ _ _ _ _ _) => unfold f
  | |- P _ (?f _ _ _ _ _ _ _ _ _) => unfold f
  | |- P _ (?f _ _ _ _ _ _ _ _ _ _) => unfold f
  | |- P _ (?f _ _ _ _ _ _ _ _ _ _ _) => unfold f
  | |- P _ (?f _ _ _ _ _ _ _ _ _ _ _ _) => unfold f
  | |- P _ (?f _ _ _ _ _ _ _ _ _ _ _ _ _) => unfold f
  end.

(** ** Steps that perform no request *)

Lemma pure_ret {A} (v : A) : pure (ret v).
Proof. intros t log. reflexivity. Qed.

Lemma pure_raise {A} (e : exn) : pure (@raise A e).
Proof. intros t log. reflexivity. Qed.

Lemma pure_require {A} `{Truthy A} (x : option A) e : pure (require x e).
Proof.
  intros t log. unfold require.
  destruct x as [v|]; [destruct (truthy v)|]; reflexivity.
Qed.

Lemma pure_raise_if c e : pure (raise_if c e).
Proof. intros t log. destruct c; reflexivity. Qed.

Lemma pure_ordered x : pure (ordered x).
Proof. intros t log. destruct x; reflexivity. Qed.

Lemma pure_lift {A} (r : exn + A) : pure (lift r).
Proof. intros t log. destruct r; reflexivity. Qed.

Lemma pure_bind {A B} (m : M A) (k : A -> M B) :
  pure m -> (forall v, pure (k v)) -> pure (bind m k).
Proof.
  intros Hm Hk t log. unfold bind. specialize (Hm t log).
  destruct (m t log) as [l1 [v|e]]; simpl in Hm; subst; [apply Hk|reflexivity].
Qed.

Lemma pure_for_each {A} (l : list A) (body : A -> M unit) :
  (forall x, pure (body x)) -> pure (for_each l body).
Proof.
  intros Hb. induction l as [|x l IH]; [apply pure_ret|].
  simpl. apply pure_bind; [apply Hb|intros _; exact IH].
Qed.

Lemma pure_validate_numbers (l : list string) e :
  pure (for_each l (fun number => raise_if (not_plus_digits number) (e number))).
Proof. apply pure_for_each. intros x. apply pure_raise_if. Qed.

Lemma pure_raise_for_status r : pure (raise_for_status r).
Proof.
  intros t log. unfold raise_for_status. destruct (resp_http_error r); reflexivity.
Qed.

Lemma pure_response_json r : pure (response_json r).
Proof. apply pure_lift. Qed.

Lemma pure_match_option {A B} (o : option A) (f : A -> M B) (m : M B) :
  (forall v, pure (f v)) -> pure m -> pure (match o with Some v => f v | None => m end).
Proof. intros Hf Hm. destruct o; auto. Qed.

Create HintDb pure_db.
#[local] Hint Resolve pure_require pure_raise_if pure_ordered pure_lift pure_ret
  pure_raise pure_raise_for_status pure_response_json pure_match_option
  pure_validate_numbers : pure_db.

Lemma pure_after_response (r : Response) :
  pure (raise_for_status r ;;; response_json r).
Proof. apply pure_bind; auto with pure_db. Qed.

(** ** Running a call step by step *)

Lemma bind_pure_inv {A B} (m : M A) (k : A -> M B) t log log' out :
  pure m -> bind m k t log = (log', out) ->
  (log' = log /\ exists e, out = Raise e)
  \/ (exists v, m t log = (log, Return v) /\ k v t log = (log', out)).
Proof.
  intros Hm. unfold bind. specialize (Hm t log).
  destruct (m t log) as [l1 [v|e]]; simpl in Hm; subst.
  - intros Hk. right. eauto.
  - intros [= <- <-]. left. eauto.
Qed.

Lemma bind_raise {A B} (m : M A) (k : A -> M B) t log log' e :
  m t log = (log', Raise e) -> bind m k t log = (log', Raise e).
Proof. unfold bind. intros ->. reflexivity. Qed.

Lemma require_falsy {A} `{Truthy A} (x : option A) e t log :
  truthy x = false -> require x e t log = (log, Raise e).
Proof.
  destruct x as [v|]; intros Hx; [|reflexivity].
  change (truthy v = false) in Hx. unfold require. rewrite Hx. reflexivity.
Qed.

Lemma bind_require_ok {A B} `{Truthy A} (v : A) e (k : A -> M B) t log :
  truthy v = true -> bind (require (Some v) e) k t log = k v t log.
Proof. intros Hv. unfold bind, require. rewrite Hv. reflexivity. Qed.

Lemma bind_raise_if_false {B} c e (k : unit -> M B) t log :
  c = false -> bind (raise_if c e) k t log = k tt t log.
Proof. intros ->. reflexivity. Qed.

Lemma bind_raise_if_true {B} c e (k : unit -> M B) t log :
  c = true -> bind (raise_if c e) k t log = (log, Raise e).
Proof. intros ->. reflexivity. Qed.

Lemma bind_ordered_ok {B} z (k : Z -> M B) t log :
  bind (ordered (Some z)) k t log = k z t log.
Proof. reflexivity. Qed.

Lemma for_each_numbers_ok (l : list string) e t log :
  forallb (fun number => negb (not_plus_digits number)) l = true ->
  for_each l (fun number => raise_if (not_plus_digits number) (e number)) t log
  = (log, Return tt).
Proof.
  induction l as [|x l IH]; [reflexivity|].
  simpl. intros H. apply andb_prop in H as [Hx Hl].
  apply negb_true_iff in Hx. rewrite bind_raise_if_false by exact Hx. apply IH, Hl.
Qed.

Lemma bind_for_each_numbers_ok {B} (l : list string) e (k : unit -> M B) t log :
  forallb (fun number => negb (not_plus_digits number)) l = true ->
  bind (for_each l (fun number => raise_if (not_plus_digits number) (e number))) k t log
  = k tt t log.
Proof. intros H. unfold bind. rewrite for_each_numbers_ok by exact H. reflexivity. Qed.

(** The shared tail performs exactly one request and returns what the
    exchange with the transport gives. *)
Lemma normalized_request meth url headers json params t :
  normalized (requests_request meth url headers json params) t []
  = ([mkRequest meth url headers json params],
     exchange t (mkRequest meth url headers json params)).
Proof.
  unfold normalized, try_except_RequestException, bind, requests_request, exchange,
    raise_for_status, response_json, lift, ret, raise.
  simpl. destruct (t _) as [msg|r]; [reflexivity|].
  destruct (resp_http_error r); [reflexivity|].
  destruct (resp_json r) as [[]|]; reflexivity.
Qed.

Lemma normalized_format_request r url meth headers json params t :
  r = inr url ->
  normalized (u <- lift r ;; requests_request meth u headers json params) t []
  = ([mkRequest meth url headers json params],
     exchange t (mkRequest meth url headers json params)).
Proof.
  intros ->. rewrite <- normalized_request. reflexivity.
Qed.

(** ** The requests a call performs *)

Lemma sends_only_bind {A} P (m : M A) (k : A -> M Json) :
  pure m -> (forall v, sends_only P (k v)) -> sends_only P (bind m k).
Proof.
  intros Hm Hk t log out H.
  apply bind_pure_inv in H; [|exact Hm].
  destruct H as [[-> _]|[v [_ H]]]; [constructor|]. eapply Hk; eauto.
Qed.

Lemma try_request_log {A} meth url headers json params (k : Response -> M A) h t log out :
  (forall r, pure (k r)) -> (forall msg, pure (h msg)) ->
  try_except_RequestException (bind (requests_request meth url headers json params) k) h t []
    = (log, out) ->
  log = [mkRequest meth url headers json params].
Proof.
  intros Hk Hh. unfold try_except_RequestException, bind, requests_request. simpl.
  destruct (t _) as [m|r].
  - intros H. pose proof (Hh m t [mkRequest meth url headers json params]) as Hm.
    rewrite H in Hm. simpl in Hm. exact Hm.
  - pose proof (Hk r t [mkRequest meth url headers json params]) as Hr.
    destruct (k r t _) as [l1 [v|e]]; simpl in Hr; subst l1.
    + intros [= <- _]. reflexivity.
    + destruct e; try (intros [= <- _]; reflexivity).
      intros H. pose proof (Hh msg t [mkRequest meth url headers json params]) as Hm.
      rewrite H in Hm. simpl in Hm. exact Hm.
Qed.

Lemma sends_only_try_request P meth url headers json params (k : Response -> M Json) h :
  (forall r, pure (k r)) -> (forall msg, pure (h msg)) ->
  P (mkRequest meth url headers json params) ->
  sends_only P
    (try_except_RequestException (bind (requests_request meth url headers json params) k) h).
Proof.
  intros Hk Hh HP t log out H. apply try_request_log in H; [|exact Hk|exact Hh].
  subst log. constructor; [exact HP|constructor].
Qed.

Lemma sends_only_normalized P meth url headers json params :
  P (mkRequest meth url headers json params) ->
  sends_only P (normalized (requests_request meth url headers json params)).
Proof.
  intros HP t log out H. rewrite normalized_request in H. injection H as <- _.
  constructor; [exact HP|constructor].
Qed.

Lemma sends_only_normalized_format P r meth headers json params :
  (forall url, r = inr url -> P (mkRequest meth url headers json params)) ->
  sends_only P
    (normalized (url <- lift r ;; requests_request meth url headers json params)).
Proof.
  intros HP t log out H. destruct r as [e|url].
  - unfold normalized, try_except_RequestException, bind, lift, raise, ret in H.
    simpl in H. destruct e; injection H as <- _; constructor.
  - rewrite (normalized_format_request _ url) in H by reflexivity. injection H as <- _.
    constructor; [exact (HP url eq_refl)|constructor].
Qed.

Ltac walk_sends :=
  cbv beta zeta;
  repeat (apply sends_only_bind; [auto with pure_db | intros ?; cbv beta zeta]);
  first [ apply sends_only_normalized
        | apply sends_only_normalized_format; intros ? ?
        | apply sends_only_try_request;
          [ intros ?; repeat (apply pure_bind; [|intros ?]); auto with pure_db
          | intros ?; apply pure_ret | ] ].

(** ** Transport failures *)

Lemma handles_bind {A} Q (m : M A) (k : A -> M Json) :
  pure m -> (forall v, handles Q (k v)) -> handles Q (bind m k).
Proof.
  intros Hm Hk t req out msg H Ht.
  apply bind_pure_inv in H; [|exact Hm].
  destruct H as [[H _]|[v [_ H]]]; [discriminate|]. eapply Hk; eauto.
Qed.

Lemma handles_try_request Q meth url headers json params (k : Response -> M Json) h :
  (forall r, pure (k r)) ->
  (forall r msg, resp_http_error r = Some msg ->
     forall t log, k r t log = (log, Raise (RequestException msg))) ->
  (forall msg, Q msg (h msg)) ->
  handles Q
    (try_except_RequestException
       (bind (requests_request meth url headers json params) k)
       (fun msg => ret (h msg))).
Proof.
  intros Hp He HQ t req out msg H Ht.
  unfold try_except_RequestException, bind, requests_request, transport_error in *.
  simpl in H.
  destruct (t _) as [m|r] eqn:E.
  - injection H as <- <-. rewrite E in Ht. injection Ht as <-. eauto.
  - destruct (resp_http_error r) as [m|] eqn:Er.
    + rewrite (He r m Er) in H. unfold ret in H. injection H as <- <-.
      rewrite E in Ht. rewrite Er in Ht. injection Ht as <-. eauto.
    + pose proof (Hp r t [mkRequest meth url headers json params]) as Hk.
      destruct (k r t _) as [l1 [v|e]]; simpl in Hk; subst l1.
      * injection H as <- _. rewrite E, Er in Ht. discriminate.
      * destruct e; unfold ret in H; injection H as <- _; rewrite E, Er in Ht;
          discriminate.
Qed.

Lemma after_response_error r msg t log :
  resp_http_error r = Some msg ->
  (raise_for_status r ;;; response_json r) t log = (log, Raise (RequestException msg)).
Proof. intros H. unfold bind, raise_for_status. rewrite H. reflexivity. Qed.

Lemma handles_normalized Q meth url headers json params :
  (forall msg, Q msg (JDict (error_dict msg))) ->
  handles Q (normalized (requests_request meth url headers json params)).
Proof.
  intros HQ. unfold normalized.
  apply (handles_try_request Q meth url headers json params _
           (fun msg => JDict (error_dict msg))).
  - intros r. apply pure_after_response.
  - intros r msg H t log. apply after_response_error, H.
  - exact HQ.
Qed.

Lemma handles_normalized_format Q r meth headers json params :
  (forall msg, Q msg (JDict (error_dict msg))) ->
  handles Q (normalized (url <- lift r ;; requests_request meth url headers json params)).
Proof.
  intros HQ t req out msg H Ht. destruct r as [e|url].
  - unfold normalized, try_except_RequestException, bind, lift, raise, ret in H.
    simpl in H. destruct e; discriminate.
  - exact (handles_normalized Q meth url headers json params HQ t req out msg H Ht).
Qed.

Lemma error_dict_is_error_value msg : is_error_value msg (JDict (error_dict msg)).
Proof. exists (error_dict msg). repeat split. Qed.

Ltac walk_handles :=
  cbv beta zeta;
  repeat (apply handles_bind; [auto with pure_db | intros ?; cbv beta zeta]);
  first [ apply handles_normalized
        | apply handles_normalized_format
        | apply handles_try_request;
          [ intros ?; repeat (apply pure_bind; [|intros ?]); auto with pure_db
          | intros ? ? Hr ? ?; unfold bind, raise_for_status; rewrite Hr; reflexivity
          | ] ].

(** Whatever the operation, a failure of the transport on its request
    ends in an error value carrying the text of the exception. *)
Lemma invoke_handles (c : Call) : handles is_error_value (invoke c).
Proof.
  destruct c; unfold invoke; try destruct kw; unfold_head @handles; walk_handles.
  all: intros msg; try apply error_dict_is_error_value.
  eexists. split; [reflexivity|]. split; reflexivity.
Qed.

(** Apart from [list_custom_tools], the value has the two keys only. *)
Lemma invoke_handles_exact (c : Call) :
  is_list_custom_tools c = false ->
  handles (fun msg v => v = JDict (error_dict msg)) (invoke c).
Proof.
  destruct c; try discriminate; intros _.
  all: unfold invoke; try destruct kw; unfold_head @handles; walk_handles.
  all: intros msg; reflexivity.
Qed.

(** ** Headers *)

Lemma other_headers_auth tok : other_headers (auth_headers tok) = ∅.
Proof. reflexivity. Qed.

Lemma other_headers_json tok : other_headers (json_headers tok) = ∅.
Proof. reflexivity. Qed.

Lemma other_headers_insert key o h :
  key <> "authorization" -> key <> "Content-Type" ->
  other_headers (<[key := o]> h) = <[key := o]> (other_headers h).
Proof.
  intros H1 H2. unfold other_headers.
  rewrite delete_insert_ne by congruence. rewrite delete_insert_ne by congruence.
  reflexivity.
Qed.

Lemma other_headers_with_org key o h :
  key <> "authorization" -> key <> "Content-Type" -> other_headers h = ∅ ->
  other_headers (with_org key o h) = org_header key o.
Proof.
  intros H1 H2 Hh. unfold with_org, org_header.
  destruct o as [s|]; [destruct (truthy s)|]; try exact Hh.
  rewrite other_headers_insert by assumption. rewrite Hh. reflexivity.
Qed.

Lemma org_header_sends (c : Call) :
  sends_only
    (fun req =>
       other_headers (req_headers req) = org_header (org_header_name c) (org_id_of c))
    (invoke c).
Proof.
  destruct c; unfold invoke, org_header_name, uses_organization, org_id_of.
  all: try destruct kw.
  all: unfold_head sends_only; walk_sends.
  all: cbn [req_headers].
  all: try (apply other_headers_with_org; [discriminate|discriminate|reflexivity]).
  all: reflexivity.
Qed.

(** ** Dictionaries *)

Lemma update_non_None_lookup d other k v :
  other !! k = Some v -> is_not_None v = true -> update_non_None d other !! k = Some v.
Proof.
  intros Hk Hv. unfold update_non_None. apply lookup_union_Some_l.
  apply map_lookup_filter_Some. split; assumption.
Qed.

Lemma update_non_None_lookup_r d other k :
  other !! k = None -> update_non_None d other !! k = d !! k.
Proof.
  intros Hk. unfold update_non_None. apply lookup_union_r.
  apply map_lookup_filter_None. left. exact Hk.
Qed.

Lemma set_if_not_None_ne {A} `{ToJson A} k k' (x : option A) d :
  k <> k' -> set_if_not_None k' x d !! k = d !! k.
Proof.
  intros Hk. unfold set_if_not_None. destruct x; [|reflexivity].
  apply lookup_insert_ne. congruence.
Qed.

Lemma set_if_not_None_eq {A} `{ToJson A} k (v : A) d :
  set_if_not_None k (Some v) d !! k = Some (to_json v).
Proof. apply lookup_insert_eq. Qed.

Lemma set_if_ne {A} `{Truthy A} `{ToJson A} k k' (x : option A) d :
  k <> k' -> set_if k' x d !! k = d !! k.
Proof.
  intros Hk. unfold set_if. destruct (truthy x); [|reflexivity].
  apply lookup_insert_ne. congruence.
Qed.

(** ** Runs of the call-sending operations *)

(** [send_call_simple], once the token, the number and the task are
    present: the phone number check decides. *)
Lemma send_call_simple_run t (auth phone task : string) org_id :
  truthy auth = true -> truthy phone = true -> truthy task = true ->
  exec t (send_call_simple (Some auth) (Some phone) (Some task) org_id)
  = if phone_ok phone
    then ([send_call_simple_request auth phone task org_id],
          exchange t (send_call_simple_request auth phone task org_id))
    else ([], Raise (ValueError ERROR_INVALID_PHONE)).
Proof.
  intros Ha Hp Ht. unfold exec, send_call_simple.
  rewrite bind_require_ok by exact Ha. rewrite bind_require_ok by exact Hp.
  rewrite bind_require_ok by exact Ht. cbv zeta.
  fold (clean_phone phone). fold (phone_ok phone).
  destruct (phone_ok phone).
  - rewrite bind_raise_if_false by reflexivity. apply normalized_request.
  - apply bind_raise_if_true. reflexivity.
Qed.

(** [send_call] with a task or a pathway and the defaults of the other
    options: again the phone number check decides, and nothing looks at
    the temperature. *)
Lemma send_call_run t (auth phone : string) (task pathway_id : option string) (x : float) :
  truthy auth = true -> truthy phone = true ->
  truthy task || truthy pathway_id = true ->
  exec t (send_call (Some auth) (Some phone) (kw_with task pathway_id x))
  = if phone_ok phone
    then ([send_call_request auth phone (kw_with task pathway_id x)],
          exchange t (send_call_request auth phone (kw_with task pathway_id x)))
    else ([], Raise (ValueError ERROR_INVALID_PHONE)).
Proof.
  intros Ha Hp Ht. unfold exec, send_call.
  rewrite bind_require_ok by exact Ha. rewrite bind_require_ok by exact Hp.
  rewrite bind_raise_if_false
    by (cbn [kw_with send_call_kw.task send_call_kw.pathway_id];
        rewrite <- negb_orb, Ht; reflexivity).
  cbv zeta. fold (clean_phone phone). fold (phone_ok phone).
  destruct (phone_ok phone).
  - rewrite bind_raise_if_false by reflexivity.
    rewrite bind_raise_if_false by reflexivity.
    rewrite bind_raise_if_false by reflexivity.
    apply normalized_request.
  - apply bind_raise_if_true. reflexivity.
Qed.

Lemma send_call_missing_one_of t (auth phone : string) (kw : send_call_kw.t) :
  truthy auth = true -> truthy phone = true ->
  truthy (send_call_kw.task kw) = false -> truthy (send_call_kw.pathway_id kw) = false ->
  exec t (send_call (Some auth) (Some phone) kw)
  = ([], Raise (ValueError "Either task or pathway_id must be provided")).
Proof.
  intros Ha Hp Ht Hw. unfold exec, send_call.
  rewrite bind_require_ok by exact Ha. rewrite bind_require_ok by exact Hp.
  apply bind_raise_if_true. rewrite Ht, Hw. reflexivity.
Qed.

Lemma send_batch_calls_missing_one_of t (auth : string) (numbers : list string)
    pathway_id task model voice language temperature max_duration schedule_time
    retry_config metadata org_id :
  truthy auth = true -> truthy numbers = true ->
  truthy pathway_id = false -> truthy task = false ->
  exec t (send_batch_calls (Some auth) (Some numbers) pathway_id task model voice language
            temperature max_duration schedule_time retry_config metadata org_id)
  = ([], Raise (ValueError "Either pathway_id or task must be provided")).
Proof.
  intros Ha Hn Hw Ht. unfold exec, send_batch_calls.
  rewrite bind_require_ok by exact Ha. rewrite bind_require_ok by exact Hn.
  apply bind_raise_if_true. rewrite Ht, Hw. reflexivity.
Qed.

(** [send_batch_calls] once the checks before the temperature pass: the
    range check decides, and an accepted temperature is in the body. *)
Lemma send_batch_calls_run t (auth : string) (numbers : list string)
    pathway_id task model voice language (x : float) max_duration schedule_time
    retry_config metadata org_id :
  truthy auth = true -> truthy numbers = true ->
  truthy pathway_id || truthy task = true ->
  plus_digits_all numbers = true -> optional_model_invalid model = false ->
  if between 0 x 1
  then exists req d,
         exec t (send_batch_calls (Some auth) (Some numbers) pathway_id task model voice
                   language (Some x) max_duration schedule_time retry_config metadata org_id)
         = ([req], exchange t req)
         /\ req_json req = Some d /\ d !! "temperature" = Some (JFloat x)
  else exec t (send_batch_calls (Some auth) (Some numbers) pathway_id task model voice
                 language (Some x) max_duration schedule_time retry_config metadata org_id)
       = ([], Raise (ValueError "Temperature must be between 0.0 and 1.0")).
Proof.
  intros Ha Hn Ht Hd Hm. unfold exec, send_batch_calls.
  destruct (between 0 x 1) eqn:Hx.
  - eexists. eexists.
    rewrite bind_require_ok by exact Ha. rewrite bind_require_ok by exact Hn.
    rewrite bind_raise_if_false by (rewrite <- negb_orb, Ht; reflexivity).
    rewrite bind_for_each_numbers_ok by exact Hd.
    rewrite bind_raise_if_false by exact Hm.
    rewrite bind_raise_if_false by reflexivity.
    cbv zeta. split; [apply normalized_request|]. split; [reflexivity|].
    rewrite !set_if_not_None_ne by discriminate. apply set_if_not_None_eq.
  - rewrite bind_require_ok by exact Ha. rewrite bind_require_ok by exact Hn.
    rewrite bind_raise_if_false by (rewrite <- negb_orb, Ht; reflexivity).
    rewrite bind_for_each_numbers_ok by exact Hd.
    rewrite bind_raise_if_false by exact Hm.
    apply bind_raise_if_true. reflexivity.
Qed.

Lemma send_call_optional_temperature kw :
  send_call_optional_params kw !! "temperature"
  = Some (JFloat (send_call_kw.temperature kw)).
Proof. destruct kw. reflexivity. Qed.

Lemma send_call_request_temperature auth phone kw :
  exists d, req_json (send_call_request auth phone kw) = Some d
    /\ d !! "temperature" = Some (JFloat (send_call_kw.temperature kw)).
Proof.
  eexists. split; [reflexivity|].
  apply update_non_None_lookup; [apply send_call_optional_temperature|reflexivity].
Qed.

(** ** Runs of the other operations the claims name *)

(** [create_custom_tool] once the required parameters are present: the
    check of the upper-cased method decides. *)
Lemma create_custom_tool_run t (auth name description endpoint method : string)
    (parameters : list Json) headers authentication response_mapping org_id :
  truthy auth = true -> truthy name = true -> truthy description = true ->
  truthy endpoint = true -> truthy method = true -> truthy parameters = true ->
  if in_list (upper method) ["GET"; "POST"; "PUT"; "DELETE"]
  then exists req d,
         exec t (create_custom_tool (Some auth) (Some name) (Some description)
                   (Some endpoint) (Some method) (Some parameters) headers authentication
                   response_mapping org_id)
         = ([req], exchange t req)
         /\ req_json req = Some d /\ d !! "method" = Some (JStr (upper method))
  else exec t (create_custom_tool (Some auth) (Some name) (Some description)
                 (Some endpoint) (Some method) (Some parameters) headers authentication
                 response_mapping org_id)
       = ([], Raise (ValueError "Invalid method. Must be one of: GET, POST, PUT, DELETE")).
Proof.
  intros Ha Hn Hd He Hm Hp. unfold exec, create_custom_tool.
  rewrite bind_require_ok by exact Ha. rewrite bind_require_ok by exact Hn.
  rewrite bind_require_ok by exact Hd. rewrite bind_require_ok by exact He.
  rewrite bind_require_ok by exact Hm. rewrite bind_require_ok by exact Hp.
  cbv zeta.
  destruct (in_list (upper method) ["GET"; "POST"; "PUT"; "DELETE"]).
  - rewrite bind_raise_if_false by reflexivity.
    eexists. eexists. split; [apply normalized_request|]. split; [reflexivity|].
    rewrite !set_if_ne by discriminate. reflexivity.
  - apply bind_raise_if_true. reflexivity.
Qed.

(** [list_batches]: the range checks, in the order of the code. *)
Lemma list_batches_run t (auth : string) (limit offset : Z) status date_range sort_by org_id :
  truthy auth = true ->
  if limit <? 1
  then exec t (list_batches (Some auth) (Some limit) (Some offset) status date_range
                 sort_by (Some "desc") org_id)
       = ([], Raise (ValueError "Limit must be greater than 0"))
  else if offset <? 0
  then exec t (list_batches (Some auth) (Some limit) (Some offset) status date_range
                 sort_by (Some "desc") org_id)
       = ([], Raise (ValueError "Offset must be greater than or equal to 0"))
  else exists req q,
         exec t (list_batches (Some auth) (Some limit) (Some offset) status date_range
                   sort_by (Some "desc") org_id)
         = ([req], exchange t req)
         /\ req_params req = Some q
         /\ q !! "limit" = Some (JInt limit) /\ q !! "offset" = Some (JInt offset).
Proof.
  intros Ha. unfold exec, list_batches.
  destruct (limit <? 1) eqn:Hl; [|destruct (offset <? 0) eqn:Ho].
  - rewrite bind_require_ok by exact Ha. apply bind_raise_if_true. reflexivity.
  - rewrite bind_require_ok by exact Ha. rewrite bind_raise_if_false by reflexivity.
    apply bind_raise_if_true. reflexivity.
  - eexists. eexists.
    rewrite bind_require_ok by exact Ha. rewrite bind_raise_if_false by reflexivity.
    rewrite bind_raise_if_false by reflexivity. rewrite bind_raise_if_false by reflexivity.
    cbv zeta. split; [apply normalized_request|]. split; [reflexivity|].
    cbn [req_params]. split.
    + destruct (truthy sort_by).
      * rewrite lookup_insert_ne by discriminate. rewrite lookup_insert_ne by discriminate.
        rewrite !set_if_ne by discriminate. rewrite set_if_not_None_ne by discriminate.
        apply set_if_not_None_eq.
      * rewrite !set_if_ne by discriminate. rewrite set_if_not_None_ne by discriminate.
        apply set_if_not_None_eq.
    + destruct (truthy sort_by).
      * rewrite lookup_insert_ne by discriminate. rewrite lookup_insert_ne by discriminate.
        rewrite !set_if_ne by discriminate. apply set_if_not_None_eq.
      * rewrite !set_if_ne by discriminate. apply set_if_not_None_eq.
Qed.

(** [list_web_agents]: the same two checks. *)
Lemma list_web_agents_run t (auth : string) (limit offset : Z) org_id :
  truthy auth = true ->
  if limit <? 1
  then exec t (list_web_agents (Some auth) (Some limit) (Some offset) org_id)
       = ([], Raise (ValueError "Limit must be greater than 0"))
  else if offset <? 0
  then exec t (list_web_agents (Some auth) (Some limit) (Some offset) org_id)
       = ([], Raise (ValueError "Offset must be greater than or equal to 0"))
  else exists req q,
         exec t (list_web_agents (Some auth) (Some limit) (Some offset) org_id)
         = ([req], exchange t req)
         /\ req_params req = Some q
         /\ q !! "limit" = Some (JInt limit) /\ q !! "offset" = Some (JInt offset).
Proof.
  intros Ha. unfold exec, list_web_agents.
  destruct (limit <? 1) eqn:Hl; [|destruct (offset <? 0) eqn:Ho].
  - rewrite bind_require_ok by exact Ha. apply bind_raise_if_true. reflexivity.
  - rewrite bind_require_ok by exact Ha. rewrite bind_raise_if_false by reflexivity.
    apply bind_raise_if_true. reflexivity.
  - eexists. eexists.
    rewrite bind_require_ok by exact Ha. rewrite bind_raise_if_false by reflexivity.
    rewrite bind_raise_if_false by reflexivity.
    cbv zeta. split; [apply normalized_request|]. split; [reflexivity|].
    cbn [req_params]. split.
    + rewrite set_if_not_None_ne by discriminate. apply set_if_not_None_eq.
    + apply set_if_not_None_eq.
Qed.

(** [list_custom_tools]: the page, then the limit. *)
Lemma list_custom_tools_run t (auth : string) (page limit : Z) org_id :
  truthy auth = true ->
  if page <? 1
  then exec t (list_custom_tools (Some auth) (Some page) (Some limit) org_id)
       = ([], Raise (ValueError "Page number must be greater than 0"))
  else if limit <? 1
  then exec t (list_custom_tools (Some auth) (Some page) (Some limit) org_id)
       = ([], Raise (ValueError "Limit must be greater than 0"))
  else exists req q out,
         exec t (list_custom_tools (Some auth) (Some page) (Some limit) org_id)
         = ([req], out)
         /\ req_params req = Some q
         /\ q !! "page" = Some (JInt page) /\ q !! "limit" = Some (JInt limit).
Proof.
  intros Ha. unfold exec, list_custom_tools.
  destruct (page <? 1) eqn:Hp; [|destruct (limit <? 1) eqn:Hl].
  - rewrite bind_require_ok by exact Ha. rewrite bind_ordered_ok.
    apply bind_raise_if_true. exact Hp.
  - rewrite bind_require_ok by exact Ha. rewrite bind_ordered_ok.
    rewrite bind_raise_if_false by exact Hp. rewrite bind_ordered_ok.
    apply bind_raise_if_true. exact Hl.
  - rewrite bind_require_ok by exact Ha. rewrite bind_ordered_ok.
    rewrite bind_raise_if_false by exact Hp. rewrite bind_ordered_ok.
    rewrite bind_raise_if_false by exact Hl. cbv zeta.
    match goal with
    | |- exists req q out, ?m ?t [] = _ /\ _ =>
        destruct (m t []) as [log out] eqn:E
    end.
    apply try_request_log in E;
      [|intros r; apply pure_after_response|intros msg; apply pure_ret].
    subst log. eexists. eexists. eexists. split; [reflexivity|].
    split; [reflexivity|]. split; reflexivity.
Qed.

(** [list_calls] and [get_all_pathways] check nothing but the token:
    the limit goes out as it came in. *)
Lemma list_calls_run t (auth : string) (limit : Z) :
  truthy auth = true ->
  exists req q,
    exec t (list_calls (Some auth) (list_calls_limit limit)) = ([req], exchange t req)
    /\ req_params req = Some q /\ q !! "limit" = Some (JInt limit).
Proof.
  intros Ha. unfold exec, list_calls, list_calls_limit.
  eexists. eexists. rewrite bind_require_ok by exact Ha. cbv zeta.
  split; [apply normalized_request|]. split; [reflexivity|].
  rewrite update_non_None_lookup_r by reflexivity. reflexivity.
Qed.

Lemma get_all_pathways_run t (auth : string) (limit offset : Z) org_id :
  truthy auth = true ->
  exists req q out,
    exec t (get_all_pathways (Some auth) limit offset org_id) = ([req], out)
    /\ req_params req = Some q
    /\ q !! "limit" = Some (JInt limit) /\ q !! "offset" = Some (JInt offset).
Proof.
  intros Ha. unfold exec, get_all_pathways.
  rewrite bind_require_ok by exact Ha. cbv zeta.
  match goal with
  | |- exists req q out, ?m ?t [] = _ /\ _ => destruct (m t []) as [log out] eqn:E
  end.
  apply try_request_log in E.
  - subst log. eexists. eexists. eexists. split; [reflexivity|].
    split; [reflexivity|]. split; reflexivity.
  - intros r. repeat (apply pure_bind; [|intros ?]); auto with pure_db.
  - intros msg. apply pure_ret.
Qed.

Lemma append_empty_r (s : string) : s ++ "" = s.
Proof.
  induction s as [|c s IH]; [reflexivity|].
  change (String c (s ++ "") = String c s). rewrite IH. reflexivity.
Qed.

(** Formatting the pathway-details template puts the identifier after
    the last slash, whatever the identifier is. *)
Lemma format_pathway_details (pathway_id : string) :
  format PATHWAY_DETAILS_ENDPOINT [("pathway_id", pathway_id)]
  = inr (PATHWAYS_ENDPOINT ++ "/" ++ pathway_id).
Proof.
  transitivity (@inr exn string (PATHWAYS_ENDPOINT ++ "/" ++ (pathway_id ++ ""))).
  - reflexivity.
  - rewrite append_empty_r. reflexivity.
Qed.

Lemma get_pathway_info_run t (auth pathway_id : string) org_id :
  truthy auth = true -> truthy pathway_id = true ->
  exec t (get_pathway_info (Some auth) (Some pathway_id) org_id)
  = ([mkRequest GET (PATHWAYS_ENDPOINT ++ "/" ++ pathway_id)
        (with_org "encrypted_key" org_id (auth_headers auth)) None None],
     exchange t
       (mkRequest GET (PATHWAYS_ENDPOINT ++ "/" ++ pathway_id)
          (with_org "encrypted_key" org_id (auth_headers auth)) None None)).
Proof.
  intros Ha Hp. unfold exec, get_pathway_info.
  rewrite bind_require_ok by exact Ha. rewrite bind_require_ok by exact Hp.
  cbv zeta. apply normalized_format_request. apply format_pathway_details.
Qed.

Lemma send_call_optional_flags kw : flags_present kw (send_call_optional_params kw).
Proof. destruct kw. repeat split. Qed.

(** Every request [send_call] performs has a body, in which the four
    flags are present and every option that is not [None] appears with
    its value. *)
Lemma send_call_sends auth_token phone_number kw :
  sends_only
    (fun req =>
       exists d, req_json req = Some d
         /\ flags_present kw d
         /\ forall k v, send_call_optional_params kw !! k = Some v ->
                        is_not_None v = true -> d !! k = Some v)
    (send_call auth_token phone_number kw).
Proof.
  unfold send_call. walk_sends.
  eexists. split; [reflexivity|]. split.
  - destruct (send_call_optional_flags kw) as (H1 & H2 & H3 & H4).
    repeat split; apply update_non_None_lookup; try assumption; reflexivity.
  - intros k w Hk Hw. apply update_non_None_lookup; assumption.
Qed.

(** ** The claims *)

(** C1, amended.  For every operation: if the request it performs fails
    in the transport with a [RequestException] (raised by the call or by
    [raise_for_status]), the operation does not raise; it returns a
    dictionary whose "status" is "error" and whose "message" is [str(e)],
    the text of the exception (which may be empty), and for every
    operation but [list_custom_tools] the dictionary has these two keys
    only. *)
Theorem C1_transport_failure_normalized (c : Call) (t : Transport) (req : Request)
    (out : outcome Json) (msg : string) :
  exec t (invoke c) = ([req], out) ->
  transport_error t req = Some msg ->
  exists d, out = Return (JDict d)
    /\ d !! "status" = Some (JStr "error")
    /\ d !! "message" = Some (JStr msg)
    /\ (is_list_custom_tools c = false -> d = error_dict msg).
Proof.
  intros H Ht.
  destruct (invoke_handles c t req out msg H Ht) as (v & -> & d & -> & Hs & Hm).
  exists d. repeat split; try assumption.
  intros Hc.
  destruct (invoke_handles_exact c Hc t req (Return (JDict d)) msg H Ht) as (v & Hv & ->).
  congruence.
Qed.

Lemma C1_witness :
  exec (failing_transport "Connection refused")
    (invoke (Call_send_call_simple (Some "key") (Some "+12025550101") (Some "say hi") None))
  = ([send_call_simple_request "key" "+12025550101" "say hi" None],
     Return (JDict (error_dict "Connection refused")))
  /\ transport_error (failing_transport "Connection refused")
       (send_call_simple_request "key" "+12025550101" "say hi" None)
     = Some "Connection refused"
  /\ exists d,
       Return (JDict (error_dict "Connection refused")) = Return (JDict d)
       /\ d !! "status" = Some (JStr "error")
       /\ d !! "message" = Some (JStr "Connection refused")
       /\ (is_list_custom_tools
             (Call_send_call_simple (Some "key") (Some "+12025550101") (Some "say hi") None)
           = false -> d = error_dict "Connection refused").
Proof.
  split; [vm_compute; reflexivity|]. split; [reflexivity|].
  apply (C1_transport_failure_normalized
           (Call_send_call_simple (Some "key") (Some "+12025550101") (Some "say hi") None)
           (failing_transport "Connection refused")
           (send_call_simple_request "key" "+12025550101" "say hi" None)).
  - vm_compute. reflexivity.
  - reflexivity.
Defined.

(** C1 as stated fails: the message is the text of the exception, and a
    connection error raised without a description has the empty text. *)
Lemma C1_counterexample :
  exec (failing_transport "")
    (invoke (Call_get_pathway_info (Some "key") (Some "p1") None))
  = ([mkRequest GET "https://api.bland.ai/v1/pathways/p1" (auth_headers "key") None None],
     Return (JDict (error_dict "")))
  /\ transport_error (failing_transport "")
       (mkRequest GET "https://api.bland.ai/v1/pathways/p1" (auth_headers "key") None None)
     = Some ""
  /\ error_dict "" !! "message" = Some (JStr "").
Proof. split; [vm_compute; reflexivity|]. split; reflexivity. Qed.

(** C2.  For every operation, an empty or missing auth token raises the
    error "Missing authorization header", whatever the other arguments
    are, and no request is performed. *)
Theorem C2_missing_auth_first (c : Call) (t : Transport) :
  truthy (auth_token_of c) = false ->
  exec t (invoke c) = ([], Raise (ValueError "Missing authorization header")).
Proof.
  intros H. destruct c; simpl in H; unfold exec, invoke; try destruct kw;
    apply bind_raise, require_falsy, H.
Qed.

Lemma C2_witness :
  truthy (auth_token_of (Call_send_call (Some "") None send_call_kw.defaults)) = false
  /\ exec ok_transport (invoke (Call_send_call (Some "") None send_call_kw.defaults))
     = ([], Raise (ValueError "Missing authorization header")).
Proof. split; [reflexivity|]. apply C2_missing_auth_first. reflexivity. Defined.

(** C3, amended.  In [send_call] and [send_call_simple] the number is
    stripped of every character that is neither a digit nor a plus sign
    and must then match the pattern, whose plus sign is optional and
    which takes 10 to 15 digits: a number that fails is rejected with
    "Invalid phone number format" before any request, any other is sent
    in its cleaned form.  "+12025550101", "12025550101" and "+1202555010"
    (ten digits) pass; "+1202555010111111" (16 digits) and "+120255501"
    (nine digits) fail. *)
Theorem C3_phone_validation (t : Transport) (auth phone task : string)
    (org_id : option string) (x : float) :
  truthy auth = true -> truthy phone = true -> truthy task = true ->
  exec t (send_call_simple (Some auth) (Some phone) (Some task) org_id)
  = (if phone_ok phone
     then ([send_call_simple_request auth phone task org_id],
           exchange t (send_call_simple_request auth phone task org_id))
     else ([], Raise (ValueError "Invalid phone number format")))
  /\ exec t (send_call (Some auth) (Some phone) (kw_with (Some task) None x))
     = (if phone_ok phone
        then ([send_call_request auth phone (kw_with (Some task) None x)],
              exchange t (send_call_request auth phone (kw_with (Some task) None x)))
        else ([], Raise (ValueError "Invalid phone number format")))
  /\ phone_ok "+12025550101" = true
  /\ phone_ok "12025550101" = true
  /\ phone_ok "+1202555010" = true
  /\ phone_ok "+1202555010111111" = false
  /\ phone_ok "+120255501" = false.
Proof.
  intros Ha Hp Ht. split; [apply send_call_simple_run; assumption|].
  split; [apply send_call_run; try assumption; rewrite orb_false_r; exact Ht|].
  repeat split; vm_compute; reflexivity.
Qed.

Lemma C3_witness :
  truthy "key" = true /\ truthy "+1202555010111111" = true /\ truthy "say hi" = true
  /\ exec ok_transport
       (send_call_simple (Some "key") (Some "+1202555010111111") (Some "say hi") None)
     = ([], Raise (ValueError "Invalid phone number format")).
Proof.
  split; [reflexivity|]. split; [reflexivity|]. split; [reflexivity|].
  exact (proj1 (C3_phone_validation ok_transport "key" "+1202555010111111" "say hi" None
                  DEFAULT_TEMPERATURE eq_refl eq_refl eq_refl)).
Defined.

(** C3 as stated fails: the number without a plus sign and the number
    with ten digits are not rejected; a request carrying them is sent. *)
Lemma C3_counterexample :
  exec ok_transport
    (send_call_simple (Some "key") (Some "12025550101") (Some "say hi") None)
  = ([send_call_simple_request "key" "12025550101" "say hi" None], Return (JDict ∅))
  /\ exec ok_transport
       (send_call (Some "key") (Some "+1202555010") (kw_with (Some "say hi") None 0.7))
     = ([send_call_request "key" "+1202555010" (kw_with (Some "say hi") None 0.7)],
        Return (JDict ∅)).
Proof. split; vm_compute; reflexivity. Qed.

(** C4, amended.  [send_batch_calls] rejects a temperature outside
    [0.0, 1.0], such as 1.5, with "Temperature must be between 0.0 and
    1.0" before any request, and sends an accepted temperature, such as
    0.7, unmodified under the "temperature" key of the body.
    [send_call] has no range check: it sends whatever temperature it is
    given, 0.7 or 1.5, unmodified under the "temperature" key. *)
Theorem C4_temperature (t : Transport) (auth phone : string) (numbers : list string)
    (task : string) (x : float) :
  truthy auth = true -> truthy numbers = true -> plus_digits_all numbers = true ->
  truthy task = true -> phone_ok phone = true -> truthy phone = true ->
  (if between 0 x 1
   then exists req d,
          exec t (send_batch_calls (Some auth) (Some numbers) None (Some task)
                    (Some DEFAULT_MODEL) (Some DEFAULT_VOICE) (Some DEFAULT_LANGUAGE)
                    (Some x) (Some DEFAULT_MAX_DURATION) None None None None)
          = ([req], exchange t req)
          /\ req_json req = Some d /\ d !! "temperature" = Some (JFloat x)
   else exec t (send_batch_calls (Some auth) (Some numbers) None (Some task)
                  (Some DEFAULT_MODEL) (Some DEFAULT_VOICE) (Some DEFAULT_LANGUAGE)
                  (Some x) (Some DEFAULT_MAX_DURATION) None None None None)
        = ([], Raise (ValueError "Temperature must be between 0.0 and 1.0")))
  /\ (exists req d,
        exec t (send_call (Some auth) (Some phone) (kw_with (Some task) None x))
        = ([req], exchange t req)
        /\ req_json req = Some d /\ d !! "temperature" = Some (JFloat x))
  /\ between 0 1.5 1 = false
  /\ between 0 0.7 1 = true.
Proof.
  intros Ha Hn Hd Ht Hp Hp'. split; [|split; [|split; reflexivity]].
  - apply send_batch_calls_run; try assumption; reflexivity.
  - destruct (send_call_request_temperature auth phone (kw_with (Some task) None x))
      as (d & Hd1 & Hd2).
    exists (send_call_request auth phone (kw_with (Some task) None x)), d.
    split; [|split; assumption].
    rewrite send_call_run; try assumption.
    + rewrite Hp. reflexivity.
    + rewrite orb_false_r. exact Ht.
Qed.

Lemma C4_witness :
  exec ok_transport
    (send_batch_calls (Some "key") (Some ["+12025550101"]) None (Some "say hi")
       (Some DEFAULT_MODEL) (Some DEFAULT_VOICE) (Some DEFAULT_LANGUAGE)
       (Some 1.5%float) (Some DEFAULT_MAX_DURATION) None None None None)
  = ([], Raise (ValueError "Temperature must be between 0.0 and 1.0")).
Proof.
  exact (proj1 (C4_temperature ok_transport "key" "+12025550101" ["+12025550101"]
                  "say hi" 1.5%float eq_refl eq_refl eq_refl eq_refl eq_refl eq_refl)).
Defined.

(** C4 as stated fails for [send_call]: a temperature of 1.5 raises
    nothing, the request is sent with 1.5 in its body. *)
Lemma C4_counterexample :
  exec ok_transport
    (send_call (Some "key") (Some "+12025550101") (kw_with (Some "say hi") None 1.5))
  = ([send_call_request "key" "+12025550101" (kw_with (Some "say hi") None 1.5)],
     Return (JDict ∅))
  /\ exists d,
       req_json (send_call_request "key" "+12025550101" (kw_with (Some "say hi") None 1.5))
       = Some d
       /\ d !! "temperature" = Some (JFloat 1.5).
Proof.
  split; [vm_compute; reflexivity|].
  apply send_call_request_temperature.
Qed.

(** C5.  In [send_call] and [send_batch_calls], when neither a task nor
    a pathway id is provided (each absent or empty) and the token and the
    numbers are present, the missing-one-of error is raised and no
    request is built or sent; when at least one of them is provided and
    the other checks pass, no validation error is raised: the request is
    sent and the result is what the exchange with the transport gives. *)
Theorem C5_task_or_pathway (t : Transport) (auth phone : string) (numbers : list string)
    (task pathway_id : option string) (x : float) :
  truthy auth = true -> truthy phone = true -> truthy numbers = true ->
  (truthy task = false -> truthy pathway_id = false ->
     (forall kw,
        send_call_kw.task kw = task -> send_call_kw.pathway_id kw = pathway_id ->
        exec t (send_call (Some auth) (Some phone) kw)
        = ([], Raise (ValueError "Either task or pathway_id must be provided")))
     /\ (forall model voice language temperature max_duration schedule_time
           retry_config metadata org_id,
         exec t (send_batch_calls (Some auth) (Some numbers) pathway_id task model voice
                   language temperature max_duration schedule_time retry_config metadata
                   org_id)
         = ([], Raise (ValueError "Either pathway_id or task must be provided"))))
  /\ (truthy task || truthy pathway_id = true ->
      phone_ok phone = true -> plus_digits_all numbers = true -> between 0 x 1 = true ->
      exec t (send_call (Some auth) (Some phone) (kw_with task pathway_id x))
      = ([send_call_request auth phone (kw_with task pathway_id x)],
         exchange t (send_call_request auth phone (kw_with task pathway_id x)))
      /\ exists req,
           exec t (send_batch_calls (Some auth) (Some numbers) pathway_id task
                     (Some DEFAULT_MODEL) (Some DEFAULT_VOICE) (Some DEFAULT_LANGUAGE)
                     (Some x) (Some DEFAULT_MAX_DURATION) None None None None)
           = ([req], exchange t req)).
Proof.
  intros Ha Hp Hn. split.
  - intros Ht Hw. split.
    + intros kw <- <-. apply send_call_missing_one_of; assumption.
    + intros. apply send_batch_calls_missing_one_of; assumption.
  - intros Hone Hok Hd Hx. split.
    + rewrite send_call_run by assumption. rewrite Hok. reflexivity.
    + pose proof (send_batch_calls_run t auth numbers pathway_id task (Some DEFAULT_MODEL)
                    (Some DEFAULT_VOICE) (Some DEFAULT_LANGUAGE) x
                    (Some DEFAULT_MAX_DURATION) None None None None Ha Hn) as H.
      rewrite Hx in H. rewrite orb_comm in Hone.
      destruct (H Hone Hd eq_refl) as (req & d & Hr & _). exists req. exact Hr.
Qed.

Lemma C5_witness :
  exec ok_transport (send_call (Some "key") (Some "+12025550101") send_call_kw.defaults)
  = ([], Raise (ValueError "Either task or pathway_id must be provided"))
  /\ exec ok_transport
       (send_call (Some "key") (Some "+12025550101") (kw_with None (Some "pw-1") 0.7))
     = ([send_call_request "key" "+12025550101" (kw_with None (Some "pw-1") 0.7)],
        exchange ok_transport
          (send_call_request "key" "+12025550101" (kw_with None (Some "pw-1") 0.7))).
Proof.
  split.
  - exact (proj1 (proj1 (C5_task_or_pathway ok_transport "key" "+12025550101"
                           ["+12025550101"] None None 0.7%float eq_refl eq_refl eq_refl)
                    eq_refl eq_refl)
             send_call_kw.defaults eq_refl eq_refl).
  - exact (proj1 (proj2 (C5_task_or_pathway ok_transport "key" "+12025550101"
                           ["+12025550101"] None (Some "pw-1") 0.7%float
                           eq_refl eq_refl eq_refl)
                    eq_refl eq_refl eq_refl eq_refl)).
Defined.

(** C6.  [create_custom_tool] accepts a method in any letter case whose
    upper-cased form is GET, POST, PUT or DELETE and writes that
    upper-cased form under the "method" key of the body; a method whose
    upper-cased form is PATCH is rejected with the invalid-method error
    before any request. *)
Theorem C6_method_enum (t : Transport) (auth name description endpoint method : string)
    (parameters : list Json) (headers authentication response_mapping
      : option (gmap string string)) (org_id : option string) :
  truthy auth = true -> truthy name = true -> truthy description = true ->
  truthy endpoint = true -> truthy method = true -> truthy parameters = true ->
  (in_list (upper method) ["GET"; "POST"; "PUT"; "DELETE"] = true ->
   exists req d,
     exec t (create_custom_tool (Some auth) (Some name) (Some description)
               (Some endpoint) (Some method) (Some parameters) headers authentication
               response_mapping org_id)
     = ([req], exchange t req)
     /\ req_json req = Some d /\ d !! "method" = Some (JStr (upper method)))
  /\ (upper method = "PATCH" ->
      exec t (create_custom_tool (Some auth) (Some name) (Some description)
                (Some endpoint) (Some method) (Some parameters) headers authentication
                response_mapping org_id)
      = ([], Raise (ValueError "Invalid method. Must be one of: GET, POST, PUT, DELETE")))
  /\ upper "patch" = "PATCH" /\ upper "Patch" = "PATCH" /\ upper "PATCH" = "PATCH"
  /\ upper "get" = "GET" /\ upper "Post" = "POST" /\ upper "pUt" = "PUT"
  /\ upper "delete" = "DELETE".
Proof.
  intros Ha Hn Hd He Hm Hp.
  pose proof (create_custom_tool_run t auth name description endpoint method parameters
                headers authentication response_mapping org_id Ha Hn Hd He Hm Hp) as H.
  split; [|split].
  - intros Hin. rewrite Hin in H. exact H.
  - intros Hup. rewrite Hup in H. exact H.
  - repeat split.
Qed.

Lemma C6_witness :
  (exists req d,
     exec ok_transport
       (create_custom_tool (Some "key") (Some "weather") (Some "current weather")
          (Some "https://example.com/w") (Some "get") (Some [JStr "location"])
          None None None None)
     = ([req], exchange ok_transport req)
     /\ req_json req = Some d /\ d !! "method" = Some (JStr "GET"))
  /\ exec ok_transport
       (create_custom_tool (Some "key") (Some "weather") (Some "current weather")
          (Some "https://example.com/w") (Some "patch") (Some [JStr "location"])
          None None None None)
     = ([], Raise (ValueError "Invalid method. Must be one of: GET, POST, PUT, DELETE")).
Proof.
  split.
  - exact (proj1 (C6_method_enum ok_transport "key" "weather" "current weather"
                    "https://example.com/w" "get" [JStr "location"] None None None None
                    eq_refl eq_refl eq_refl eq_refl eq_refl eq_refl) eq_refl).
  - exact (proj1 (proj2 (C6_method_enum ok_transport "key" "weather" "current weather"
                    "https://example.com/w" "patch" [JStr "location"] None None None None
                    eq_refl eq_refl eq_refl eq_refl eq_refl eq_refl)) eq_refl).
Defined.

(** C7, amended.  [list_batches] and [list_web_agents] reject a limit
    below 1 and an offset below 0, and [list_custom_tools] rejects a page
    below 1 and a limit below 1, before any request; values in range go
    out unchanged as query parameters.  [list_calls] and
    [get_all_pathways] check no pagination parameter: whatever limit and
    offset they are given go out unchanged. *)
Theorem C7_pagination (t : Transport) (auth : string) (limit offset page : Z)
    (org_id : option string) :
  truthy auth = true ->
  (if limit <? 1
   then exec t (list_batches (Some auth) (Some limit) (Some offset) None None None
                  (Some "desc") org_id)
        = ([], Raise (ValueError "Limit must be greater than 0"))
   else if offset <? 0
   then exec t (list_batches (Some auth) (Some limit) (Some offset) None None None
                  (Some "desc") org_id)
        = ([], Raise (ValueError "Offset must be greater than or equal to 0"))
   else exists req q,
          exec t (list_batches (Some auth) (Some limit) (Some offset) None None None
                    (Some "desc") org_id)
          = ([req], exchange t req)
          /\ req_params req = Some q
          /\ q !! "limit" = Some (JInt limit) /\ q !! "offset" = Some (JInt offset))
  /\ (if limit <? 1
      then exec t (list_web_agents (Some auth) (Some limit) (Some offset) org_id)
           = ([], Raise (ValueError "Limit must be greater than 0"))
      else if offset <? 0
      then exec t (list_web_agents (Some auth) (Some limit) (Some offset) org_id)
           = ([], Raise (ValueError "Offset must be greater than or equal to 0"))
      else exists req q,
             exec t (list_web_agents (Some auth) (Some limit) (Some offset) org_id)
             = ([req], exchange t req)
             /\ req_params req = Some q
             /\ q !! "limit" = Some (JInt limit) /\ q !! "offset" = Some (JInt offset))
  /\ (if page <? 1
      then exec t (list_custom_tools (Some auth) (Some page) (Some limit) org_id)
           = ([], Raise (ValueError "Page number must be greater than 0"))
      else if limit <? 1
      then exec t (list_custom_tools (Some auth) (Some page) (Some limit) org_id)
           = ([], Raise (ValueError "Limit must be greater than 0"))
      else exists req q out,
             exec t (list_custom_tools (Some auth) (Some page) (Some limit) org_id)
             = ([req], out)
             /\ req_params req = Some q
             /\ q !! "page" = Some (JInt page) /\ q !! "limit" = Some (JInt limit))
  /\ (exists req q,
        exec t (list_calls (Some auth) (list_calls_limit limit)) = ([req], exchange t req)
        /\ req_params req = Some q /\ q !! "limit" = Some (JInt limit))
  /\ (exists req q out,
        exec t (get_all_pathways (Some auth) limit offset org_id) = ([req], out)
        /\ req_params req = Some q
        /\ q !! "limit" = Some (JInt limit) /\ q !! "offset" = Some (JInt offset)).
Proof.
  intros Ha. split; [|split; [|split; [|split]]].
  - apply list_batches_run, Ha.
  - apply list_web_agents_run, Ha.
  - apply list_custom_tools_run, Ha.
  - apply list_calls_run, Ha.
  - apply get_all_pathways_run, Ha.
Qed.

Lemma C7_witness :
  exec ok_transport
    (list_batches (Some "key") (Some 0) (Some 0) None None None (Some "desc") None)
  = ([], Raise (ValueError "Limit must be greater than 0"))
  /\ exec ok_transport (list_web_agents (Some "key") (Some 10) (Some (-1)) None)
     = ([], Raise (ValueError "Offset must be greater than or equal to 0"))
  /\ exec ok_transport (list_custom_tools (Some "key") (Some 0) (Some 10) None)
     = ([], Raise (ValueError "Page number must be greater than 0")).
Proof.
  split; [|split].
  - exact (proj1 (C7_pagination ok_transport "key" 0 0 1 None eq_refl)).
  - exact (proj1 (proj2 (C7_pagination ok_transport "key" 10 (-1) 1 None eq_refl))).
  - exact (proj1 (proj2 (proj2 (C7_pagination ok_transport "key" 10 0 0 None eq_refl)))).
Defined.

(** C7 as stated fails for [list_calls]: a limit of 0 raises nothing,
    it is sent as the query parameter "limit". *)
Lemma C7_counterexample :
  map req_params (fst (exec ok_transport (list_calls (Some "key") (list_calls_limit 0))))
  = [Some (dict [("limit", JInt 0); ("ascending", JBool false)])]
  /\ snd (exec ok_transport (list_calls (Some "key") (list_calls_limit 0)))
     = Return (JDict ∅).
Proof. split; vm_compute; reflexivity. Qed.

(** C8, amended.  In every request of every operation the headers
    besides the token and the content type are exactly the organization
    header when a non-empty organization id is supplied, and none
    otherwise.  [send_call], [send_call_simple] and
    [send_call_pathway_simple] name that header "organization"; every
    other operation that takes an organization id, [send_batch_calls]
    included, names it "encrypted_key"; [analyze_call],
    [stop_active_call] and [stop_all_active_calls] take none. *)
Theorem C8_organization_header (c : Call) (t : Transport) (log : list Request)
    (out : outcome Json) (req : Request) :
  exec t (invoke c) = (log, out) -> In req log ->
  (forall o, org_id_of c = Some o -> truthy o = true ->
     other_headers (req_headers req)
     = {[ (if uses_organization c then "organization" else "encrypted_key") := o ]})
  /\ (truthy (org_id_of c) = false -> other_headers (req_headers req) = ∅).
Proof.
  intros H Hin. pose proof (org_header_sends c t log out H) as HF.
  rewrite Forall_forall in HF. specialize (HF req).
  assert (Hreq : other_headers (req_headers req)
                 = org_header (org_header_name c) (org_id_of c)).
  { apply HF. apply list_elem_of_In. exact Hin. }
  rewrite Hreq. unfold org_header, org_header_name. split.
  - intros o -> Ho. rewrite Ho. reflexivity.
  - intros Hf. destruct (org_id_of c) as [o|]; [|reflexivity].
    change (truthy o = false) in Hf. rewrite Hf. reflexivity.
Qed.

Lemma C8_witness :
  other_headers
    (req_headers (send_call_simple_request "key" "+12025550101" "say hi" (Some "org-1")))
  = {[ "organization" := "org-1" ]}.
Proof.
  exact (proj1 (C8_organization_header
                  (Call_send_call_simple (Some "key") (Some "+12025550101") (Some "say hi")
                     (Some "org-1"))
                  ok_transport
                  [send_call_simple_request "key" "+12025550101" "say hi" (Some "org-1")]
                  (exchange ok_transport
                     (send_call_simple_request "key" "+12025550101" "say hi" (Some "org-1")))
                  (send_call_simple_request "key" "+12025550101" "say hi" (Some "org-1"))
                  (send_call_simple_run ok_transport "key" "+12025550101" "say hi"
                     (Some "org-1") eq_refl eq_refl eq_refl)
                  (or_introl eq_refl))
             "org-1" eq_refl eq_refl).
Defined.

(** C8 as stated fails: [send_batch_calls] places calls, yet it writes
    the organization id under "encrypted_key", the header name of the
    operations that place none, such as [create_folder]. *)
Lemma C8_counterexample :
  call_sending
    (Call_send_batch_calls (Some "key") (Some ["+12025550101"]) None (Some "say hi")
       None None None None None None None None (Some "org-1")) = true
  /\ call_sending (Call_create_folder (Some "key") (Some "inbox") None (Some "org-1"))
     = false
  /\ map (fun req => other_headers (req_headers req))
       (fst (exec ok_transport
               (invoke (Call_send_batch_calls (Some "key") (Some ["+12025550101"]) None
                          (Some "say hi") None None None None None None None None
                          (Some "org-1")))))
     = [ {[ "encrypted_key" := "org-1" ]} ]
  /\ map (fun req => other_headers (req_headers req))
       (fst (exec ok_transport
               (invoke (Call_create_folder (Some "key") (Some "inbox") None
                          (Some "org-1")))))
     = [ {[ "encrypted_key" := "org-1" ]} ].
Proof. split; [reflexivity|]. split; [reflexivity|]. split; vm_compute; reflexivity. Qed.

(** C9.  [get_pathway_info] with pathway id "p1" and a non-empty token
    requests the pathway-details template with "p1" in place of
    [{pathway_id}]: the URL is the pathways endpoint followed by "/p1"
    and holds no brace. *)
Theorem C9_pathway_url (t : Transport) (auth : string) (org_id : option string) :
  truthy auth = true ->
  exec t (get_pathway_info (Some auth) (Some "p1") org_id)
  = ([mkRequest GET "https://api.bland.ai/v1/pathways/p1"
        (with_org "encrypted_key" org_id (auth_headers auth)) None None],
     exchange t
       (mkRequest GET "https://api.bland.ai/v1/pathways/p1"
          (with_org "encrypted_key" org_id (auth_headers auth)) None None))
  /\ format PATHWAY_DETAILS_ENDPOINT [("pathway_id", "p1")]
     = inr "https://api.bland.ai/v1/pathways/p1"
  /\ PATHWAY_DETAILS_ENDPOINT = "https://api.bland.ai/v1/pathways/{pathway_id}"
  /\ no_placeholder "https://api.bland.ai/v1/pathways/p1" = true.
Proof.
  intros Ha. split; [|repeat split].
  exact (get_pathway_info_run t auth "p1" org_id Ha eq_refl).
Qed.

Lemma C9_witness :
  fst (exec ok_transport (get_pathway_info (Some "key") (Some "p1") None))
  = [mkRequest GET "https://api.bland.ai/v1/pathways/p1" (auth_headers "key") None None].
Proof.
  exact (f_equal fst (proj1 (C9_pathway_url ok_transport "key" None eq_refl))).
Defined.

(** C10.  Every request [send_call] sends has a JSON body in which
    "wait_for_greeting", "block_interruptions", "record" and
    "answered_by_enabled" are present with the value of the argument,
    which is [false] by default: the payload drops the options whose
    value is [None] and nothing else. *)
Theorem C10_false_flags_sent (t : Transport) (auth_token phone_number : option string)
    (kw : send_call_kw.t) (log : list Request) (out : outcome Json) (req : Request) :
  exec t (send_call auth_token phone_number kw) = (log, out) -> In req log ->
  (exists d,
     req_json req = Some d
     /\ d !! "wait_for_greeting" = Some (JBool (send_call_kw.wait_for_greeting kw))
     /\ d !! "block_interruptions" = Some (JBool (send_call_kw.block_interruptions kw))
     /\ d !! "record" = Some (JBool (send_call_kw.record kw))
     /\ d !! "answered_by_enabled" = Some (JBool (send_call_kw.answered_by_enabled kw))
     /\ forall k v, send_call_optional_params kw !! k = Some v ->
                    is_not_None v = true -> d !! k = Some v)
  /\ send_call_kw.wait_for_greeting send_call_kw.defaults = false
  /\ send_call_kw.block_interruptions send_call_kw.defaults = false
  /\ send_call_kw.record send_call_kw.defaults = false
  /\ send_call_kw.answered_by_enabled send_call_kw.defaults = false.
Proof.
  intros H Hin. split; [|repeat split].
  pose proof (send_call_sends auth_token phone_number kw t log out H) as HF.
  rewrite Forall_forall in HF.
  destruct (HF req) as (d & Hd & (H1 & H2 & H3 & H4) & Hk).
  { apply list_elem_of_In. exact Hin. }
  exists d. repeat split; assumption.
Qed.

Lemma C10_witness :
  exists d,
    req_json (send_call_request "key" "+12025550101" (kw_with (Some "say hi") None 0.7))
    = Some d
    /\ d !! "wait_for_greeting" = Some (JBool false)
    /\ d !! "block_interruptions" = Some (JBool false)
    /\ d !! "record" = Some (JBool false)
    /\ d !! "answered_by_enabled" = Some (JBool false)
    /\ forall k v,
         send_call_optional_params (kw_with (Some "say hi") None 0.7) !! k = Some v ->
         is_not_None v = true -> d !! k = Some v.
Proof.
  exact (proj1 (C10_false_flags_sent ok_transport (Some "key") (Some "+12025550101")
                  (kw_with (Some "say hi") None 0.7%float)
                  [send_call_request "key" "+12025550101" (kw_with (Some "say hi") None 0.7)]
                  (exchange ok_transport
                     (send_call_request "key" "+12025550101"
                        (kw_with (Some "say hi") None 0.7)))
                  (send_call_request "key" "+12025550101" (kw_with (Some "say hi") None 0.7))
                  (send_call_run ok_transport "key" "+12025550101" (Some "say hi") None
                     0.7%float eq_refl eq_refl eq_refl)
                  (or_introl eq_refl))).
Defined.

(** * Further properties of the operations *)

(** ** The matcher and the language of a pattern *)

Lemma append_assoc (s1 s2 s3 : string) : (s1 ++ s2) ++ s3 = s1 ++ (s2 ++ s3).
Proof.
  induction s1 as [|c s1 IH]; [reflexivity|].
  change (String c ((s1 ++ s2) ++ s3) = String c (s1 ++ (s2 ++ s3))).
  rewrite IH. reflexivity.
Qed.

Lemma append_eq_empty (s1 s2 : string) : s1 ++ s2 = "" -> s1 = "" /\ s2 = "".
Proof. destruct s1; [intros H; split; [reflexivity|exact H]|discriminate]. Qed.

Lemma append_eq_cons (s1 s2 : string) c s :
  s1 ++ s2 = String c s ->
  (s1 = "" /\ s2 = String c s) \/ (exists s1', s1 = String c s1' /\ s = s1' ++ s2).
Proof.
  destruct s1 as [|c1 s1].
  - intros H. left. split; [reflexivity|exact H].
  - intros H. change (String c1 (s1 ++ s2) = String c s) in H. injection H as -> <-.
    right. exists s1. split; reflexivity.
Qed.

Lemma nullable_lang r : Re.nullable r = true <-> lang r "".
Proof.
  induction r as [| |p|r1 IH1 r2 IH2|r1 IH1 r2 IH2|r IH]; simpl.
  - split; [discriminate|]. intros H. inversion H.
  - split; [intros _; constructor|reflexivity].
  - split; [discriminate|]. intros H. inversion H.
  - rewrite andb_true_iff, IH1, IH2. split.
    + intros [H1 H2]. exact (lang_seq r1 r2 "" "" H1 H2).
    + intros H. inversion H as [| |? ? s1 s2 H1 H2 Hr Hs| | | |]; subst.
      apply append_eq_empty in Hs as [-> ->]. split; assumption.
  - rewrite orb_true_iff, IH1, IH2. split.
    + intros [H|H]; [apply lang_alt_l|apply lang_alt_r]; exact H.
    + intros H. inversion H; subst; [left|right]; assumption.
  - split; [intros _; constructor|reflexivity].
Qed.

Lemma lang_star_cons r c s :
  lang (Re.Star r) (String c s) ->
  exists s1 s2, s = s1 ++ s2 /\ lang r (String c s1) /\ lang (Re.Star r) s2.
Proof.
  intros H. remember (Re.Star r) as r' eqn:Er. remember (String c s) as w eqn:Ew.
  revert Er Ew.
  induction H as [| | | | | |r0 s1 s2 H1 _ H2 IH2]; try discriminate.
  intros [= ->] Ew. apply append_eq_cons in Ew as [[-> ->]|(s1' & -> & ->)].
  - apply IH2; reflexivity.
  - exists s1', s2. repeat split; assumption.
Qed.

Lemma deriv_lang r : forall c s, lang (Re.deriv c r) s <-> lang r (String c s).
Proof.
  induction r as [| |p|r1 IH1 r2 IH2|r1 IH1 r2 IH2|r IH]; intros c s; simpl.
  - split; intros H; inversion H.
  - split; intros H; inversion H.
  - destruct (p c) eqn:Hp; split; intros H.
    + inversion H; subst. constructor. exact Hp.
    + inversion H; subst. constructor.
    + inversion H.
    + inversion H; subst. congruence.
  - destruct (Re.nullable r1) eqn:Hn.
    + split; intros H.
      * inversion H as [| | |? ? ? H'|? ? ? H'| |]; subst.
        -- inversion H' as [| |? ? s1 s2 H1 H2| | | |]; subst.
           apply IH1 in H1. exact (lang_seq r1 r2 (String c s1) s2 H1 H2).
        -- apply IH2 in H'. apply nullable_lang in Hn.
           exact (lang_seq r1 r2 "" (String c s) Hn H').
      * inversion H as [| |? ? s1 s2 H1 H2 Hr Hs| | | |]; subst.
        apply append_eq_cons in Hs as [[-> ->]|(s1' & -> & ->)].
        -- apply lang_alt_r. apply IH2. exact H2.
        -- apply lang_alt_l. apply lang_seq; [apply IH1; exact H1|exact H2].
    + split; intros H.
      * inversion H as [| |? ? s1 s2 H1 H2| | | |]; subst.
        apply IH1 in H1. exact (lang_seq r1 r2 (String c s1) s2 H1 H2).
      * inversion H as [| |? ? s1 s2 H1 H2 Hr Hs| | | |]; subst.
        apply append_eq_cons in Hs as [[-> ->]|(s1' & -> & ->)].
        -- apply nullable_lang in H1. congruence.
        -- apply lang_seq; [apply IH1; exact H1|exact H2].
  - split; intros H.
    + inversion H; subst; [apply lang_alt_l, IH1|apply lang_alt_r, IH2]; assumption.
    + inversion H; subst; [apply lang_alt_l, IH1|apply lang_alt_r, IH2]; assumption.
  - split; intros H.
    + inversion H as [| |? ? s1 s2 H1 H2| | | |]; subst.
      apply IH in H1. exact (lang_star_app r (String c s1) s2 H1 H2).
    + apply lang_star_cons in H as (s1 & s2 & -> & H1 & H2).
      apply lang_seq; [apply IH; exact H1|exact H2].
Qed.

(** The derivative matcher decides the language of the pattern. *)
Lemma fullmatch_lang r s : Re.fullmatch r s = true <-> lang r s.
Proof.
  revert r. induction s as [|c s IH]; intros r; simpl.
  - apply nullable_lang.
  - rewrite IH. apply deriv_lang.
Qed.

Lemma length_append (s1 s2 : string) :
  String.length (s1 ++ s2) = (String.length s1 + String.length s2)%nat.
Proof.
  induction s1 as [|c s1 IH]; [reflexivity|].
  change (S (String.length (s1 ++ s2)) = S (String.length s1 + String.length s2)).
  rewrite IH. reflexivity.
Qed.

Lemma all_chars_append p (s1 s2 : string) :
  all_chars p (s1 ++ s2) = all_chars p s1 && all_chars p s2.
Proof.
  induction s1 as [|c s1 IH]; [reflexivity|].
  change (p c && all_chars p (s1 ++ s2) = p c && all_chars p s1 && all_chars p s2).
  rewrite IH. apply andb_assoc.
Qed.

Lemma lang_opt r s : lang (Re.Opt r) s <-> s = "" \/ lang r s.
Proof.
  unfold Re.Opt. split.
  - intros H. inversion H as [| | |? ? ? H'|? ? ? H'| |]; subst.
    + inversion H'. left. reflexivity.
    + right. exact H'.
  - intros [->|H]; [apply lang_alt_l; constructor|apply lang_alt_r; exact H].
Qed.

Lemma lang_class_inv p s :
  lang (Re.Class p) s <-> exists c, s = String c "" /\ p c = true.
Proof.
  split.
  - intros H. inversion H; subst. eauto.
  - intros (c & -> & Hc). constructor. exact Hc.
Qed.

Lemma lang_seq_inv r1 r2 s :
  lang (Re.Seq r1 r2) s <-> exists s1 s2, s = s1 ++ s2 /\ lang r1 s1 /\ lang r2 s2.
Proof.
  split.
  - intros H. inversion H; subst. eauto.
  - intros (s1 & s2 & -> & H1 & H2). constructor; assumption.
Qed.

Lemma lang_exactly p n s :
  lang (Re.Exactly n (Re.Class p)) s
  <-> all_chars p s = true /\ String.length s = n.
Proof.
  revert s. induction n as [|n IH]; intros s; simpl.
  - split.
    + intros H. inversion H. split; reflexivity.
    + intros [_ Hl]. destruct s; [constructor|discriminate].
  - rewrite lang_seq_inv. split.
    + intros (s1 & s2 & -> & H1 & H2). apply lang_class_inv in H1 as (c & -> & Hc).
      apply IH in H2 as [H2 <-]. change (String c "" ++ s2) with (String c s2).
      simpl. rewrite Hc, H2. split; reflexivity.
    + intros [Ha Hl]. destruct s as [|c s]; [discriminate|].
      simpl in Ha. apply andb_prop in Ha as [Hc Hs]. injection Hl as Hl.
      exists (String c ""), s. split; [reflexivity|]. split.
      * constructor. exact Hc.
      * apply IH. split; assumption.
Qed.

Lemma lang_upto p n s :
  lang (Re.UpTo n (Re.Class p)) s
  <-> all_chars p s = true /\ (String.length s <= n)%nat.
Proof.
  revert s. induction n as [|n IH]; intros s; simpl.
  - split.
    + intros H. inversion H. split; [reflexivity|apply Nat.le_refl].
    + intros [_ Hl]. destruct s; [constructor|simpl in Hl; lia].
  - rewrite lang_opt, lang_seq_inv. split.
    + intros [->|(s1 & s2 & -> & H1 & H2)].
      * split; [reflexivity|simpl; lia].
      * apply lang_class_inv in H1 as (c & -> & Hc). apply IH in H2 as [H2 Hl].
        change (String c "" ++ s2) with (String c s2).
        simpl. rewrite Hc, H2. split; [reflexivity|lia].
    + intros [Ha Hl]. destruct s as [|c s]; [left; reflexivity|right].
      simpl in Ha, Hl. apply andb_prop in Ha as [Hc Hs].
      exists (String c ""), s. split; [reflexivity|]. split.
      * constructor. exact Hc.
      * apply IH. split; [assumption|lia].
Qed.

Lemma split_at (n : nat) (s : string) :
  (n <= String.length s)%nat ->
  exists s1 s2, s = s1 ++ s2 /\ String.length s1 = n.
Proof.
  revert s. induction n as [|n IH]; intros s Hl.
  - exists "", s. split; reflexivity.
  - destruct s as [|c s]; [simpl in Hl; lia|]. simpl in Hl.
    destruct (IH s) as (s1 & s2 & -> & Hn); [lia|].
    exists (String c s1), s2. split; [reflexivity|]. simpl. rewrite Hn. reflexivity.
Qed.

Lemma lang_repeat p lo hi s :
  (lo <= hi)%nat ->
  lang (Re.Repeat lo hi (Re.Class p)) s
  <-> all_chars p s = true /\ (lo <= String.length s <= hi)%nat.
Proof.
  intros Hle. unfold Re.Repeat. rewrite lang_seq_inv. split.
  - intros (s1 & s2 & -> & H1 & H2).
    apply lang_exactly in H1 as [H1 <-]. apply lang_upto in H2 as [H2 Hl].
    rewrite all_chars_append, length_append, H1, H2. split; [reflexivity|lia].
  - intros [Ha [Hlo Hhi]]. destruct (split_at lo s Hlo) as (s1 & s2 & -> & Hn).
    rewrite all_chars_append in Ha. apply andb_prop in Ha as [H1 H2].
    rewrite length_append in Hhi.
    exists s1, s2. split; [reflexivity|]. split.
    + apply lang_exactly. split; assumption.
    + apply lang_upto. split; [assumption|lia].
Qed.

(** The language of the phone pattern: an optional plus sign, 10 to 15
    digits, and possibly a final newline. *)
Lemma phone_pattern_lang s :
  Re.match_ PHONE_PATTERN s = true
  <-> exists sign digits nl,
        s = sign ++ digits ++ nl /\ (sign = "" \/ sign = "+")
        /\ all_chars is_digit digits = true
        /\ (10 <= String.length digits <= 15)%nat
        /\ (nl = "" \/ nl = String "010"%char "").
Proof.
  unfold Re.match_. rewrite fullmatch_lang. unfold PHONE_PATTERN, Re.Eol, Re.digit, Re.char.
  rewrite lang_seq_inv. split.
  - intros (sign & rest & -> & Hs & Hr).
    apply lang_seq_inv in Hr as (digits & nl & -> & Hd & Hn).
    apply lang_repeat in Hd; [|lia]. destruct Hd as [Hd Hl].
    exists sign, digits, nl. split; [reflexivity|]. split; [|split; [exact Hd|split; [exact Hl|]]].
    + apply lang_opt in Hs as [->|Hs]; [left; reflexivity|right].
      apply lang_class_inv in Hs as (c & -> & Hc). apply Ascii.eqb_eq in Hc as <-. reflexivity.
    + apply lang_opt in Hn as [->|Hn]; [left; reflexivity|right].
      apply lang_class_inv in Hn as (c & -> & Hc). apply Ascii.eqb_eq in Hc as <-. reflexivity.
  - intros (sign & digits & nl & -> & Hs & Hd & Hl & Hn).
    exists sign, (digits ++ nl). split; [reflexivity|]. split.
    + apply lang_opt. destruct Hs as [->| ->]; [left; reflexivity|right].
      constructor. reflexivity.
    + apply lang_seq_inv. exists digits, nl. split; [reflexivity|]. split.
      * apply lang_repeat; [lia|]. split; assumption.
      * apply lang_opt. destruct Hn as [->| ->]; [left; reflexivity|right].
        constructor. reflexivity.
Qed.

(** ** The cleaned phone number *)

Lemma clean_phone_chars (p : string) :
  all_chars (fun c => is_digit c || Ascii.eqb c "+"%char) (clean_phone p) = true.
Proof.
  unfold clean_phone. induction p as [|c p IH]; [reflexivity|].
  simpl. unfold NOT_DIGIT_OR_PLUS at 1.
  destruct (is_digit c || Ascii.eqb c "+"%char) eqn:Hc; simpl.
  - rewrite Hc. exact IH.
  - exact IH.
Qed.

Lemma clean_phone_fixed (p : string) :
  all_chars (fun c => is_digit c || Ascii.eqb c "+"%char) p = true -> clean_phone p = p.
Proof.
  unfold clean_phone. induction p as [|c p IH]; [reflexivity|].
  simpl. intros H. apply andb_prop in H as [Hc Hp].
  unfold NOT_DIGIT_OR_PLUS at 1. rewrite Hc. simpl. rewrite (IH Hp). reflexivity.
Qed.

Lemma clean_phone_idempotent (p : string) : clean_phone (clean_phone p) = clean_phone p.
Proof. apply clean_phone_fixed, clean_phone_chars. Qed.


(** A cleaned number passes the check exactly when it is an optional
    plus sign followed by 10 to 15 digits. *)
Lemma phone_ok_shape (p : string) : phone_ok p = true <-> plus_and_digits (clean_phone p).
Proof.
  unfold phone_ok. rewrite phone_pattern_lang. split.
  - intros (sign & digits & nl & Hs & Hsign & Hd & Hl & Hnl).
    exists sign, digits. split; [|split; [exact Hsign|split; assumption]].
    destruct Hnl as [->| ->]; [rewrite Hs, append_empty_r; reflexivity|].
    pose proof (clean_phone_chars p) as Hc. rewrite Hs in Hc.
    rewrite !all_chars_append in Hc. apply andb_prop in Hc as [_ Hc].
    apply andb_prop in Hc as [_ Hc]. discriminate.
  - intros (sign & digits & -> & Hsign & Hd & Hl).
    exists sign, digits, "". rewrite append_empty_r.
    split; [reflexivity|]. split; [exact Hsign|]. split; [exact Hd|].
    split; [exact Hl|left; reflexivity].
Qed.

(** ** Walking through the checks, keeping what they establish *)

Lemma sends_only_bind_require {A} `{Truthy A} P (x : option A) e (k : A -> M Json) :
  (forall v, x = Some v -> truthy v = true -> sends_only P (k v)) ->
  sends_only P (bind (require x e) k).
Proof.
  intros Hk t log out Hrun. unfold bind, require in Hrun.
  destruct x as [v|]; [destruct (truthy v) eqn:Hv|].
  - exact (Hk v eq_refl Hv t log out Hrun).
  - injection Hrun as <- _. constructor.
  - injection Hrun as <- _. constructor.
Qed.

Lemma sends_only_bind_raise_if P c e (k : unit -> M Json) :
  (c = false -> sends_only P (k tt)) -> sends_only P (bind (raise_if c e) k).
Proof.
  intros Hk t log out H. destruct c.
  - injection H as <- _. constructor.
  - exact (Hk eq_refl t log out H).
Qed.

Ltac walk_sends_keeping :=
  cbv beta zeta;
  repeat (first [ apply sends_only_bind_require; intros ? ? ?
                | apply sends_only_bind_raise_if; intros ?
                | apply sends_only_bind; [auto with pure_db | intros ?] ];
          cbv beta zeta);
  first [ apply sends_only_normalized
        | apply sends_only_normalized_format; intros ? ?
        | apply sends_only_try_request;
          [ intros ?; repeat (apply pure_bind; [|intros ?]); auto with pure_db
          | intros ?; apply pure_ret | ] ].

(** ** One request at most *)

Lemma one_shot_bind_require {A} `{Truthy A} (x : option A) e (k : A -> M Json) :
  is_validation_error e = true -> (forall v, one_shot (k v)) ->
  one_shot (bind (require x e) k).
Proof.
  intros He Hk t log out Hrun. unfold bind, require in Hrun.
  destruct x as [v|]; [destruct (truthy v)|].
  - exact (Hk v t log out Hrun).
  - injection Hrun as <- <-. left. eauto.
  - injection Hrun as <- <-. left. eauto.
Qed.

Lemma one_shot_bind_raise_if c e (k : unit -> M Json) :
  is_validation_error e = true -> one_shot (k tt) -> one_shot (bind (raise_if c e) k).
Proof.
  intros He Hk t log out H. destruct c.
  - injection H as <- <-. left. eauto.
  - exact (Hk t log out H).
Qed.

Lemma one_shot_bind_ordered x (k : Z -> M Json) :
  (forall z, one_shot (k z)) -> one_shot (bind (ordered x) k).
Proof.
  intros Hk t log out H. destruct x as [z|].
  - exact (Hk z t log out H).
  - injection H as <- <-. left. eauto.
Qed.

Lemma one_shot_bind_numbers (l : list string) msg (k : unit -> M Json) :
  one_shot (k tt) ->
  one_shot
    (bind (for_each l (fun number =>
             raise_if (not_plus_digits number) (ValueError (msg number)))) k).
Proof.
  intros Hk. induction l as [|x l IH]; [exact Hk|].
  intros t log out H. simpl in H. unfold bind at 1 2 in H.
  destruct (not_plus_digits x).
  - simpl in H. injection H as <- <-. left. eauto.
  - exact (IH t log out H).
Qed.

Lemma one_shot_normalized meth url headers json params :
  one_shot (normalized (requests_request meth url headers json params)).
Proof.
  intros t log out H. rewrite normalized_request in H. injection H as <- _.
  right. eauto.
Qed.

Lemma one_shot_normalized_format r meth headers json params :
  (exists url, r = inr url) ->
  one_shot (normalized (u <- lift r ;; requests_request meth u headers json params)).
Proof.
  intros [url ->] t log out H.
  rewrite (normalized_format_request _ url) in H by reflexivity.
  injection H as <- _. right. eauto.
Qed.

Lemma one_shot_try_request meth url headers json params (k : Response -> M Json) h :
  (forall r, pure (k r)) -> (forall msg, pure (h msg)) ->
  one_shot
    (try_except_RequestException (bind (requests_request meth url headers json params) k) h).
Proof.
  intros Hk Hh t log out H. apply try_request_log in H; [|exact Hk|exact Hh].
  right. eauto.
Qed.

Ltac walk_one_shot :=
  cbv beta zeta;
  repeat (first [ apply one_shot_bind_require; [reflexivity | intros ?]
                | apply one_shot_bind_raise_if; [reflexivity | ]
                | apply one_shot_bind_ordered; intros ?
                | apply one_shot_bind_numbers ];
          cbv beta zeta);
  first [ apply one_shot_normalized
        | apply one_shot_normalized_format; vm_compute; eexists; reflexivity
        | apply one_shot_try_request;
          [ intros ?; repeat (apply pure_bind; [|intros ?]); auto with pure_db
          | intros ?; apply pure_ret ] ].

Lemma invoke_one_shot (c : Call) : one_shot (invoke c).
Proof.
  destruct c; unfold invoke; try destruct kw.
  all: match goal with
       | |- one_shot (?f _) => unfold f | |- one_shot (?f _ _) => unfold f
       | |- one_shot (?f _ _ _) => unfold f | |- one_shot (?f _ _ _ _) => unfold f
       | |- one_shot (?f _ _ _ _ _) => unfold f | |- one_shot (?f _ _ _ _ _ _) => unfold f
       | |- one_shot (?f _ _ _ _ _ _ _) => unfold f
       | |- one_shot (?f _ _ _ _ _ _ _ _) => unfold f
       | |- one_shot (?f _ _ _ _ _ _ _ _ _) => unfold f
       | |- one_shot (?f _ _ _ _ _ _ _ _ _ _) => unfold f
       | |- one_shot (?f _ _ _ _ _ _ _ _ _ _ _) => unfold f
       | |- one_shot (?f _ _ _ _ _ _ _ _ _ _ _ _) => unfold f
       | |- one_shot (?f _ _ _ _ _ _ _ _ _ _ _ _ _) => unfold f
       end.
  all: walk_one_shot.
Qed.

(** ** What comes back from the request *)

Lemma ends_with_bind {A} Q (m : M A) (k : A -> M Json) :
  pure m -> (forall v, ends_with Q (k v)) -> ends_with Q (bind m k).
Proof.
  intros Hm Hk t req out H.
  apply bind_pure_inv in H; [|exact Hm].
  destruct H as [[H _]|[v [_ H]]]; [discriminate|]. eapply Hk; eauto.
Qed.

Lemma ends_with_normalized (Q : Transport -> Request -> outcome Json -> Prop)
    meth url headers json params :
  (forall t, Q t (mkRequest meth url headers json params)
               (exchange t (mkRequest meth url headers json params))) ->
  ends_with Q (normalized (requests_request meth url headers json params)).
Proof.
  intros HQ t req out H. rewrite normalized_request in H. injection H as <- <-. apply HQ.
Qed.

Lemma ends_with_normalized_format (Q : Transport -> Request -> outcome Json -> Prop)
    r meth headers json params :
  (forall t url, Q t (mkRequest meth url headers json params)
                   (exchange t (mkRequest meth url headers json params))) ->
  ends_with Q (normalized (u <- lift r ;; requests_request meth u headers json params)).
Proof.
  intros HQ t req out H. destruct r as [e|url].
  - unfold normalized, try_except_RequestException, bind, lift, raise, ret in H.
    simpl in H. destruct e; discriminate.
  - rewrite (normalized_format_request _ url) in H by reflexivity.
    injection H as <- <-. apply HQ.
Qed.

Lemma exchange_passes_through t req : passes_through t req (exchange t req).
Proof. intros r j Ht Hs Hj. unfold exchange. rewrite Ht, Hs, Hj. reflexivity. Qed.

Lemma exchange_decode_failure t req : decode_failure_handled t req (exchange t req).
Proof.
  intros r e Ht Hs Hj. unfold exchange. rewrite Ht, Hs, Hj.
  destruct e; try reflexivity. eexists. split; [reflexivity|apply error_dict_is_error_value].
Qed.

(** A request that is answered: what the [try] block returns. *)
Lemma try_request_answered {A} meth url headers json params (k : Response -> M A) h t r :
  t (mkRequest meth url headers json params) = inr r ->
  try_except_RequestException (bind (requests_request meth url headers json params) k) h t []
  = match k r t [mkRequest meth url headers json params] with
    | (log', Raise (RequestException msg)) => h msg t log'
    | res => res
    end.
Proof.
  intros Ht. unfold try_except_RequestException, bind, requests_request. simpl.
  rewrite Ht. reflexivity.
Qed.

Lemma ends_with_try_request (Q : Transport -> Request -> outcome Json -> Prop)
    meth url headers json params (k : Response -> M Json) h :
  (forall r, pure (k r)) -> (forall msg, pure (h msg)) ->
  (forall t out,
     try_except_RequestException
       (bind (requests_request meth url headers json params) k) h t []
     = ([mkRequest meth url headers json params], out) ->
     Q t (mkRequest meth url headers json params) out) ->
  ends_with Q
    (try_except_RequestException (bind (requests_request meth url headers json params) k) h).
Proof.
  intros Hk Hh HQ t req out H. pose proof H as H'.
  apply try_request_log in H'; [|exact Hk|exact Hh]. injection H' as ->.
  apply HQ. exact H.
Qed.

Ltac walk_ends :=
  cbv beta zeta;
  repeat (apply ends_with_bind; [auto with pure_db | intros ?; cbv beta zeta]);
  first [ apply ends_with_normalized; intros ?
        | apply ends_with_normalized_format; intros ? ?
        | apply ends_with_try_request;
          [ intros ?; repeat (apply pure_bind; [|intros ?]); auto with pure_db
          | intros ?; apply pure_ret | ] ].

Lemma invoke_passes_through (c : Call) :
  is_get_all_pathways c = false -> ends_with passes_through (invoke c).
Proof.
  destruct c; try discriminate; intros _.
  all: unfold invoke; try destruct kw; unfold_head ends_with; walk_ends.
  all: try apply exchange_passes_through.
  intros t out H r j Ht Hs Hj. rewrite (try_request_answered _ _ _ _ _ _ _ _ r Ht) in H.
  unfold bind, raise_for_status, response_json, lift, ret in H.
  rewrite Hs, Hj in H. injection H as <-. reflexivity.
Qed.

Lemma invoke_decode_failure (c : Call) : ends_with decode_failure_handled (invoke c).
Proof.
  destruct c; unfold invoke; try destruct kw; unfold_head ends_with; walk_ends.
  all: try apply exchange_decode_failure.
  all: intros t out H r e Ht Hs Hj; rewrite (try_request_answered _ _ _ _ _ _ _ _ r Ht) in H;
    unfold bind, raise_for_status, response_json, lift, ret, raise in H;
    rewrite Hs, Hj in H; destruct e; try (injection H as <-; reflexivity);
    injection H as <-; eexists; (split; [reflexivity|]).
  - apply error_dict_is_error_value.
  - eexists. split; [reflexivity|]. split; reflexivity.
Qed.

(** ** Headers, bodies and URLs of all requests *)

Lemma with_org_lookup_ne key k o h :
  key <> k -> with_org key o h !! k = h !! k.
Proof.
  intros Hk. unfold with_org. destruct o as [s|]; [destruct (truthy s)|]; try reflexivity.
  apply lookup_insert_ne. exact Hk.
Qed.
Lemma auth_headers_token v : auth_headers v !! "authorization" = Some v.
Proof. reflexivity. Qed.
Lemma json_headers_token v : json_headers v !! "authorization" = Some v.
Proof. reflexivity. Qed.

Lemma invoke_sends_token (c : Call) :
  sends_only
    (fun req =>
       exists token, auth_token_of c = Some token /\ truthy token = true
         /\ req_headers req !! "authorization" = Some token)
    (invoke c).
Proof.
  destruct c; unfold invoke, auth_token_of; try destruct kw.
  all: unfold_head sends_only; walk_sends_keeping.
  all: cbn [req_headers].
  all: eexists; (split; [eassumption|]); (split; [assumption|]).
  all: try rewrite with_org_lookup_ne by discriminate.
  all: first [apply auth_headers_token | apply json_headers_token].
Qed.

Lemma json_headers_content_type v :
  json_headers v !! "Content-Type" = Some "application/json".
Proof. reflexivity. Qed.

Lemma invoke_request_shape (c : Call) :
  sends_only
    (fun req =>
       (forall d, req_json req = Some d ->
          req_headers req !! "Content-Type" = Some "application/json"
          /\ (req_method req = POST \/ req_method req = PATCH))
       /\ (forall q, req_params req = Some q ->
             req_method req = GET /\ req_json req = None))
    (invoke c).
Proof.
  destruct c; unfold invoke; try destruct kw.
  all: unfold_head sends_only; walk_sends.
  all: cbn [req_headers req_json req_params req_method].
  all: split; intros ? Hsome.
  all: try match goal with H : None = Some _ |- _ => discriminate H end.
  all: try match goal with |- _ = GET /\ _ = None => split; reflexivity end.
  all: split; [|auto].
  all: try rewrite with_org_lookup_ne by discriminate.
  all: apply json_headers_content_type.
Qed.

Lemma invoke_url_prefix (c : Call) :
  sends_only
    (fun req => startswith (API_BASE_URL ++ "/" ++ API_VERSION ++ "/") (req_url req) = true)
    (invoke c).
Proof.
  destruct c; unfold invoke; try destruct kw.
  all: unfold_head sends_only; walk_sends.
  all: cbn [req_url].
  all: try match goal with
           | H : format _ _ = inr _ |- _ => vm_compute in H; injection H as <-
           end.
  all: reflexivity.
Qed.

(** ** What every operation sends and returns *)

(** X1.  Every operation either raises a validation error ([ValueError],
    or [TypeError] for an unordered page or limit) without performing any
    request, or performs exactly one request: an endpoint template never
    fails to format, and nothing is returned without a request. *)
Theorem X1_one_request_or_validation_error (c : Call) (t : Transport) :
  (fst (exec t (invoke c)) = []
   /\ exists e, snd (exec t (invoke c)) = Raise e /\ is_validation_error e = true)
  \/ (exists req, fst (exec t (invoke c)) = [req]).
Proof.
  apply (invoke_one_shot c t). unfold exec. apply surjective_pairing.
Qed.

(** X2.  For every operation but [get_all_pathways], when the request
    is answered without an HTTP error and the body decodes, the operation
    returns the decoded body unchanged. *)
Theorem X2_response_passed_through (c : Call) (t : Transport) (req : Request)
    (out : outcome Json) (r : Response) (j : Json) :
  is_get_all_pathways c = false ->
  exec t (invoke c) = ([req], out) ->
  t req = inr r -> resp_http_error r = None -> resp_json r = inr j ->
  out = Return j.
Proof.
  intros Hc H Ht Hs Hj. exact (invoke_passes_through c Hc t req out H r j Ht Hs Hj).
Qed.

Lemma X2_witness :
  exec ok_transport
    (invoke (Call_send_call_simple (Some "key") (Some "+12025550101") (Some "say hi") None))
  = ([send_call_simple_request "key" "+12025550101" "say hi" None], Return (JDict ∅))
  /\ Return (JDict ∅) = Return (JDict ∅).
Proof.
  split; [vm_compute; reflexivity|].
  apply (X2_response_passed_through
           (Call_send_call_simple (Some "key") (Some "+12025550101") (Some "say hi") None)
           ok_transport (send_call_simple_request "key" "+12025550101" "say hi" None)
           (Return (JDict ∅)) (mkResponse None (inr (JDict ∅))) (JDict ∅)).
  - reflexivity.
  - vm_compute. reflexivity.
  - reflexivity.
  - reflexivity.
  - reflexivity.
Defined.

(** X3.  For every operation, when the request is answered without an
    HTTP error but [json()] raises: a [RequestException] is turned into
    an error value carrying its text, and any other exception leaves the
    operation unchanged. *)
Theorem X3_decode_failure (c : Call) (t : Transport) (req : Request)
    (out : outcome Json) (r : Response) (e : exn) :
  exec t (invoke c) = ([req], out) ->
  t req = inr r -> resp_http_error r = None -> resp_json r = inl e ->
  match e with
  | RequestException m =>
      exists d, out = Return (JDict d)
        /\ d !! "status" = Some (JStr "error") /\ d !! "message" = Some (JStr m)
  | _ => out = Raise e
  end.
Proof.
  intros H Ht Hs Hj. pose proof (invoke_decode_failure c t req out H r e Ht Hs Hj) as Hd.
  destruct e; try exact Hd.
  destruct Hd as (v & -> & d & -> & H1 & H2). exists d. repeat split; assumption.
Qed.

Lemma X3_witness :
  exec (fun _ => inr (mkResponse None (inl (RequestException "Expecting value"))))
    (invoke (Call_stop_all_active_calls (Some "key")))
  = ([mkRequest POST STOP_ALL_CALLS_ENDPOINT (auth_headers "key") None None],
     Return (JDict (error_dict "Expecting value")))
  /\ exists d,
       Return (JDict (error_dict "Expecting value")) = Return (JDict d)
       /\ d !! "status" = Some (JStr "error")
       /\ d !! "message" = Some (JStr "Expecting value").
Proof.
  split; [vm_compute; reflexivity|].
  apply (X3_decode_failure (Call_stop_all_active_calls (Some "key"))
           (fun _ => inr (mkResponse None (inl (RequestException "Expecting value"))))
           (mkRequest POST STOP_ALL_CALLS_ENDPOINT (auth_headers "key") None None)
           (Return (JDict (error_dict "Expecting value")))
           (mkResponse None (inl (RequestException "Expecting value")))
           (RequestException "Expecting value")).
  - vm_compute. reflexivity.
  - reflexivity.
  - reflexivity.
  - reflexivity.
Defined.

(** X4.  Every request of every operation carries the caller's token,
    which is non-empty, unchanged as its [authorization] header. *)
Theorem X4_authorization_header (c : Call) (t : Transport) (log : list Request)
    (out : outcome Json) (req : Request) :
  exec t (invoke c) = (log, out) -> In req log ->
  exists token, auth_token_of c = Some token /\ token <> ""
    /\ req_headers req !! "authorization" = Some token.
Proof.
  intros H Hin. pose proof (invoke_sends_token c t log out H) as HF.
  rewrite Forall_forall in HF. apply list_elem_of_In in Hin.
  destruct (HF req Hin) as (token & Ha & Ht & Hh).
  exists token. split; [exact Ha|]. split; [|exact Hh].
  intros ->. discriminate Ht.
Qed.

Lemma X4_witness :
  exists token,
    auth_token_of (Call_send_call_simple (Some "key") (Some "+12025550101") (Some "say hi") None)
    = Some token
    /\ token <> ""
    /\ req_headers (send_call_simple_request "key" "+12025550101" "say hi" None)
       !! "authorization" = Some token.
Proof.
  exact (X4_authorization_header
           (Call_send_call_simple (Some "key") (Some "+12025550101") (Some "say hi") None)
           ok_transport
           [send_call_simple_request "key" "+12025550101" "say hi" None]
           (exchange ok_transport
              (send_call_simple_request "key" "+12025550101" "say hi" None))
           (send_call_simple_request "key" "+12025550101" "say hi" None)
           (send_call_simple_run ok_transport "key" "+12025550101" "say hi"
              None eq_refl eq_refl eq_refl)
           (or_introl eq_refl)).
Defined.

(** X5.  In every request of every operation, a JSON body comes with the
    header [Content-Type: application/json] and the method POST or PATCH,
    and query parameters come with the method GET and no JSON body. *)
Theorem X5_request_shape (c : Call) (t : Transport) (log : list Request)
    (out : outcome Json) (req : Request) :
  exec t (invoke c) = (log, out) -> In req log ->
  (forall d, req_json req = Some d ->
     req_headers req !! "Content-Type" = Some "application/json"
     /\ (req_method req = POST \/ req_method req = PATCH))
  /\ (forall q, req_params req = Some q ->
        req_method req = GET /\ req_json req = None).
Proof.
  intros H Hin. pose proof (invoke_request_shape c t log out H) as HF.
  rewrite Forall_forall in HF. apply list_elem_of_In in Hin. exact (HF req Hin).
Qed.

Lemma X5_witness :
  (forall d, req_json (send_call_simple_request "key" "+12025550101" "say hi" None) = Some d ->
     req_headers (send_call_simple_request "key" "+12025550101" "say hi" None)
       !! "Content-Type" = Some "application/json"
     /\ (req_method (send_call_simple_request "key" "+12025550101" "say hi" None) = POST
         \/ req_method (send_call_simple_request "key" "+12025550101" "say hi" None) = PATCH))
  /\ (forall q, req_params (send_call_simple_request "key" "+12025550101" "say hi" None) = Some q ->
        req_method (send_call_simple_request "key" "+12025550101" "say hi" None) = GET
        /\ req_json (send_call_simple_request "key" "+12025550101" "say hi" None) = None).
Proof.
  exact (X5_request_shape
           (Call_send_call_simple (Some "key") (Some "+12025550101") (Some "say hi") None)
           ok_transport
           [send_call_simple_request "key" "+12025550101" "say hi" None]
           (exchange ok_transport
              (send_call_simple_request "key" "+12025550101" "say hi" None))
           (send_call_simple_request "key" "+12025550101" "say hi" None)
           (send_call_simple_run ok_transport "key" "+12025550101" "say hi"
              None eq_refl eq_refl eq_refl)
           (or_introl eq_refl)).
Defined.

(** X6.  The URL of every request of every operation starts with
    [https://api.bland.ai/v1/], whatever identifiers the caller passes. *)
Theorem X6_url_prefix (c : Call) (t : Transport) (log : list Request)
    (out : outcome Json) (req : Request) :
  exec t (invoke c) = (log, out) -> In req log ->
  startswith "https://api.bland.ai/v1/" (req_url req) = true.
Proof.
  intros H Hin. pose proof (invoke_url_prefix c t log out H) as HF.
  rewrite Forall_forall in HF. apply list_elem_of_In in Hin. exact (HF req Hin).
Qed.

Lemma X6_witness :
  startswith "https://api.bland.ai/v1/"
    (req_url (send_call_simple_request "key" "+12025550101" "say hi" None)) = true.
Proof.
  exact (X6_url_prefix
           (Call_send_call_simple (Some "key") (Some "+12025550101") (Some "say hi") None)
           ok_transport
           [send_call_simple_request "key" "+12025550101" "say hi" None]
           (exchange ok_transport
              (send_call_simple_request "key" "+12025550101" "say hi" None))
           (send_call_simple_request "key" "+12025550101" "say hi" None)
           (send_call_simple_run ok_transport "key" "+12025550101" "say hi"
              None eq_refl eq_refl eq_refl)
           (or_introl eq_refl)).
Defined.

(** X7.  [get_all_pathways], once its request is answered without an
    HTTP error and the body decodes: a dictionary whose [pathways] entry
    is truthy is returned as it is; a dictionary whose [pathways] entry is
    missing, [None] or empty makes the function raise
    [RuntimeError "No pathways found"], which its handler does not turn
    into an error value; and a body that is not a dictionary raises
    [AttributeError]. *)
Theorem X7_get_all_pathways_answer (t : Transport) (auth_token : option string)
    (limit offset : Z) (org_id : option string) (req : Request) (out : outcome Json)
    (r : Response) (data : Json) :
  exec t (get_all_pathways auth_token limit offset org_id) = ([req], out) ->
  t req = inr r -> resp_http_error r = None -> resp_json r = inr data ->
  match data with
  | JDict d =>
      if truthy (default JNone (d !! "pathways"))
      then out = Return data
      else out = Raise (RuntimeError "No pathways found")
  | _ => exists msg, out = Raise (AttributeError msg)
  end.
Proof.
  revert t req out.
  change (ends_with
            (fun t req out =>
               t req = inr r -> resp_http_error r = None -> resp_json r = inr data ->
               match data with
               | JDict d =>
                   if truthy (default JNone (d !! "pathways"))
                   then out = Return data
                   else out = Raise (RuntimeError "No pathways found")
               | _ => exists msg, out = Raise (AttributeError msg)
               end)
            (get_all_pathways auth_token limit offset org_id)).
  unfold get_all_pathways. walk_ends.
  intros t out H Ht Hs Hj. rewrite (try_request_answered _ _ _ _ _ _ _ _ r Ht) in H.
  unfold bind, raise_for_status, response_json, lift, ret, raise in H.
  rewrite Hs, Hj in H.
  destruct data as [| | | | | |d]; simpl in H;
    try (injection H as <-; eexists; reflexivity).
  unfold raise_if, ret, raise in H.
  destruct (truthy (default JNone (d !! "pathways"))); simpl in H;
    injection H as <-; reflexivity.
Qed.

Lemma X7_witness :
  exec (fun _ => inr (mkResponse None (inr (JDict {[ "pathways" := JList [] ]}))))
    (get_all_pathways (Some "key") 1000 0 None)
  = ([mkRequest GET PATHWAYS_ENDPOINT (auth_headers "key") None
        (Some (dict [("limit", JInt 1000); ("offset", JInt 0)]))],
     Raise (RuntimeError "No pathways found"))
  /\ Raise (RuntimeError "No pathways found")
     = Raise (A := Json) (RuntimeError "No pathways found").
Proof.
  split; [vm_compute; reflexivity|].
  assert (Hrun :
            exec (fun _ => inr (mkResponse None (inr (JDict {[ "pathways" := JList [] ]}))))
              (get_all_pathways (Some "key") 1000 0 None)
            = ([mkRequest GET PATHWAYS_ENDPOINT (auth_headers "key") None
                  (Some (dict [("limit", JInt 1000); ("offset", JInt 0)]))],
               Raise (RuntimeError "No pathways found")))
    by (vm_compute; reflexivity).
  exact (X7_get_all_pathways_answer
           (fun _ => inr (mkResponse None (inr (JDict {[ "pathways" := JList [] ]}))))
           (Some "key") 1000 0 None
           (mkRequest GET PATHWAYS_ENDPOINT (auth_headers "key") None
              (Some (dict [("limit", JInt 1000); ("offset", JInt 0)])))
           (Raise (RuntimeError "No pathways found"))
           (mkResponse None (inr (JDict {[ "pathways" := JList [] ]})))
           (JDict {[ "pathways" := JList [] ]})
           Hrun eq_refl eq_refl eq_refl).
Defined.

(** ** The missing-parameter errors *)

Lemma startswith_append (p s : string) : startswith p (p ++ s) = true.
Proof.
  induction p as [|c p IH]; [destruct s; reflexivity|].
  change (String c p ++ s) with (String c (p ++ s)). unfold startswith in *. simpl.
  rewrite IH. destruct (Ascii.ascii_dec c c); [reflexivity|congruence].
Qed.

Lemma quiet_bind_raise_if c e (k : unit -> M Json) :
  is_missing_parameter e = false -> quiet (k tt) -> quiet (bind (raise_if c e) k).
Proof.
  intros He Hk t e' H. destruct c.
  - injection H as <-. exact He.
  - exact (Hk t e' H).
Qed.

Lemma quiet_bind_ordered x (k : Z -> M Json) :
  (forall z, quiet (k z)) -> quiet (bind (ordered x) k).
Proof.
  intros Hk t e H. destruct x as [z|].
  - exact (Hk z t e H).
  - injection H as <-. reflexivity.
Qed.

Lemma quiet_bind_numbers (l : list string) (k : unit -> M Json) :
  quiet (k tt) ->
  quiet
    (bind (for_each l (fun number =>
             raise_if (not_plus_digits number)
               (ValueError (ERROR_INVALID_PHONE ++ ": " ++ number)))) k).
Proof.
  intros Hk. induction l as [|x l IH]; [exact Hk|].
  intros t e H. simpl in H. unfold bind at 1 2 in H.
  destruct (not_plus_digits x).
  - simpl in H. injection H as <-. reflexivity.
  - exact (IH t e H).
Qed.

Lemma quiet_one_request (m : M Json) :
  (forall t log out, m t [] = (log, out) -> exists req, log = [req]) -> quiet m.
Proof. intros Hm t e H. destruct (Hm t _ _ H) as [req Hreq]. discriminate Hreq. Qed.

Lemma quiet_normalized meth url headers json params :
  quiet (normalized (requests_request meth url headers json params)).
Proof.
  apply quiet_one_request. intros t log out H. rewrite normalized_request in H.
  injection H as <- _. eauto.
Qed.

Lemma quiet_normalized_format r meth headers json params :
  (exists url, r = inr url) ->
  quiet (normalized (u <- lift r ;; requests_request meth u headers json params)).
Proof.
  intros [url ->]. apply quiet_one_request. intros t log out H.
  rewrite (normalized_format_request _ url) in H by reflexivity.
  injection H as <- _. eauto.
Qed.

Lemma quiet_try_request meth url headers json params (k : Response -> M Json) h :
  (forall r, pure (k r)) -> (forall msg, pure (h msg)) ->
  quiet
    (try_except_RequestException (bind (requests_request meth url headers json params) k) h).
Proof.
  intros Hk Hh. apply quiet_one_request. intros t log out H.
  apply try_request_log in H; [|exact Hk|exact Hh]. eauto.
Qed.

Lemma reports_nil (m : M Json) : quiet m -> reports [] m.
Proof.
  intros Hm t name. split; [discriminate|].
  intros H. apply Hm in H. unfold is_missing_parameter in H.
  rewrite startswith_append in H. discriminate H.
Qed.

Lemma reports_require {A} `{Truthy A} (n : string) (x : option A) (e : exn) l
    (k : A -> M Json) :
  e = ValueError ("Missing required parameter: " ++ n) ->
  (forall v, x = Some v -> truthy v = true -> reports l (k v)) ->
  reports ((n, truthy x) :: l) (bind (require x e) k).
Proof.
  intros -> Hk t name. unfold bind, require.
  destruct x as [v|]; [destruct (truthy v) eqn:Hv|].
  - change (truthy (Some v)) with (truthy v). simpl. rewrite Hv.
    exact (Hk v eq_refl Hv t name).
  - change (truthy (Some v)) with (truthy v). simpl. rewrite Hv. split.
    + intros [= ->]. reflexivity.
    + intros [= E]. change (n = name) in E. rewrite E. reflexivity.
  - simpl. split.
    + intros [= ->]. reflexivity.
    + intros [= E]. change (n = name) in E. rewrite E. reflexivity.
Qed.

Lemma reports_after_token (x : option string) l (k : string -> M Json) :
  truthy x = true -> (forall v, reports l (k v)) ->
  reports l (bind (require x (ValueError ERROR_MISSING_AUTH)) k).
Proof.
  intros Hx Hk t name. destruct x as [v|]; [|discriminate].
  change (truthy v = true) in Hx. rewrite bind_require_ok by exact Hx. apply Hk.
Qed.

Ltac walk_quiet :=
  cbv beta zeta;
  repeat (first [ apply quiet_bind_raise_if; [reflexivity | ]
                | apply quiet_bind_ordered; intros ?
                | apply quiet_bind_numbers ];
          cbv beta zeta);
  first [ apply quiet_normalized
        | apply quiet_normalized_format; vm_compute; eexists; reflexivity
        | apply quiet_try_request;
          [ intros ?; repeat (apply pure_bind; [|intros ?]); auto with pure_db
          | intros ?; apply pure_ret ] ].

Ltac walk_reports :=
  cbv beta zeta;
  repeat (apply reports_require; [reflexivity | intros ? _ _; cbv beta zeta]);
  apply reports_nil; walk_quiet.

Lemma invoke_reports (c : Call) :
  truthy (auth_token_of c) = true -> reports (required_of c) (invoke c).
Proof.
  destruct c; unfold auth_token_of, required_of, invoke; intros Ha; try destruct kw.
  all: unfold_head reports; apply reports_after_token; [exact Ha | intros ?].
  all: walk_reports.
Qed.

(** X8.  With a token, a call raises
    [ValueError "Missing required parameter: <name>"] before any request
    exactly when [name] is the first of its required parameters, in the
    order of the checks, that is [None] or empty.  The list
    [phone_numbers] of [send_batch_calls] and [upload_inbound_numbers] is
    reported under the name [phone_number]. *)
Theorem X8_missing_parameter (c : Call) (t : Transport) (name : string) :
  truthy (auth_token_of c) = true ->
  first_missing (required_of c) = Some name
  <-> exec t (invoke c)
      = ([], Raise (ValueError ("Missing required parameter: " ++ name))).
Proof. intros Ha. exact (invoke_reports c Ha t name). Qed.

Lemma X8_witness :
  first_missing
    (required_of
       (Call_send_batch_calls (Some "key") (Some []) None (Some "say hi") None None None
          None None None None None None))
  = Some "phone_number"
  <-> exec ok_transport
        (invoke
           (Call_send_batch_calls (Some "key") (Some []) None (Some "say hi") None None None
              None None None None None None))
      = ([], Raise (ValueError "Missing required parameter: phone_number")).
Proof.
  exact (X8_missing_parameter
           (Call_send_batch_calls (Some "key") (Some []) None (Some "say hi") None None None
              None None None None None None)
           ok_transport "phone_number" eq_refl).
Defined.

(** ** Phone numbers *)

Lemma send_call_optional_no_phone kw : send_call_optional_params kw !! "phone_number" = None.
Proof. destruct kw. reflexivity. Qed.

Lemma single_number_sends (c : Call) (phone : option string) :
  single_number_of c = Some phone ->
  sends_only
    (fun req =>
       exists p d, phone = Some p /\ req_json req = Some d
         /\ d !! "phone_number" = Some (JStr (clean_phone p))
         /\ phone_ok p = true)
    (invoke c).
Proof.
  destruct c; try discriminate; intros [= <-]; unfold invoke.
  all: unfold_head sends_only; walk_sends_keeping.
  all: match goal with
       | H : negb (Re.match_ PHONE_PATTERN (Re.sub_class NOT_DIGIT_OR_PLUS "" ?p)) = false
         |- _ => apply negb_false_iff in H; exists p
       end.
  all: eexists; split; [eassumption|]; split; [reflexivity|]; split; [|assumption].
  - rewrite update_non_None_lookup_r by apply send_call_optional_no_phone. reflexivity.
  - reflexivity.
  - reflexivity.
Qed.

(** X9.  [send_call], [send_call_pathway_simple] and [send_call_simple]
    only ever send a [phone_number] that is the argument with everything
    but digits and plus signs removed, and that consists of an optional
    leading plus sign followed by 10 to 15 digits. *)
Theorem X9_phone_number_sent (c : Call) (phone : option string) (t : Transport)
    (log : list Request) (out : outcome Json) (req : Request) :
  single_number_of c = Some phone ->
  exec t (invoke c) = (log, out) -> In req log ->
  exists p d,
    phone = Some p /\ req_json req = Some d
    /\ d !! "phone_number" = Some (JStr (clean_phone p))
    /\ plus_and_digits (clean_phone p).
Proof.
  intros Hc H Hin. pose proof (single_number_sends c phone Hc t log out H) as HF.
  rewrite Forall_forall in HF. apply list_elem_of_In in Hin.
  destruct (HF req Hin) as (p & d & Hp & Hd & Hk & Hok).
  exists p, d. repeat (split; [assumption|]). apply phone_ok_shape, Hok.
Qed.

Lemma X9_witness :
  exists p d,
    Some "+1 (202) 555-0101" = Some p
    /\ req_json (send_call_simple_request "key" "+12025550101" "say hi" None) = Some d
    /\ d !! "phone_number" = Some (JStr (clean_phone p))
    /\ plus_and_digits (clean_phone p).
Proof.
  apply (X9_phone_number_sent
           (Call_send_call_simple (Some "key") (Some "+1 (202) 555-0101") (Some "say hi") None)
           (Some "+1 (202) 555-0101") ok_transport
           [send_call_simple_request "key" "+12025550101" "say hi" None]
           (Return (JDict ∅))
           (send_call_simple_request "key" "+12025550101" "say hi" None)).
  - reflexivity.
  - vm_compute. reflexivity.
  - left. reflexivity.
Defined.

Lemma bind_require_ext {A B} `{Truthy A} (x : option A) e (k k' : A -> M B) t log :
  (forall v, x = Some v -> truthy v = true -> k v t log = k' v t log) ->
  bind (require x e) k t log = bind (require x e) k' t log.
Proof.
  intros Hk. unfold bind, require.
  destruct x as [v|]; [destruct (truthy v) eqn:Hv|]; try reflexivity.
  exact (Hk v eq_refl Hv).
Qed.

(** X10.  The operations that place one call ignore the formatting of
    the number: two non-empty numbers that agree once everything but
    digits and plus signs is removed give the same requests and the same
    result. *)
Theorem X10_phone_formatting_ignored (t : Transport) (auth_token : option string)
    (p q : string) (task pathway_id org_id : option string) (kw : send_call_kw.t) :
  p <> "" -> q <> "" -> clean_phone p = clean_phone q ->
  exec t (send_call auth_token (Some p) kw) = exec t (send_call auth_token (Some q) kw)
  /\ exec t (send_call_simple auth_token (Some p) task org_id)
     = exec t (send_call_simple auth_token (Some q) task org_id)
  /\ exec t (send_call_pathway_simple auth_token (Some p) pathway_id org_id)
     = exec t (send_call_pathway_simple auth_token (Some q) pathway_id org_id).
Proof.
  intros Hp Hq Hpq.
  assert (Hp' : truthy p = true) by (destruct p; [congruence|reflexivity]).
  assert (Hq' : truthy q = true) by (destruct q; [congruence|reflexivity]).
  unfold exec, send_call, send_call_simple, send_call_pathway_simple.
  repeat split.
  all: apply bind_require_ext; intros a _ _; cbv beta.
  all: rewrite (bind_require_ok p) by exact Hp'.
  all: rewrite (bind_require_ok q) by exact Hq'.
  all: cbv beta zeta.
  all: unfold clean_phone in Hpq; rewrite Hpq; reflexivity.
Qed.

Lemma X10_witness :
  exec ok_transport (send_call (Some "key") (Some "+1 (202) 555-0101") send_call_kw.defaults)
  = exec ok_transport (send_call (Some "key") (Some "+12025550101") send_call_kw.defaults)
  /\ exec ok_transport
       (send_call_simple (Some "key") (Some "+1 (202) 555-0101") (Some "say hi") None)
     = exec ok_transport
         (send_call_simple (Some "key") (Some "+12025550101") (Some "say hi") None)
  /\ exec ok_transport
       (send_call_pathway_simple (Some "key") (Some "+1 (202) 555-0101") (Some "pw-1") None)
     = exec ok_transport
         (send_call_pathway_simple (Some "key") (Some "+12025550101") (Some "pw-1") None).
Proof.
  apply (X10_phone_formatting_ignored ok_transport (Some "key") "+1 (202) 555-0101"
           "+12025550101" (Some "say hi") (Some "pw-1") None send_call_kw.defaults).
  - discriminate.
  - discriminate.
  - vm_compute. reflexivity.
Defined.

(** The loop over the numbers stops at the first one that fails the
    check. *)
Lemma for_each_numbers_first_bad (good rest : list string) (bad : string) e t log :
  forallb (fun number => negb (not_plus_digits number)) good = true ->
  not_plus_digits bad = true ->
  for_each (good ++ bad :: rest)%list
    (fun number => raise_if (not_plus_digits number) (e number)) t log
  = (log, Raise (e bad)).
Proof.
  intros Hgood Hbad. induction good as [|x good IH]; simpl.
  - rewrite bind_raise_if_true by exact Hbad. reflexivity.
  - simpl in Hgood. apply andb_prop in Hgood as [Hx Hgood].
    apply negb_true_iff in Hx. rewrite bind_raise_if_false by exact Hx. exact (IH Hgood).
Qed.

(** X11.  [send_batch_calls] and [upload_inbound_numbers] check the
    numbers in order and stop at the first that is not a plus sign
    followed by digits only: the error names that number, nothing is
    sent, and the model and the temperature are not looked at. *)
Theorem X11_first_invalid_number (t : Transport) (auth_token : string)
    (good rest : list string) (bad : string)
    (pathway_id task model voice language : option string)
    (temperature : option float) (max_duration : option Z)
    (schedule_time : option string) (retry_config metadata : option (gmap string Json))
    (org_id : option string) :
  auth_token <> "" ->
  forallb (fun number => negb (not_plus_digits number)) good = true ->
  not_plus_digits bad = true ->
  (truthy pathway_id || truthy task = true ->
   exec t (send_batch_calls (Some auth_token) (Some (good ++ bad :: rest)%list)
             pathway_id task model voice language temperature max_duration
             schedule_time retry_config metadata org_id)
   = ([], Raise (ValueError ("Invalid phone number format: " ++ bad))))
  /\ exec t (upload_inbound_numbers (Some auth_token) (Some (good ++ bad :: rest)%list)
               pathway_id task model voice language temperature max_duration org_id)
     = ([], Raise (ValueError ("Invalid phone number format: " ++ bad))).
Proof.
  intros Ha Hgood Hbad.
  assert (Ha' : truthy auth_token = true) by (destruct auth_token; [congruence|reflexivity]).
  assert (Hl : truthy (good ++ bad :: rest)%list = true) by (destruct good; reflexivity).
  unfold exec, send_batch_calls, upload_inbound_numbers. split; [intros Hone|].
  - rewrite bind_require_ok by exact Ha'. rewrite bind_require_ok by exact Hl.
    rewrite bind_raise_if_false
      by (destruct (truthy pathway_id), (truthy task); try reflexivity; discriminate Hone).
    apply bind_raise.
    exact (for_each_numbers_first_bad good rest bad
             (fun number => ValueError (ERROR_INVALID_PHONE ++ ": " ++ number))
             t [] Hgood Hbad).
  - rewrite bind_require_ok by exact Ha'. rewrite bind_require_ok by exact Hl.
    apply bind_raise.
    exact (for_each_numbers_first_bad good rest bad
             (fun number => ValueError (ERROR_INVALID_PHONE ++ ": " ++ number))
             t [] Hgood Hbad).
Qed.

Lemma X11_witness :
  (truthy (@None string) || truthy (Some "say hi") = true ->
   exec ok_transport
     (send_batch_calls (Some "key") (Some (["+12025550101"] ++ "2025550102" :: ["x"])%list)
        None (Some "say hi") (Some "gpt") None None (Some 7%float) None None None None None)
   = ([], Raise (ValueError ("Invalid phone number format: " ++ "2025550102"))))
  /\ exec ok_transport
       (upload_inbound_numbers (Some "key")
          (Some (["+12025550101"] ++ "2025550102" :: ["x"])%list)
          None (Some "say hi") (Some "gpt") None None (Some 7%float) None None)
     = ([], Raise (ValueError ("Invalid phone number format: " ++ "2025550102"))).
Proof.
  apply (X11_first_invalid_number ok_transport "key" ["+12025550101"] ["x"] "2025550102"
           None (Some "say hi") (Some "gpt") None None (Some 7%float) None None None None None).
  - discriminate.
  - reflexivity.
  - reflexivity.
Defined.

(** ** The fields of bodies and query parameters *)

Lemma no_None_empty : no_None ∅.
Proof. intros k v H. rewrite lookup_empty in H. discriminate. Qed.

Lemma no_None_insert k v d : is_not_None v = true -> no_None d -> no_None (<[k := v]> d).
Proof.
  intros Hv Hd k' v' H. destruct (decide (k = k')) as [->|Hne].
  - rewrite lookup_insert_eq in H. injection H as <-. exact Hv.
  - rewrite lookup_insert_ne in H by exact Hne. exact (Hd k' v' H).
Qed.

Lemma no_None_dict items :
  Forall (fun kv => is_not_None kv.2 = true) items -> no_None (dict items).
Proof.
  unfold dict. induction 1 as [|[k v] items Hv _ IH]; [apply no_None_empty|].
  simpl. apply no_None_insert; assumption.
Qed.

Lemma no_None_update d other : no_None d -> no_None (update_non_None d other).
Proof.
  intros Hd k v H. unfold update_non_None in H. apply lookup_union_Some_raw in H.
  destruct H as [H|[_ H]]; [|exact (Hd k v H)].
  apply map_lookup_filter_Some in H as [_ H]. exact H.
Qed.

Lemma no_None_set_if_not_None {A} `{ToJson A} k (x : option A) d :
  (forall v, x = Some v -> is_not_None (to_json v) = true) -> no_None d ->
  no_None (set_if_not_None k x d).
Proof.
  intros Hx Hd. unfold set_if_not_None. destruct x as [v|]; [|exact Hd].
  apply no_None_insert; [apply Hx; reflexivity|exact Hd].
Qed.

Lemma no_None_set_if {A} `{Truthy A} `{ToJson A} k (x : option A) d :
  (forall v, x = Some v -> is_not_None (to_json v) = true) -> no_None d ->
  no_None (set_if k x d).
Proof.
  intros Hx Hd. unfold set_if. destruct x as [v|]; [|exact Hd].
  destruct (truthy (Some v)); [|exact Hd].
  apply no_None_insert; [apply Hx; reflexivity|exact Hd].
Qed.

Ltac solve_no_None :=
  repeat first
    [ apply no_None_empty
    | apply no_None_update
    | apply no_None_set_if_not_None; [intros ? _; reflexivity|]
    | apply no_None_set_if; [intros ? _; reflexivity|]
    | apply no_None_insert; [reflexivity|]
    | apply no_None_dict; repeat constructor ].

Lemma invoke_sends_no_None (c : Call) :
  sort_order_missing c = false -> sends_only sends_no_None (invoke c).
Proof.
  destruct c; unfold sort_order_missing, invoke; intros Hc; try destruct kw.
  all: unfold_head sends_only; walk_sends.
  all: unfold sends_no_None; cbn [req_json req_params].
  all: split; try exact I.
  all: try solve [solve_no_None].
  - destruct (truthy include_call_details); solve_no_None.
  - destruct (truthy include_calls); solve_no_None.
  - destruct sort_order as [so|].
    + destruct sort_by as [sb|]; [destruct (truthy (Some sb))|]; solve_no_None.
    + rewrite Hc. solve_no_None.
Qed.

Lemma list_batches_sort_order_None (c : Call) :
  sort_order_missing c = true ->
  sends_only
    (fun req => exists q, req_params req = Some q /\ q !! "sort_order" = Some JNone)
    (invoke c).
Proof.
  destruct c; try discriminate. unfold sort_order_missing, invoke.
  destruct sort_order; [discriminate|]. intros Hc.
  unfold_head sends_only; walk_sends. cbn [req_params]. rewrite Hc.
  eexists. split; [reflexivity|]. apply lookup_insert_eq.
Qed.

(** X12.  No operation sends a field whose value is [None], in a JSON
    body or in the query parameters, with one exception: [list_batches]
    called with a [sort_by] and [sort_order=None] passes
    [sort_order: None] in its query parameters. *)
Theorem X12_no_None_field (c : Call) (t : Transport) (log : list Request)
    (out : outcome Json) (req : Request) :
  exec t (invoke c) = (log, out) -> In req log ->
  if sort_order_missing c
  then exists q, req_params req = Some q /\ q !! "sort_order" = Some JNone
  else (forall d k v, req_json req = Some d -> d !! k = Some v -> v <> JNone)
       /\ (forall q k v, req_params req = Some q -> q !! k = Some v -> v <> JNone).
Proof.
  intros H Hin. apply list_elem_of_In in Hin.
  destruct (sort_order_missing c) eqn:Hc.
  - pose proof (list_batches_sort_order_None c Hc t log out H) as HF.
    rewrite Forall_forall in HF. exact (HF req Hin).
  - pose proof (invoke_sends_no_None c Hc t log out H) as HF.
    rewrite Forall_forall in HF. destruct (HF req Hin) as [Hj Hq]. split.
    + intros d k v Hd Hk ->. rewrite Hd in Hj. discriminate (Hj k JNone Hk).
    + intros q k v Hd Hk ->. rewrite Hd in Hq. discriminate (Hq k JNone Hk).
Qed.

Lemma X12_witness :
  exists q,
    req_params
      (mkRequest GET BATCHES_ENDPOINT (auth_headers "key") None
         (Some (dict [("limit", JInt 10); ("offset", JInt 0); ("sort_by", JStr "created_at");
                      ("sort_order", JNone)])))
    = Some q
    /\ q !! "sort_order" = Some JNone.
Proof.
  apply (X12_no_None_field
           (Call_list_batches (Some "key") (Some 10) (Some 0) None None (Some "created_at")
              None None)
           ok_transport
           [mkRequest GET BATCHES_ENDPOINT (auth_headers "key") None
              (Some (dict [("limit", JInt 10); ("offset", JInt 0);
                           ("sort_by", JStr "created_at"); ("sort_order", JNone)]))]
           (Return (JDict ∅))).
  - vm_compute. reflexivity.
  - left. reflexivity.
Defined.

Lemma set_if_non_empty {A} `{Truthy A} `{ToJson A} k (x : option A) (d : gmap string Json) :
  truthy x = true \/ d <> ∅ -> set_if k x d <> ∅.
Proof.
  unfold set_if. intros [Hx|Hd].
  - rewrite Hx. apply insert_non_empty.
  - destruct (truthy x); [apply insert_non_empty|exact Hd].
Qed.

Lemma checked_update_sends (c : Call) :
  is_checked_update c = true ->
  sends_only (fun req => exists d, req_json req = Some d /\ d <> ∅) (invoke c).
Proof.
  destruct c; try discriminate; intros _; unfold invoke.
  all: unfold_head sends_only; walk_sends_keeping.
  all: cbn [req_json]; eexists; (split; [reflexivity|]).
  - destruct (truthy name) eqn:Hn; [|destruct (truthy description) eqn:Hd; [|discriminate]].
    + apply set_if_non_empty. right. apply set_if_non_empty. left. exact Hn.
    + apply set_if_non_empty. left. exact Hd.
  - destruct (truthy name) eqn:Hn;
      [|destruct (truthy nodes) eqn:Hno;
        [|destruct (truthy edges) eqn:He;
          [|destruct (truthy description) eqn:Hd;
            [|destruct (truthy metadata) eqn:Hm; [|discriminate]]]]].
    all: repeat first [ apply set_if_non_empty; left; assumption
                      | apply set_if_non_empty; right ].
Qed.

(** X13.  [update_folder] and [update_pathway] never send an empty JSON
    body: a request is only made when at least one field to update is
    given, and that field is in the body. *)
Theorem X13_update_body_not_empty (c : Call) (t : Transport) (log : list Request)
    (out : outcome Json) (req : Request) :
  is_checked_update c = true ->
  exec t (invoke c) = (log, out) -> In req log ->
  exists d, req_json req = Some d /\ d <> ∅.
Proof.
  intros Hc H Hin. pose proof (checked_update_sends c Hc t log out H) as HF.
  rewrite Forall_forall in HF. apply list_elem_of_In in Hin. exact (HF req Hin).
Qed.

Lemma X13_witness :
  exists d,
    req_json
      (mkRequest PATCH (FOLDERS_ENDPOINT ++ "/f-1/update") (json_headers "key")
         (Some (dict [("name", JStr "Sales")])) None)
    = Some d
    /\ d <> ∅.
Proof.
  apply (X13_update_body_not_empty
           (Call_update_folder (Some "key") (Some "f-1") (Some "Sales") None None)
           ok_transport
           [mkRequest PATCH (FOLDERS_ENDPOINT ++ "/f-1/update") (json_headers "key")
              (Some (dict [("name", JStr "Sales")])) None]
           (Return (JDict ∅))).
  - reflexivity.
  - vm_compute. reflexivity.
  - left. reflexivity.
Defined.

(** ** The method of a custom tool *)

Lemma upper_char_idempotent (c : ascii) : upper_char (upper_char c) = upper_char c.
Proof. destruct c as [[] [] [] [] [] [] [] []]; reflexivity. Qed.

Lemma upper_idempotent (s : string) : upper (upper s) = upper s.
Proof.
  induction s as [|c s IH]; [reflexivity|]. simpl. rewrite upper_char_idempotent, IH.
  reflexivity.
Qed.

Lemma truthy_upper (s : string) : truthy (upper s) = truthy s.
Proof. destruct s; reflexivity. Qed.

(** X14.  [create_custom_tool] and [update_custom_tool] do not
    distinguish the case of the letters of [method]: the method and its
    upper-case form give the same requests and the same result. *)
Theorem X14_method_case_ignored (t : Transport)
    (auth_token tool_id name description endpoint : option string) (method : string)
    (parameters : option (list Json))
    (headers authentication response_mapping : option (gmap string string))
    (org_id : option string) :
  exec t (create_custom_tool auth_token name description endpoint (Some method) parameters
            headers authentication response_mapping org_id)
  = exec t (create_custom_tool auth_token name description endpoint (Some (upper method))
              parameters headers authentication response_mapping org_id)
  /\ exec t (update_custom_tool auth_token tool_id name description endpoint (Some method)
               parameters headers authentication response_mapping org_id)
     = exec t (update_custom_tool auth_token tool_id name description endpoint
                 (Some (upper method)) parameters headers authentication response_mapping
                 org_id).
Proof.
  unfold exec, create_custom_tool, update_custom_tool. split.
  - do 4 (apply bind_require_ext; intros ? _ _; cbv beta).
    destruct method as [|ch method]; [reflexivity|].
    rewrite (bind_require_ok (String ch method)) by reflexivity.
    rewrite (bind_require_ok (upper (String ch method))) by reflexivity.
    cbv beta. rewrite upper_idempotent. reflexivity.
  - do 2 (apply bind_require_ext; intros ? _ _; cbv beta).
    cbv zeta. rewrite truthy_upper, upper_idempotent.
    change (upper <$> Some (upper method)) with (Some (upper (upper method))).
    change (upper <$> Some method) with (Some (upper method)).
    rewrite upper_idempotent. reflexivity.
Qed.



(** ** Identifiers in URLs *)

Lemma format_pathway_versions (pathway_id : string) :
  format PATHWAY_VERSIONS_ENDPOINT [("pathway_id", pathway_id)]
  = inr (PATHWAYS_ENDPOINT ++ "/" ++ pathway_id ++ "/versions").
Proof. reflexivity. Qed.

Lemma format_pathway_version (pathway_id version_id : string) :
  format PATHWAY_VERSION_ENDPOINT [("pathway_id", pathway_id); ("version_id", version_id)]
  = inr (PATHWAYS_ENDPOINT ++ "/" ++ pathway_id ++ "/versions/" ++ version_id).
Proof.
  transitivity
    (@inr exn string (PATHWAYS_ENDPOINT ++ "/" ++ pathway_id ++ "/versions/"
                      ++ (version_id ++ ""))).
  - reflexivity.
  - rewrite append_empty_r. reflexivity.
Qed.

Lemma truthy_append_l (s1 s2 : string) : truthy s1 = true -> truthy (s1 ++ s2) = true.
Proof. destruct s1; [discriminate|reflexivity]. Qed.

(** X16.  Identifiers are placed in the URL as they are, without
    escaping, so that an identifier containing a slash reaches another
    endpoint: [get_pathway_info] called with [<id>/versions] or with
    [<id>/versions/<version>] performs the request of
    [get_pathway_versions] or of [get_pathway_version], and returns
    their result. *)
Theorem X16_identifier_not_escaped (t : Transport) (auth_token : option string)
    (pathway_id version_id : string) (org_id : option string) :
  pathway_id <> "" -> version_id <> "" ->
  exec t (get_pathway_info auth_token (Some (pathway_id ++ "/versions")) org_id)
  = exec t (get_pathway_versions auth_token (Some pathway_id) org_id)
  /\ exec t (get_pathway_info auth_token
               (Some (pathway_id ++ "/versions/" ++ version_id)) org_id)
     = exec t (get_pathway_version auth_token (Some pathway_id) (Some version_id) org_id).
Proof.
  intros Hp Hv.
  assert (Hp' : truthy pathway_id = true) by (destruct pathway_id; [congruence|reflexivity]).
  assert (Hv' : truthy version_id = true) by (destruct version_id; [congruence|reflexivity]).
  unfold exec, get_pathway_info, get_pathway_versions, get_pathway_version. split.
  - apply bind_require_ext; intros a _ _; cbv beta.
    rewrite (bind_require_ok (pathway_id ++ "/versions")) by (apply truthy_append_l, Hp').
    rewrite (bind_require_ok pathway_id) by exact Hp'. cbv beta zeta. unfold requests_get.
    rewrite (normalized_format_request _ _ _ _ _ _ _ (format_pathway_details _)).
    rewrite (normalized_format_request _ _ _ _ _ _ _ (format_pathway_versions _)).
    reflexivity.
  - apply bind_require_ext; intros a _ _; cbv beta.
    rewrite (bind_require_ok (pathway_id ++ "/versions/" ++ version_id))
      by (apply truthy_append_l, Hp').
    rewrite (bind_require_ok pathway_id) by exact Hp'.
    rewrite (bind_require_ok version_id) by exact Hv'. cbv beta zeta. unfold requests_get.
    rewrite (normalized_format_request _ _ _ _ _ _ _ (format_pathway_details _)).
    rewrite (normalized_format_request _ _ _ _ _ _ _ (format_pathway_version _ _)).
    reflexivity.
Qed.

Lemma X16_witness :
  exec ok_transport (get_pathway_info (Some "key") (Some ("pw-1" ++ "/versions")) None)
  = exec ok_transport (get_pathway_versions (Some "key") (Some "pw-1") None)
  /\ exec ok_transport
       (get_pathway_info (Some "key") (Some ("pw-1" ++ "/versions/" ++ "3")) None)
     = exec ok_transport (get_pathway_version (Some "key") (Some "pw-1") (Some "3") None).
Proof.
  apply (X16_identifier_not_escaped ok_transport (Some "key") "pw-1" "3" None).
  - discriminate.
  - discriminate.
Defined.

(** ** Filters and ranges *)

(** X17.  A filter whose switch is off is dropped, yet still checked.
    [get_batch_details] without [include_calls] treats a valid
    [call_status] as no [call_status], and [list_batches] without
    [sort_by] treats a valid [sort_order] as no [sort_order]; an invalid
    [call_status] or [sort_order] is rejected all the same. *)
Theorem X17_filter_without_switch (t : Transport) (auth_token batch_id : string)
    (include_calls : option bool) (call_status sort_order : string)
    (limit offset : option Z) (status : option (list string))
    (date_range : option (gmap string string)) (sort_by org_id : option string) :
  auth_token <> "" -> batch_id <> "" ->
  (truthy include_calls = false ->
   in_list call_status ["queued"; "in_progress"; "completed"; "failed"; "cancelled"] = true ->
   exec t (get_batch_details (Some auth_token) (Some batch_id) include_calls
             (Some call_status) org_id)
   = exec t (get_batch_details (Some auth_token) (Some batch_id) include_calls None org_id))
  /\ (call_status <> "" ->
      in_list call_status ["queued"; "in_progress"; "completed"; "failed"; "cancelled"]
      = false ->
      exec t (get_batch_details (Some auth_token) (Some batch_id) include_calls
                (Some call_status) org_id)
      = ([], Raise (ValueError ("Invalid call_status. Must be one of: "
                                ++ "queued, in_progress, completed, failed, cancelled"))))
  /\ (truthy sort_by = false -> in_list sort_order ["asc"; "desc"] = true ->
      exec t (list_batches (Some auth_token) limit offset status date_range sort_by
                (Some sort_order) org_id)
      = exec t (list_batches (Some auth_token) limit offset status date_range sort_by
                  None org_id))
  /\ (sort_order <> "" -> in_list sort_order ["asc"; "desc"] = false ->
      (forall l, limit = Some l -> 1 <= l) -> (forall o, offset = Some o -> 0 <= o) ->
      exec t (list_batches (Some auth_token) limit offset status date_range sort_by
                (Some sort_order) org_id)
      = ([], Raise (ValueError "Sort order must be either 'asc' or 'desc'"))).
Proof.
  intros Ha Hb.
  assert (Ha' : truthy auth_token = true) by (destruct auth_token; [congruence|reflexivity]).
  assert (Hb' : truthy batch_id = true) by (destruct batch_id; [congruence|reflexivity]).
  unfold exec, get_batch_details, list_batches.
  split; [|split; [|split]].
  - intros Hi Hs.
    rewrite !(bind_require_ok auth_token) by exact Ha'.
    rewrite !(bind_require_ok batch_id) by exact Hb'. cbv beta zeta.
    rewrite Hs, Hi, andb_false_r. reflexivity.
  - intros Hne Hs.
    rewrite (bind_require_ok auth_token) by exact Ha'.
    rewrite (bind_require_ok batch_id) by exact Hb'. cbv beta zeta.
    apply bind_raise_if_true. rewrite Hs.
    destruct call_status; [congruence|reflexivity].
  - intros Hsb Hs.
    rewrite !(bind_require_ok auth_token) by exact Ha'. cbv beta zeta.
    rewrite Hs, Hsb, andb_false_r. reflexivity.
  - intros Hne Hs Hl Ho.
    rewrite (bind_require_ok auth_token) by exact Ha'. cbv beta zeta.
    rewrite bind_raise_if_false
      by (destruct limit as [l|]; [apply Z.ltb_ge, Hl; reflexivity|reflexivity]).
    rewrite bind_raise_if_false
      by (destruct offset as [o|]; [apply Z.ltb_ge, Ho; reflexivity|reflexivity]).
    apply bind_raise_if_true. rewrite Hs.
    destruct sort_order; [congruence|reflexivity].
Qed.

Lemma X17_witness :
  exec ok_transport
    (get_batch_details (Some "key") (Some "b-1") (Some false) (Some "failed") None)
  = exec ok_transport (get_batch_details (Some "key") (Some "b-1") (Some false) None None)
  /\ exec ok_transport
       (get_batch_details (Some "key") (Some "b-1") (Some false) (Some "done") None)
     = ([], Raise (ValueError ("Invalid call_status. Must be one of: "
                               ++ "queued, in_progress, completed, failed, cancelled"))).
Proof.
  split.
  - apply (proj1 (X17_filter_without_switch ok_transport "key" "b-1" (Some false)
                    "failed" "asc" None None None None None None
                    ltac:(discriminate) ltac:(discriminate)));
      reflexivity.
  - apply (proj1 (proj2 (X17_filter_without_switch ok_transport "key" "b-1" (Some false)
                           "done" "asc" None None None None None None
                           ltac:(discriminate) ltac:(discriminate))));
      [discriminate|reflexivity].
Defined.

Lemma audio_sample_sends auth_token text voice_id language speed pitch format org_id :
  sends_only
    (fun req =>
       exists d, req_json req = Some d
         /\ d !! "speed" = JFloat <$> speed /\ d !! "pitch" = JFloat <$> pitch
         /\ (forall s, speed = Some s -> between 0.5 s 2 = true)
         /\ (forall p, pitch = Some p -> between (-20) p 20 = true))
    (generate_audio_sample auth_token text voice_id language speed pitch format org_id).
Proof.
  unfold generate_audio_sample. walk_sends_keeping.
  cbn [req_json]. eexists. split; [reflexivity|]. split; [|split; [|split]].
  - rewrite set_if_ne by discriminate. rewrite set_if_not_None_ne by discriminate.
    destruct speed as [s|].
    + apply set_if_not_None_eq.
    + cbn [set_if_not_None]. rewrite !set_if_ne by discriminate. reflexivity.
  - rewrite set_if_ne by discriminate. destruct pitch as [p|].
    + apply set_if_not_None_eq.
    + cbn [set_if_not_None]. rewrite set_if_not_None_ne by discriminate.
      rewrite !set_if_ne by discriminate. reflexivity.
  - intros s ->. apply negb_false_iff. assumption.
  - intros p ->. apply negb_false_iff. assumption.
Qed.

(** X18.  [generate_audio_sample] only sends a [speed] within 0.5 and
    2.0 and a [pitch] within -20 and 20: in every request the body has
    [speed] and [pitch] exactly when they are given (a pitch of 0 is
    sent), with the given values, and these pass the range checks. *)
Theorem X18_audio_sample_ranges (t : Transport)
    (auth_token text voice_id language : option string) (speed pitch : option float)
    (format org_id : option string) (log : list Request) (out : outcome Json)
    (req : Request) :
  exec t (generate_audio_sample auth_token text voice_id language speed pitch format org_id)
  = (log, out) ->
  In req log ->
  exists d, req_json req = Some d
    /\ d !! "speed" = JFloat <$> speed /\ d !! "pitch" = JFloat <$> pitch
    /\ (forall s, speed = Some s -> between 0.5 s 2 = true)
    /\ (forall p, pitch = Some p -> between (-20) p 20 = true).
Proof.
  intros H Hin.
  pose proof (audio_sample_sends auth_token text voice_id language speed pitch format org_id
                t log out H) as HF.
  rewrite Forall_forall in HF. apply list_elem_of_In in Hin. exact (HF req Hin).
Qed.

Lemma X18_witness :
  exists d,
    req_json
      (mkRequest POST GENERATE_AUDIO_ENDPOINT (json_headers "key")
         (Some (dict [("text", JStr "hello"); ("pitch", JFloat 0)])) None)
    = Some d
    /\ d !! "speed" = JFloat <$> None /\ d !! "pitch" = JFloat <$> Some 0%float
    /\ (forall s, None = Some s -> between 0.5 s 2 = true)
    /\ (forall p, Some 0%float = Some p -> between (-20) p 20 = true).
Proof.
  apply (X18_audio_sample_ranges ok_transport (Some "key") (Some "hello") None None None
           (Some 0%float) None None
           [mkRequest POST GENERATE_AUDIO_ENDPOINT (json_headers "key")
              (Some (dict [("text", JStr "hello"); ("pitch", JFloat 0)])) None]
           (Return (JDict ∅))).
  - vm_compute. reflexivity.
  - left. reflexivity.
Defined.

(** ** [send_call_simple] within [send_call] *)

Lemma send_call_sent (auth phone : string) (kw : send_call_kw.t) :
  sends_only
    (fun req =>
       truthy auth = true /\ truthy phone = true /\ phone_ok phone = true
       /\ req = send_call_request auth phone kw)
    (send_call (Some auth) (Some phone) kw).
Proof.
  unfold send_call. walk_sends_keeping.
  repeat match goal with
         | H : Some _ = Some _ |- _ => injection H as <-
         end.
  match goal with
  | H : negb (Re.match_ PHONE_PATTERN _) = false |- _ => apply negb_false_iff in H
  end.
  repeat split; assumption.
Qed.

Lemma send_call_optional_task kw :
  send_call_optional_params kw !! "task" = Some (to_json (send_call_kw.task kw)).
Proof. destruct kw. reflexivity. Qed.

(** X19.  [send_call_simple] is [send_call] restricted to a task:
    whenever [send_call] with a task sends a request, [send_call_simple]
    with the same token, number, task and organisation sends one too, to
    the same URL with the same method and headers, and every field of
    its body is in the body of [send_call] with the same value. *)
Theorem X19_send_call_simple_within_send_call (t : Transport) (auth phone task : string)
    (kw : send_call_kw.t) (req : Request) (out : outcome Json) :
  send_call_kw.task kw = Some task -> task <> "" ->
  exec t (send_call (Some auth) (Some phone) kw) = ([req], out) ->
  exists req',
    fst (exec t (send_call_simple (Some auth) (Some phone) (Some task)
                   (send_call_kw.org_id kw)))
    = [req']
    /\ req_method req' = req_method req /\ req_url req' = req_url req
    /\ req_headers req' = req_headers req
    /\ exists d' d,
         req_json req' = Some d' /\ req_json req = Some d
         /\ forall k v, d' !! k = Some v -> d !! k = Some v.
Proof.
  intros Htask Hne H.
  assert (Ht : truthy task = true) by (destruct task; [congruence|reflexivity]).
  pose proof (send_call_sent auth phone kw t [req] out H) as HF.
  apply Forall_cons in HF as [(Ha & Hp & Hok & ->) _].
  exists (send_call_simple_request auth phone task (send_call_kw.org_id kw)).
  rewrite (send_call_simple_run t auth phone task _ Ha Hp Ht), Hok.
  split; [reflexivity|]. split; [reflexivity|]. split; [reflexivity|]. split; [reflexivity|].
  eexists. eexists. split; [reflexivity|]. split; [reflexivity|].
  intros k v Hk. unfold dict in Hk. cbn [list_to_map foldr fst snd uncurry] in Hk.
  apply lookup_insert_Some in Hk as [[<- <-]|[_ Hk]].
  - rewrite update_non_None_lookup_r by apply send_call_optional_no_phone. reflexivity.
  - apply lookup_insert_Some in Hk as [[<- <-]|[_ Hk]].
    + apply update_non_None_lookup; [|reflexivity].
      rewrite send_call_optional_task, Htask. reflexivity.
    + rewrite lookup_empty in Hk. discriminate Hk.
Qed.

Lemma X19_witness :
  exists req',
    fst (exec ok_transport
           (send_call_simple (Some "key") (Some "+12025550101") (Some "say hi")
              (send_call_kw.org_id (kw_with (Some "say hi") None 0.7))))
    = [req']
    /\ req_method req'
       = req_method (send_call_request "key" "+12025550101" (kw_with (Some "say hi") None 0.7))
    /\ req_url req'
       = req_url (send_call_request "key" "+12025550101" (kw_with (Some "say hi") None 0.7))
    /\ req_headers req'
       = req_headers
           (send_call_request "key" "+12025550101" (kw_with (Some "say hi") None 0.7))
    /\ exists d' d,
         req_json req' = Some d'
         /\ req_json (send_call_request "key" "+12025550101" (kw_with (Some "say hi") None 0.7))
            = Some d
         /\ forall k v, d' !! k = Some v -> d !! k = Some v.
Proof.
  apply (X19_send_call_simple_within_send_call ok_transport "key" "+12025550101" "say hi"
           (kw_with (Some "say hi") None 0.7)
           (send_call_request "key" "+12025550101" (kw_with (Some "say hi") None 0.7))
           (exchange ok_transport
              (send_call_request "key" "+12025550101" (kw_with (Some "say hi") None 0.7)))).
  - reflexivity.
  - discriminate.
  - exact (send_call_run ok_transport "key" "+12025550101" (Some "say hi") None 0.7
             eq_refl eq_refl eq_refl).
Defined.

(** ** Lists of numbers *)

Lemma sends_only_bind_numbers P (l : list string) e (k : unit -> M Json) :
  (plus_digits_all l = true -> sends_only P (k tt)) ->
  sends_only P
    (bind (for_each l (fun number => raise_if (not_plus_digits number) (e number))) k).
Proof.
  intros Hk. destruct (plus_digits_all l) eqn:Hl.
  - intros t log out H. rewrite bind_for_each_numbers_ok in H by exact Hl.
    exact (Hk eq_refl t log out H).
  - clear Hk. intros t log out H.
    assert (Hlog : log = []); [|subst log; constructor].
    revert H. unfold plus_digits_all in Hl.
    induction l as [|x l IH]; [discriminate|].
    simpl in Hl. simpl. unfold bind at 1 2. destruct (not_plus_digits x); simpl.
    + intros [= <- _]. reflexivity.
    + apply IH. exact Hl.
Qed.

Lemma number_list_sends (c : Call) (numbers : option (list string)) :
  number_list_of c = Some numbers ->
  sends_only
    (fun req =>
       exists l d, numbers = Some l /\ l <> [] /\ req_json req = Some d
         /\ d !! "phone_numbers" = Some (JList (map JStr l))
         /\ plus_digits_all l = true)
    (invoke c).
Proof.
  destruct c; try discriminate; intros [= <-]; unfold invoke.
  all: unfold_head sends_only; cbv beta zeta.
  all: apply sends_only_bind_require; intros ? _ _; cbv beta zeta.
  all: apply sends_only_bind_require; intros l -> Hl; cbv beta zeta.
  all: try (apply sends_only_bind_raise_if; intros _; cbv beta zeta).
  all: apply sends_only_bind_numbers; intros Hok.
  all: walk_sends.
  all: cbn [req_json]; exists l; eexists.
  all: split; [reflexivity|]; split; [destruct l; [discriminate Hl|discriminate]|].
  all: split; [reflexivity|]; split; [|exact Hok].
  all: rewrite !set_if_not_None_ne by discriminate; reflexivity.
Qed.

(** X20.  [send_batch_calls] and [upload_inbound_numbers] only send a
    non-empty list of numbers, unchanged, in which every number is a
    plus sign followed by digits only. *)
Theorem X20_number_list_sent (c : Call) (numbers : option (list string)) (t : Transport)
    (log : list Request) (out : outcome Json) (req : Request) :
  number_list_of c = Some numbers ->
  exec t (invoke c) = (log, out) -> In req log ->
  exists l d,
    numbers = Some l /\ l <> [] /\ req_json req = Some d
    /\ d !! "phone_numbers" = Some (JList (map JStr l))
    /\ forall number, In number l ->
         startswith "+" number = true /\ isdigit (tail number) = true.
Proof.
  intros Hc H Hin. pose proof (number_list_sends c numbers Hc t log out H) as HF.
  rewrite Forall_forall in HF. apply list_elem_of_In in Hin.
  destruct (HF req Hin) as (l & d & Hn & Hne & Hd & Hk & Hok).
  exists l, d. repeat (split; [assumption|]).
  intros number Hnum. unfold plus_digits_all in Hok.
  rewrite forallb_forall in Hok. specialize (Hok number Hnum).
  apply negb_true_iff in Hok. unfold not_plus_digits in Hok.
  apply orb_false_elim in Hok as [H1 H2]. split; apply negb_false_iff; assumption.
Qed.

Lemma X20_witness :
  exists l d,
    Some ["+12025550101"; "+12025550102"] = Some l /\ l <> []
    /\ req_json
         (mkRequest POST UPLOAD_INBOUND_NUMBERS_ENDPOINT (json_headers "key")
            (Some (dict [("phone_numbers",
                          JList [JStr "+12025550101"; JStr "+12025550102"])])) None)
       = Some d
    /\ d !! "phone_numbers" = Some (JList (map JStr l))
    /\ forall number, In number l ->
         startswith "+" number = true /\ isdigit (tail number) = true.
Proof.
  apply (X20_number_list_sent
           (Call_upload_inbound_numbers (Some "key")
              (Some ["+12025550101"; "+12025550102"]) None None None None None None None None)
           (Some ["+12025550101"; "+12025550102"]) ok_transport
           [mkRequest POST UPLOAD_INBOUND_NUMBERS_ENDPOINT (json_headers "key")
              (Some (dict [("phone_numbers",
                            JList [JStr "+12025550101"; JStr "+12025550102"])])) None]
           (Return (JDict ∅))).
  - reflexivity.
  - vm_compute. reflexivity.
  - left. reflexivity.
Defined.

(** ** Operations that only check the presence of their parameters *)

Lemma sends_when_present_require {A} `{Truthy A} (n : string) (x : option A) e l
    (k : A -> M Json) :
  (forall v, sends_when_present l (k v)) ->
  sends_when_present ((n, truthy x) :: l) (bind (require x e) k).
Proof.
  intros Hk Hl t. simpl in Hl. destruct (truthy x) eqn:Hx; [|discriminate].
  destruct x as [v|]; [|discriminate]. change (truthy v = true) in Hx.
  rewrite bind_require_ok by exact Hx. exact (Hk v Hl t).
Qed.

Lemma sends_when_present_token (x : option string) l (k : string -> M Json) :
  truthy x = true -> (forall v, sends_when_present l (k v)) ->
  sends_when_present l (bind (require x (ValueError ERROR_MISSING_AUTH)) k).
Proof.
  intros Hx Hk Hl t. destruct x as [v|]; [|discriminate]. change (truthy v = true) in Hx.
  rewrite bind_require_ok by exact Hx. exact (Hk v Hl t).
Qed.

Lemma sends_when_present_one_request (m : M Json) :
  (forall t log out, m t [] = (log, out) -> exists req, log = [req]) ->
  sends_when_present [] m.
Proof.
  intros Hm _ t. destruct (m t []) as [log out] eqn:E. exact (Hm t log out E).
Qed.

Lemma sends_when_present_normalized meth url headers json params :
  sends_when_present [] (normalized (requests_request meth url headers json params)).
Proof.
  apply sends_when_present_one_request. intros t log out H.
  rewrite normalized_request in H. injection H as <- _. eauto.
Qed.

Lemma sends_when_present_normalized_format r meth headers json params :
  (exists url, r = inr url) ->
  sends_when_present []
    (normalized (u <- lift r ;; requests_request meth u headers json params)).
Proof.
  intros [url ->]. apply sends_when_present_one_request. intros t log out H.
  rewrite (normalized_format_request _ url) in H by reflexivity.
  injection H as <- _. eauto.
Qed.

Lemma sends_when_present_try_request meth url headers json params
    (k : Response -> M Json) h :
  (forall r, pure (k r)) -> (forall msg, pure (h msg)) ->
  sends_when_present []
    (try_except_RequestException (bind (requests_request meth url headers json params) k) h).
Proof.
  intros Hk Hh. apply sends_when_present_one_request. intros t log out H.
  apply try_request_log in H; [|exact Hk|exact Hh]. eauto.
Qed.

Ltac walk_present :=
  cbv beta zeta;
  repeat (apply sends_when_present_require; intros ?; cbv beta zeta);
  first [ apply sends_when_present_normalized
        | apply sends_when_present_normalized_format; vm_compute; eexists; reflexivity
        | apply sends_when_present_try_request;
          [ intros ?; repeat (apply pure_bind; [|intros ?]); auto with pure_db
          | intros ?; apply pure_ret ] ].

Lemma invoke_sends_when_present (c : Call) :
  has_further_checks c = false -> truthy (auth_token_of c) = true ->
  sends_when_present (required_of c) (invoke c).
Proof.
  destruct c; try discriminate; intros _;
    unfold auth_token_of, required_of, invoke; intros Ha; try destruct kw.
  all: unfold_head sends_when_present; apply sends_when_present_token; [exact Ha | intros ?].
  all: walk_present.
Qed.

(** X21.  Apart from the sixteen operations that check more than the
    presence of their parameters (the operations that take phone
    numbers to call, to upload or to delete, the creation and the update
    of a custom tool, the creation of an encrypted key, the updates of a
    folder and of a pathway, the paginated lists, the batch details and
    the audio sample), an operation that is given its token and its
    required parameters always performs its request: no other argument
    is checked before sending. *)
Theorem X21_presence_is_the_only_check (c : Call) (t : Transport) :
  has_further_checks c = false -> truthy (auth_token_of c) = true ->
  first_missing (required_of c) = None ->
  exists req, fst (exec t (invoke c)) = [req].
Proof. intros Hc Ha Hl. exact (invoke_sends_when_present c Hc Ha Hl t). Qed.

Lemma X21_witness :
  exists req,
    fst (exec ok_transport
           (invoke (Call_update_inbound_details (Some "key") (Some "not a number") None None
                      (Some "gpt") None None (Some 7%float) None None)))
    = [req].
Proof.
  apply (X21_presence_is_the_only_check
           (Call_update_inbound_details (Some "key") (Some "not a number") None None
              (Some "gpt") None None (Some 7%float) None None)
           ok_transport).
  - reflexivity.
  - reflexivity.
  - reflexivity.
Defined.

(** ** Deleting an inbound number *)

Lemma delete_inbound_number_sends auth_token (phone_number : string) org_id :
  sends_only
    (fun req =>
       req_method req = DELETE
       /\ req_url req
          = "https://api.bland.ai/v1/phone/inbound/" ++ phone_number ++ "/delete"
       /\ req_json req = None /\ req_params req = None
       /\ startswith "+" phone_number = true /\ isdigit (tail phone_number) = true)
    (delete_inbound_number auth_token (Some phone_number) org_id).
Proof.
  unfold delete_inbound_number. walk_sends_keeping.
  repeat match goal with
         | H : Some _ = Some _ |- _ => injection H as <-
         end.
  match goal with
  | H : not_plus_digits _ = false |- _ =>
      unfold not_plus_digits in H; apply orb_false_elim in H as [Hplus Hdigits];
      apply negb_false_iff in Hplus, Hdigits
  end.
  cbn [req_method req_url req_json req_params].
  repeat split; assumption || reflexivity.
Qed.

(** X22.  [delete_inbound_number] only sends a DELETE request, without
    body or query parameters, to
    [https://api.bland.ai/v1/phone/inbound/<number>/delete], where the
    number is the argument unchanged and is a plus sign followed by
    digits only. *)
Theorem X22_delete_inbound_number_request (t : Transport) (auth_token : option string)
    (phone_number : string) (org_id : option string) (log : list Request)
    (out : outcome Json) (req : Request) :
  exec t (delete_inbound_number auth_token (Some phone_number) org_id) = (log, out) ->
  In req log ->
  req_method req = DELETE
  /\ req_url req = "https://api.bland.ai/v1/phone/inbound/" ++ phone_number ++ "/delete"
  /\ req_json req = None /\ req_params req = None
  /\ startswith "+" phone_number = true /\ isdigit (tail phone_number) = true.
Proof.
  intros H Hin.
  pose proof (delete_inbound_number_sends auth_token phone_number org_id t log out H) as HF.
  rewrite Forall_forall in HF. apply list_elem_of_In in Hin. exact (HF req Hin).
Qed.

Lemma X22_witness :
  req_method
    (mkRequest DELETE "https://api.bland.ai/v1/phone/inbound/+12025550101/delete"
       (auth_headers "key") None None)
  = DELETE
  /\ req_url
       (mkRequest DELETE "https://api.bland.ai/v1/phone/inbound/+12025550101/delete"
          (auth_headers "key") None None)
     = "https://api.bland.ai/v1/phone/inbound/" ++ "+12025550101" ++ "/delete"
  /\ req_json
       (mkRequest DELETE "https://api.bland.ai/v1/phone/inbound/+12025550101/delete"
          (auth_headers "key") None None)
     = None
  /\ req_params
       (mkRequest DELETE "https://api.bland.ai/v1/phone/inbound/+12025550101/delete"
          (auth_headers "key") None None)
     = None
  /\ startswith "+" "+12025550101" = true /\ isdigit (tail "+12025550101") = true.
Proof.
  apply (X22_delete_inbound_number_request ok_transport (Some "key") "+12025550101" None
           [mkRequest DELETE "https://api.bland.ai/v1/phone/inbound/+12025550101/delete"
              (auth_headers "key") None None]
           (Return (JDict ∅))).
  - vm_compute. reflexivity.
  - left. reflexivity.
Defined.
